(** * Azure scale-set provider: identity resolution and backend-pool reconciliation

    A shallow embedding of
    [cluster-autoscaler/vendor/sigs.k8s.io/cloud-provider-azure/pkg/provider/azure_vmss.go]
    and the properties of its node-identity resolver and backend-pool
    reconciler.

    Conventions of the embedding:
    - a Go [string] is a Rocq [string] (a sequence of bytes), [len] is
      [String.length];
    - a Go pointer that may be [nil] is an [option];
    - a Go slice of [compute.SubResource] is a header (array, offset, length,
      capacity) over a store of backing arrays, so that two slices which share
      an array see each other's writes;
    - a [nil] dereference or an index out of range is the outcome [Panic];
    - a method of [*ScaleSet] is a function of a record [ScaleSet] that holds
      the configuration and the collaborators declared in other files. *)

From Stdlib Require Import String Ascii List NArith Lia Bool DecimalString.
From stdpp Require Import base list strings option.

Open Scope string_scope.
Open Scope list_scope.

Set Warnings "-register-all".

(** ** Go strings *)

Module GoString.

(** Simple case folding of one byte: ['A'..'Z'] is mapped onto ['a'..'z'],
    every other byte onto itself. *)
Definition foldByte (c : ascii) : ascii :=
  let n := N_of_ascii c in
  if (65 <=? n)%N && (n <=? 90)%N then ascii_of_N (n + 32) else c.

(** [strings.EqualFold] on strings of ASCII bytes, the alphabet of Azure
    resource identifiers and node names: the letters are compared up to
    case, every other byte as it is.  (On other runes Go folds by the
    Unicode tables, which are left out.) *)
Fixpoint EqualFold (s t : string) : bool :=
  match s, t with
  | EmptyString, EmptyString => true
  | String a s', String b t' => Ascii.eqb (foldByte a) (foldByte b) && EqualFold s' t'
  | _, _ => false
  end.

(** [strings.ToLower] on ASCII. *)
Fixpoint ToLower (s : string) : string :=
  match s with
  | EmptyString => EmptyString
  | String a s' => String (foldByte a) (ToLower s')
  end.

(** [strings.HasPrefix s p]. *)
Definition HasPrefix (s p : string) : bool := String.prefix p s.

(** [strings.TrimPrefix s p]. *)
Definition TrimPrefix (s p : string) : string :=
  if HasPrefix s p then substring (String.length p) (String.length s - String.length p) s
  else s.

(** [to.String]: the pointed string, or the empty string for [nil]. *)
Definition to_String (p : option string) : string := default "" p.

(** [s[lo:]] and [s[:hi]] for indices in range. *)
Definition from (lo : nat) (s : string) : string := substring lo (String.length s - lo) s.
Definition upto (hi : nat) (s : string) : string := substring 0 hi s.

(** The value of one digit in [strconv.ParseUint]: ['0'..'9'], then the
    letters of either case from 10 on. *)
Definition digitValue (c : ascii) : option N :=
  let n := N_of_ascii c in
  if (48 <=? n)%N && (n <=? 57)%N then Some (n - 48)%N
  else if (97 <=? n)%N && (n <=? 122)%N then Some (n - 97 + 10)%N
  else if (65 <=? n)%N && (n <=? 90)%N then Some (n - 65 + 10)%N
  else None.

Fixpoint parseDigits (base : N) (maxVal : N) (acc : N) (s : string) : option N :=
  match s with
  | EmptyString => Some acc
  | String c s' =>
      match digitValue c with
      | None => None
      | Some d =>
          if (base <=? d)%N then None
          else
            let n1 := (acc * base + d)%N in
            if (maxVal <? n1)%N then None else parseDigits base maxVal n1 s'
      end
  end.

(** [strconv.ParseUint s base bitSize] for an explicit base between 2 and 36:
    [None] stands for either error (syntax or range). *)
Definition ParseUint (s : string) (base : N) (bitSize : N) : option N :=
  match s with
  | EmptyString => None
  | _ => parseDigits base (2 ^ bitSize - 1)%N 0%N s
  end.

(** [fmt.Sprintf("%d", n)] for an unsigned integer. *)
Definition formatUint (n : N) : string := NilZero.string_of_uint (N.to_uint n).

End GoString.

Import GoString.

(** ** Errors and outcomes *)

(** The errors this file produces or inspects.  [ErrorNotVmssInstance] is the
    package sentinel, [InstanceNotFound] is [cloudprovider.InstanceNotFound],
    [Errorf] is a [fmt.Errorf] value, [External] an error handed back by a
    collaborator (cache getter, remote client, availability set), and
    [Aggregate] the list built by [utilerrors.NewAggregate]. *)
Inductive error : Type :=
| ErrorNotVmssInstance
| InstanceNotFound
| Errorf (msg : string)
| External (msg : string)
| Aggregate (errs : list error).

(** [errors.Is err cloudprovider.InstanceNotFound]; an aggregate matches when
    one of its members does. *)
Fixpoint isInstanceNotFound (e : error) : bool :=
  match e with
  | InstanceNotFound => true
  | Aggregate es => existsb isInstanceNotFound es
  | _ => false
  end.

(** [errors.Is err ErrorNotVmssInstance]. *)
Fixpoint isErrorNotVmssInstance (e : error) : bool :=
  match e with
  | ErrorNotVmssInstance => true
  | Aggregate es => existsb isErrorNotVmssInstance es
  | _ => false
  end.

(** What a call yields: a value, or a run-time panic. *)
Inductive res (A : Type) : Type :=
| Val (a : A)
| Panic.
Arguments Val {A} a.
Arguments Panic {A}.

(** ** Slices of sub-resources over a store of backing arrays *)

(** [compute.SubResource]: a reference to a backend pool by its id. *)
Record SubResource : Type := mkSubResource { ID : option string }.

(** A slice header: the backing array [ptr], the index [off] of the slice's
    first element in it, its length and its capacity. *)
Record slice : Type := mkSlice { ptr : nat; off : nat; len : nat; cap : nat }.

(** The store of backing arrays; an array is addressed by its position. *)
Abbreviation Store := (list (list SubResource)).

Module Slice.

(** The element [s[i]]; [None] when [i] is out of range. *)
Definition index (st : Store) (s : slice) (i : nat) : option SubResource :=
  if decide (i < len s) then
    match st !! ptr s with
    | Some a => a !! (off s + i)
    | None => None
    end
  else None.

(** The elements [s[0], ..., s[len s - 1]]. *)
Definition elems (st : Store) (s : slice) : list SubResource :=
  match st !! ptr s with
  | Some a => take (len s) (drop (off s) a)
  | None => []
  end.

(** [s[:hi]] and [s[lo:]], for [hi <= cap s] and [lo <= len s]. *)
Definition upto (s : slice) (hi : nat) : slice :=
  {| ptr := ptr s; off := off s; len := hi; cap := cap s |}.
Definition from (s : slice) (lo : nat) : slice :=
  {| ptr := ptr s; off := off s + lo; len := len s - lo; cap := cap s - lo |}.

(** A slice lies within its backing array; a slice without capacity needs
    none. *)
Definition wf (st : Store) (s : slice) : Prop :=
  len s <= cap s /\
  (cap s = 0 \/ exists a, st !! ptr s = Some a /\ off s + cap s <= length a).

(** The zero value of the element type, which fills a fresh array. *)
Definition zero : SubResource := {| ID := None |}.

(** [append(s, xs...)], with [xs] already read (the run time copies as
    [memmove] does, so an overlapping source is read before it is
    overwritten).  Within capacity the elements are written into the backing
    array of [s], after its last element; beyond capacity a fresh array
    receives the elements of [s] and [xs].  [growslice old needed] is the
    capacity the run time chooses for the fresh array, at least [needed]. *)
Definition append (growslice : nat -> nat -> nat)
    (st : Store) (s : slice) (xs : list SubResource) : Store * slice :=
  let n := len s + length xs in
  if decide (n <= cap s) then
    (alter (list_inserts (off s + len s) xs) (ptr s) st,
     {| ptr := ptr s; off := off s; len := n; cap := cap s |})
  else
    let c := Nat.max n (growslice (cap s) n) in
    (st ++ [elems st s ++ xs ++ replicate (c - n) zero],
     {| ptr := length st; off := 0; len := n; cap := c |}).

(** The empty slice literal [[]compute.SubResource{}] (and the [nil] slice):
    no element and no capacity. *)
Definition empty : slice := {| ptr := 0; off := 0; len := 0; cap := 0 |}.

End Slice.

(** ** Data model *)

(** A Go pair [(T, error)] as returned by the functions of this file: the
    value when the error is [nil], the error otherwise. *)
Inductive result (T : Type) : Type :=
| Ok (t : T)
| Err (e : error).
Arguments Ok {T} t.
Arguments Err {T} e.

(** [compute.IPVersion] is a string type with two named values. *)
Definition IPVersionIPv4 : string := "IPv4".
Definition IPVersionIPv6 : string := "IPv6".

(** [compute.VirtualMachineScaleSetIPConfiguration], with the fields read
    here.  The membership list is a pointer to a slice. *)
Record VirtualMachineScaleSetIPConfiguration : Type := mkIPConfiguration {
  ipName : option string;
  ipPrimary : option bool;
  PrivateIPAddressVersion : string;
  LoadBalancerBackendAddressPools : option slice
}.

(** [compute.VirtualMachineScaleSetNetworkConfiguration]. *)
Record VirtualMachineScaleSetNetworkConfiguration : Type := mkNetworkConfiguration {
  nicName : option string;
  nicPrimary : option bool;
  IPConfigurations : option (list VirtualMachineScaleSetIPConfiguration)
}.

(** [compute.VirtualMachineScaleSetVMNetworkProfileConfiguration]. *)
Record VirtualMachineScaleSetVMNetworkProfileConfiguration : Type := mkNetworkProfileConfiguration {
  NetworkInterfaceConfigurations : option (list VirtualMachineScaleSetNetworkConfiguration)
}.

(** [compute.InstanceViewStatus] and the instance view that lists them. *)
Record InstanceViewStatus : Type := mkStatus { Code : option string }.
Record VirtualMachineScaleSetVMInstanceView : Type := mkInstanceView {
  Statuses : option (list InstanceViewStatus)
}.

(** [compute.OSProfile] of a machine, with its computer name. *)
Record OSProfile : Type := mkVMOSProfile { ComputerName : option string }.

(** [compute.VirtualMachineScaleSetVMProperties]: the instance view, the OS
    profile ([OsProfile] in Go), the interface configurations and the
    provisioning state; the hardware profile is carried along and never
    inspected. *)
Record VirtualMachineScaleSetVMProperties : Type := mkVMProperties {
  InstanceView : option VirtualMachineScaleSetVMInstanceView;
  HardwareProfile : option string;
  vmOsProfile : option OSProfile;
  NetworkProfileConfiguration : option VirtualMachineScaleSetVMNetworkProfileConfiguration;
  ProvisioningState : option string
}.

(** [compute.VirtualMachineScaleSetVM]: its location and the embedded pointer
    [*VirtualMachineScaleSetVMProperties].  Go promotes the fields of the
    properties to the machine ([v.InstanceView], [vm.OsProfile]); a read of
    a promoted field goes through the pointer and panics when it is nil. *)
Record VirtualMachineScaleSetVM : Type := mkVMSSVM {
  vmLocation : option string;
  vmProperties : option VirtualMachineScaleSetVMProperties
}.

(** [compute.VirtualMachineScaleSet] and the profile of its machines: the
    computer-name prefix of the OS profile and the interface configurations
    of the template. *)
Record VirtualMachineScaleSetOSProfile : Type := mkOSProfile {
  ComputerNamePrefix : option string
}.
Record VirtualMachineScaleSetNetworkProfile : Type := mkNetworkProfile {
  vmssNetworkInterfaceConfigurations : option (list VirtualMachineScaleSetNetworkConfiguration)
}.
Record VirtualMachineScaleSetVMProfile : Type := mkVMProfile {
  OsProfile : option VirtualMachineScaleSetOSProfile;
  NetworkProfile : option VirtualMachineScaleSetNetworkProfile
}.
(** [compute.VirtualMachineScaleSetProperties], and the scale set with the
    embedded pointer to them: [vmss.VirtualMachineProfile] and
    [vmss.ProvisioningState] are reads through this pointer, which panic
    when it is nil. *)
Record VirtualMachineScaleSetProperties : Type := mkVMSSProperties {
  vmssProvisioningState : option string;
  VirtualMachineProfile : option VirtualMachineScaleSetVMProfile
}.
Record VirtualMachineScaleSet : Type := mkVMSS {
  Name : option string;
  vmssLocation : option string;
  vmssProperties : option VirtualMachineScaleSetProperties
}.

(** The heap: backing arrays of the membership lists, virtual-machine
    objects and scale-set objects.  A pointer to an object is its position. *)
#[projections(primitive)] Record Heap : Type := mkHeap {
  arrays : Store;
  vmObjs : list VirtualMachineScaleSetVM;
  vmssObjs : list VirtualMachineScaleSet
}.

(** [virtualmachine.VirtualMachine]: the resolved machine, which keeps a
    pointer [vmssVM] to the cached [compute.VirtualMachineScaleSetVM]; its
    [VirtualMachineScaleSetVMProperties] are those of the pointed object. *)
Inductive Variant : Type := VariantVirtualMachine | VariantVirtualMachineScaleSetVM.
Record VirtualMachine : Type := mkVirtualMachine {
  variant : Variant;
  VMSSName : string;
  InstanceID : string;
  Location : string;
  vmssVM : option nat
}.

(** [vmssEntry]: a cached scale set (a pointer) and its resource group. *)
Record vmssEntry : Type := mkVmssEntry { vmss : option nat; entryResourceGroup : string }.

(** [vmssVirtualMachinesEntry]: a cached machine of a scale set. *)
Record vmssVirtualMachinesEntry : Type := mkVmssVMEntry {
  vmEntryResourceGroup : string;
  entryVmssName : string;
  entryInstanceID : string;
  virtualMachine : option nat
}.

(** [nodeIdentity] and [vmssMetaInfo]. *)
Record nodeIdentity : Type := mkNodeIdentity {
  resourceGroup : string;
  vmssName : string;
  nodeName : string
}.
Record vmssMetaInfo : Type := mkVmssMetaInfo { metaVmssName : string; metaResourceGroup : string }.

(** [azcache.AzureCacheReadType]. *)
Inductive AzureCacheReadType : Type :=
| CacheReadTypeDefault
| CacheReadTypeUnsafe
| CacheReadTypeForceRefresh.

(** [v1.Service] and [v1.Node], with what this file reads of them. *)
Record Service : Type := mkService { serviceName : string; ClusterIP : string }.
Record Node : Type := mkNode { nodeObjName : string; ProviderID : string; isControlPlane : bool }.

(** [network.BackendAddressPool]: its id and the ids of its backend IP
    configurations. *)
Record BackendAddressPool : Type := mkBackendAddressPool {
  poolID : option string;
  BackendIPConfigurations : option (list (option string))
}.

(** ** Computations over a state *)

Section Computation.

Context {S : Type}.

(** A computation: from a state to a value or a panic, and the state left. *)
Definition M (A : Type) : Type := S -> res A * S.

Definition ret {A : Type} (a : A) : M A := fun s => (Val a, s).

Definition bind {A B : Type} (c : M A) (k : A -> M B) : M B :=
  fun s =>
    match c s with
    | (Val a, s') => k a s'
    | (Panic, s') => (Panic, s')
    end.

Definition panic {A : Type} : M A := fun s => (Panic, s).

(** A pointer dereference: the pointed value, or a panic for [nil]. *)
Definition deref {A : Type} (p : option A) : M A :=
  match p with
  | Some a => ret a
  | None => panic
  end.

Definition get : M S := fun s => (Val s, s).
Definition put (s : S) : M unit := fun _ => (Val tt, s).

End Computation.

Arguments M S A : clear implicits.

Declare Scope go_scope.
Delimit Scope go_scope with go.
Notation "x <- c ;; k" := (bind c (fun x => k))
  (at level 100, c at next level, right associativity) : go_scope.
Open Scope go_scope.

(** ** The world *)

(** What the caller can observe of a call besides its result: reads and
    deletions of cache entries, and calls to collaborators. *)
Inductive Event : Type :=
| EvCacheGet (cache : string) (key : string) (crt : AzureCacheReadType)
| EvCacheDelete (cache : string) (key : string)
| EvCall (callee : string) (args : list string).

(** What a collaborator may read and change: the heap, and the state of the
    caches and of the remote control plane, which this file never inspects. *)
#[projections(primitive)] Record Sys (Remote : Type) : Type := mkSys { heap : Heap; remote : Remote }.
Arguments mkSys {Remote} heap remote.
Arguments heap {Remote} s.
Arguments remote {Remote} s.

(** The world of a call: the system and the events issued so far. *)
#[projections(primitive)] Record World (Remote : Type) : Type := mkWorld { sys : Sys Remote; trace : list Event }.
Arguments mkWorld {Remote} sys trace.
Arguments sys {Remote} w.
Arguments trace {Remote} w.

(** A call to a collaborator, recorded in the trace. *)
Definition call {Remote A : Type} (ev : Event) (f : Sys Remote -> A * Sys Remote)
  : M (World Remote) A :=
  fun w =>
    let (a, s') := f (sys w) in
    (Val a, {| sys := s'; trace := trace w ++ [ev] |}).

(** A computation over the heap, run in the world. *)
Definition onHeap {Remote A : Type} (c : M Heap A) : M (World Remote) A :=
  fun w =>
    let (r, h') := c (heap (sys w)) in
    (r, {| sys := {| heap := h'; remote := remote (sys w) |}; trace := trace w |}).

(** ** The provider and its collaborators *)

(** [VMSet], the interface of the availability-set manager, through the
    methods this file calls. *)
Record VMSet (Remote : Type) : Type := mkVMSet {
  as_GetPowerStatusByNodeName :
    string -> Sys Remote -> (string * option error) * Sys Remote;
  as_EnsureHostInPool :
    Service -> string -> string -> string -> Sys Remote -> option error * Sys Remote;
  as_GetNodeNameByIPConfigurationID :
    string -> Sys Remote -> (string * string * option error) * Sys Remote
}.
Arguments as_GetPowerStatusByNodeName {Remote} v.
Arguments as_EnsureHostInPool {Remote} v.
Arguments as_GetNodeNameByIPConfigurationID {Remote} v.

(** [ScaleSet], the receiver of the methods: the configuration of the cloud,
    and what the methods call that is declared outside this file (helpers of
    the package, caches, remote clients, the availability-set manager, and
    the capacity a reallocating [append] chooses).
    [FromVirtualMachineScaleSetVM p name h] is the [virtualmachine.VirtualMachine]
    built from the machine that [p] points to in [h].  A regular expression is
    held through [FindStringSubmatch]: the captured groups when it matches. *)
Record ScaleSet (Remote : Type) : Type := mkScaleSet {
  useStandardLoadBalancer : bool;
  EnableMultipleStandardLoadBalancers : bool;
  excludeMasterNodesFromStandardLB : bool;
  ipv6DualStackEnabled : bool;
  ResourceGroup : string;
  GetPrimaryVMSetName : string;
  getVMSetNamesSharingPrimarySLB : list string;
  getPutVMSSVMBatchSize : nat;
  growslice : nat -> nat -> nat;
  mapNodeNameToVMName : string -> string;
  IsIPv6String : string -> bool;
  isBackendPoolOnSameLB : string -> list string -> bool * string * option error;
  GetNodeResourceGroup : string -> result string;
  FromVirtualMachineScaleSetVM : nat -> string -> Heap -> VirtualMachine;
  scaleSetNameRE : string -> option string;
  vmssIPConfigurationRE : string -> option (string * string * string);
  vmssVMProviderIDRE : string -> option (string * string);
  availabilitySet : VMSet Remote;
  vmssCache_Get :
    AzureCacheReadType -> Sys Remote -> result (list (string * vmssEntry)) * Sys Remote;
  vmssCache_Delete : Sys Remote -> Sys Remote;
  getVMSSVMCache : string -> string -> Sys Remote -> result string * Sys Remote;
  vmssVMCache_Get :
    string -> AzureCacheReadType -> Sys Remote ->
    result (list (string * vmssVirtualMachinesEntry)) * Sys Remote;
  isNodeManagedByAvailabilitySet :
    string -> AzureCacheReadType -> Sys Remote -> result bool * Sys Remote;
  ShouldNodeExcludedFromLoadBalancer : string -> Sys Remote -> result bool * Sys Remote;
  deleteCacheForNode : string -> Sys Remote -> Sys Remote;
  UpdateVMs :
    string -> string -> list (string * VirtualMachineScaleSetVM) -> string -> nat ->
    Sys Remote -> option error * Sys Remote;
  CreateOrUpdateVMSS :
    string -> string -> VirtualMachineScaleSet -> Sys Remote -> option error * Sys Remote
}.
Arguments useStandardLoadBalancer {Remote} s.
Arguments EnableMultipleStandardLoadBalancers {Remote} s.
Arguments excludeMasterNodesFromStandardLB {Remote} s.
Arguments ipv6DualStackEnabled {Remote} s.
Arguments ResourceGroup {Remote} s.
Arguments GetPrimaryVMSetName {Remote} s.
Arguments getVMSetNamesSharingPrimarySLB {Remote} s.
Arguments getPutVMSSVMBatchSize {Remote} s.
Arguments growslice {Remote} s.
Arguments mapNodeNameToVMName {Remote} s.
Arguments IsIPv6String {Remote} s.
Arguments isBackendPoolOnSameLB {Remote} s.
Arguments GetNodeResourceGroup {Remote} s.
Arguments FromVirtualMachineScaleSetVM {Remote} s.
Arguments scaleSetNameRE {Remote} s.
Arguments vmssIPConfigurationRE {Remote} s.
Arguments vmssVMProviderIDRE {Remote} s.
Arguments availabilitySet {Remote} s.
Arguments vmssCache_Get {Remote} s.
Arguments vmssCache_Delete {Remote} s.
Arguments getVMSSVMCache {Remote} s.
Arguments vmssVMCache_Get {Remote} s.
Arguments isNodeManagedByAvailabilitySet {Remote} s.
Arguments ShouldNodeExcludedFromLoadBalancer {Remote} s.
Arguments deleteCacheForNode {Remote} s.
Arguments UpdateVMs {Remote} s.
Arguments CreateOrUpdateVMSS {Remote} s.

(** Modelled from the spec: constants of the package that are declared in
    other files.  A machine whose instance view names no power state is
    taken as "stopped"; a status code names a power state after the prefix
    "PowerState/"; a scale set that is being deleted is in the provisioning
    state "Deallocating"; the scale-set cache has one key. *)
Definition VMSSKey : string := "k8svmssKey".
Definition vmPowerStatePrefix : string := "PowerState/".
Definition vmPowerStateStopped : string := "stopped".
Definition VirtualMachineScaleSetsDeallocating : string := "Deallocating".

(** ** Instance id of a machine name *)

(** [getScaleSetVMInstanceID]: the last six bytes of the machine name, read
    in base 36, printed in base 10. *)
Definition getScaleSetVMInstanceID (machineName : string) : result string :=
  let nameLength := String.length machineName in
  if decide (nameLength < 6) then Err ErrorNotVmssInstance
  else
    match ParseUint (GoString.from (nameLength - 6) machineName) 36 64 with
    | None => Err ErrorNotVmssInstance
    | Some instanceID => Ok (formatUint instanceID)
    end.

(** ** Selection of the primary configuration *)

(** [fmt.Errorf]: the format and its arguments. *)
Definition fmtErrorf (format : string) (args : list string) : error :=
  Errorf (String.concat "|" (format :: args)).

Definition isPrimaryNIC (c : VirtualMachineScaleSetNetworkConfiguration) : bool :=
  match nicPrimary c with
  | Some true => true
  | _ => false
  end.

Definition isPrimaryIP (c : VirtualMachineScaleSetIPConfiguration) : bool :=
  match ipPrimary c with
  | Some true => true
  | _ => false
  end.

(** The loop [for idx := range cs { if p(cs[idx]) { return idx } }]: the
    first index whose element satisfies [p]. *)
Fixpoint findIndex {A : Type} (p : A -> bool) (cs : list A) : option nat :=
  match cs with
  | [] => None
  | c :: cs' => if p c then Some 0 else S <$> findIndex p cs'
  end.

(** [getPrimaryNetworkInterfaceConfiguration]; the pointer it returns,
    [&networkConfigurations[idx]], is the index [idx]. *)
Definition getPrimaryNetworkInterfaceConfiguration
    (networkConfigurations : list VirtualMachineScaleSetNetworkConfiguration)
    (nodeName : string) : result nat :=
  if decide (length networkConfigurations = 1) then Ok 0
  else
    match findIndex isPrimaryNIC networkConfigurations with
    | Some idx => Ok idx
    | None =>
        Err (fmtErrorf
               "failed to find a primary network configuration for the scale set VM %q"
               [nodeName])
    end.

(** [getPrimaryNetworkInterfaceConfigurationForScaleSet]. *)
Definition getPrimaryNetworkInterfaceConfigurationForScaleSet
    (networkConfigurations : list VirtualMachineScaleSetNetworkConfiguration)
    (vmssName : string) : result nat :=
  if decide (length networkConfigurations = 1) then Ok 0
  else
    match findIndex isPrimaryNIC networkConfigurations with
    | Some idx => Ok idx
    | None =>
        Err (fmtErrorf
               "failed to find a primary network configuration for the scale set %q"
               [vmssName])
    end.

(** [getPrimaryIPConfigFromVMSSNetworkConfig]; [*config.IPConfigurations]
    panics when the pointer is [nil]. *)
Definition getPrimaryIPConfigFromVMSSNetworkConfig
    (config : VirtualMachineScaleSetNetworkConfiguration) : res (result nat) :=
  match IPConfigurations config with
  | None => Panic
  | Some ipConfigurations =>
      if decide (length ipConfigurations = 1) then Val (Ok 0)
      else
        match findIndex isPrimaryIP ipConfigurations with
        | Some idx => Val (Ok idx)
        | None => Val (Err (fmtErrorf "failed to find a primary IP configuration" []))
        end
  end.

(** [getConfigForScaleSetByIPFamily]. *)
Definition getConfigForScaleSetByIPFamily
    (config : VirtualMachineScaleSetNetworkConfiguration) (nodeName : string) (IPv6 : bool)
  : res (result nat) :=
  match IPConfigurations config with
  | None => Panic
  | Some ipConfigurations =>
      let ipVersion := if IPv6 then IPVersionIPv6 else IPVersionIPv4 in
      match findIndex (fun c => String.eqb (PrivateIPAddressVersion c) ipVersion)
                      ipConfigurations with
      | Some idx => Val (Ok idx)
      | None =>
          Val (Err (fmtErrorf
                      "failed to find a IPconfiguration(IPv6=%v) for the scale set VM %q"
                      [if IPv6 then "true" else "false"; nodeName]))
      end
  end.

(** ** Writing a membership list through the pointers of the heap *)

(** [c.LoadBalancerBackendAddressPools = pools]. *)
Definition setPools (pools : option slice) (c : VirtualMachineScaleSetIPConfiguration)
  : VirtualMachineScaleSetIPConfiguration :=
  {| ipName := ipName c;
     ipPrimary := ipPrimary c;
     PrivateIPAddressVersion := PrivateIPAddressVersion c;
     LoadBalancerBackendAddressPools := pools |}.

(** The same assignment through the pointer to the IP configuration [j] of
    an interface configuration. *)
Definition setPoolsInNIC (j : nat) (pools : option slice)
    (nic : VirtualMachineScaleSetNetworkConfiguration)
  : VirtualMachineScaleSetNetworkConfiguration :=
  {| nicName := nicName nic;
     nicPrimary := nicPrimary nic;
     IPConfigurations := alter (setPools pools) j <$> IPConfigurations nic |}.

(** ... of the interface configuration [i] of a list. *)
Definition setPoolsInNICs (i j : nat) (pools : option slice)
    (nics : list VirtualMachineScaleSetNetworkConfiguration)
  : list VirtualMachineScaleSetNetworkConfiguration :=
  alter (setPoolsInNIC j pools) i nics.

(** ... in the interface configurations of a machine. *)
Definition setPoolsInVM (i j : nat) (pools : option slice) (obj : VirtualMachineScaleSetVM)
  : VirtualMachineScaleSetVM :=
  {| vmLocation := vmLocation obj;
     vmProperties :=
       (fun props =>
          {| InstanceView := InstanceView props;
             HardwareProfile := HardwareProfile props;
             vmOsProfile := vmOsProfile props;
             NetworkProfileConfiguration :=
               (fun npc =>
                  {| NetworkInterfaceConfigurations :=
                       setPoolsInNICs i j pools <$> NetworkInterfaceConfigurations npc |})
                 <$> NetworkProfileConfiguration props;
             ProvisioningState := ProvisioningState props |})
         <$> vmProperties obj |}.

(** ... in the template of a scale set. *)
Definition setPoolsInVMSS (i j : nat) (pools : option slice) (obj : VirtualMachineScaleSet)
  : VirtualMachineScaleSet :=
  {| Name := Name obj;
     vmssLocation := vmssLocation obj;
     vmssProperties :=
       (fun props =>
          {| vmssProvisioningState := vmssProvisioningState props;
             VirtualMachineProfile :=
               (fun prof =>
                  {| OsProfile := OsProfile prof;
                     NetworkProfile :=
                       (fun np =>
                          {| vmssNetworkInterfaceConfigurations :=
                               setPoolsInNICs i j pools
                                 <$> vmssNetworkInterfaceConfigurations np |})
                         <$> NetworkProfile prof |})
                 <$> VirtualMachineProfile props |})
         <$> vmssProperties obj |}.

(** The heap after the assignment in the machine at [l], and in the scale
    set at [l]. *)
Definition setVMPools (l i j : nat) (pools : option slice) (h : Heap) : Heap :=
  {| arrays := arrays h;
     vmObjs := alter (setPoolsInVM i j pools) l (vmObjs h);
     vmssObjs := vmssObjs h |}.

Definition setVMSSPools (l i j : nat) (pools : option slice) (h : Heap) : Heap :=
  {| arrays := arrays h;
     vmObjs := vmObjs h;
     vmssObjs := alter (setPoolsInVMSS i j pools) l (vmssObjs h) |}.

(** A computation over the backing arrays, run in the heap. *)
Definition onArrays {A : Type} (c : M Store A) : M Heap A :=
  fun h =>
    let (r, st') := c (arrays h) in
    (r, {| arrays := st'; vmObjs := vmObjs h; vmssObjs := vmssObjs h |}).

(** ** Removing a pool from a membership list *)

(** The loop
    [for i := len(existing) - 1; i >= 0; i-- {
       curPool := existing[i]
       if strings.EqualFold(backendPoolID, *curPool.ID) {
         foundPool = true
         newBackendPools = append(existing[:i], existing[i+1:]...)
       }
     }]
    of [ensureBackendPoolDeletedFromNode] and of
    [EnsureBackendPoolDeletedFromVMSets], from index [k - 1] down.  The slice
    [existing[:i]] has the capacity of [existing], so [append] writes into
    the array that [existing] keeps reading. *)
Fixpoint removeBackendPoolLoop (grow : nat -> nat -> nat) (backendPoolID : string)
    (existing : slice) (k : nat) (newBackendPools : slice) (foundPool : bool)
  : M Store (slice * bool) :=
  match k with
  | 0 => ret (newBackendPools, foundPool)
  | S i =>
      st <- get ;;
      curPool <- deref (Slice.index st existing i) ;;
      id <- deref (ID curPool) ;;
      if EqualFold backendPoolID id then
        let (st', appended) :=
          Slice.append grow st (Slice.upto existing i)
                       (Slice.elems st (Slice.from existing (i + 1))) in
        _ <- put st' ;;
        removeBackendPoolLoop grow backendPoolID existing i appended true
      else
        removeBackendPoolLoop grow backendPoolID existing i newBackendPools foundPool
  end.

(** What the staging functions return:
    [(resourceGroup, vmSetName, instanceID, vmssVM, error)]. *)
Definition Staged : Type :=
  (string * string * string * option VirtualMachineScaleSetVM * option error)%type.

Definition stagedNothing : Staged := ("", "", "", None, None).
Definition stagedError (err : error) : Staged := ("", "", "", None, Some err).

(** The update composed for a machine: its location, its hardware profile
    and its interface configurations. *)
Definition newVM (vm : VirtualMachine) (props : VirtualMachineScaleSetVMProperties)
    (networkInterfaceConfigurations : list VirtualMachineScaleSetNetworkConfiguration)
  : VirtualMachineScaleSetVM :=
  {| vmLocation := Some (Location vm);
     vmProperties :=
       Some {| InstanceView := None;
               HardwareProfile := HardwareProfile props;
               vmOsProfile := None;
               NetworkProfileConfiguration :=
                 Some {| NetworkInterfaceConfigurations :=
                           Some networkInterfaceConfigurations |};
               ProvisioningState := None |} |}.

(** A value or a panic, as a computation. *)
Definition liftRes {S A : Type} (r : res A) : M S A :=
  match r with
  | Val a => ret a
  | Panic => panic
  end.

(** [ensureBackendPoolDeletedFromNode], from the machine that [getVmssVM]
    resolved on. *)
Definition ensureBackendPoolDeletedFromNode_vm {Remote : Type} (ss : ScaleSet Remote)
    (vm : VirtualMachine) (nodeName backendPoolID : string) : M Heap Staged :=
  l <- deref (vmssVM vm) ;;
  h <- get ;;
  obj <- deref (vmObjs h !! l) ;;
  props <- deref (vmProperties obj) ;;
  npc <- deref (NetworkProfileConfiguration props) ;;
  match NetworkInterfaceConfigurations npc with
  | None => ret stagedNothing
  | Some networkInterfaceConfigurations =>
      match getPrimaryNetworkInterfaceConfiguration networkInterfaceConfigurations nodeName with
      | Err err => ret (stagedError err)
      | Ok i =>
          nic <- deref (networkInterfaceConfigurations !! i) ;;
          r <- liftRes (getPrimaryIPConfigFromVMSSNetworkConfig nic) ;;
          match r with
          | Err err => ret (stagedError err)
          | Ok j =>
              ipConfigurations <- deref (IPConfigurations nic) ;;
              primaryIPConfiguration <- deref (ipConfigurations !! j) ;;
              match LoadBalancerBackendAddressPools primaryIPConfiguration with
              | None => ret stagedNothing
              | Some existingBackendPools =>
                  if decide (len existingBackendPools = 0) then ret stagedNothing
                  else
                    lf <- onArrays (removeBackendPoolLoop (growslice ss) backendPoolID
                                      existingBackendPools (len existingBackendPools)
                                      Slice.empty false) ;;
                    if negb lf.2 then ret stagedNothing
                    else
                      h1 <- get ;;
                      _ <- put (setVMPools l i j (Some lf.1) h1) ;;
                      let update :=
                        newVM vm props
                          (setPoolsInNICs i j (Some lf.1) networkInterfaceConfigurations) in
                      match GetNodeResourceGroup ss nodeName with
                      | Err err => ret (stagedError err)
                      | Ok nodeResourceGroup =>
                          ret (nodeResourceGroup, VMSSName vm, InstanceID vm, Some update, None)
                      end
              end
          end
      end
  end.

(** ** Adding a pool to a membership list *)

(** The loop
    [for _, existingPool := range pools {
       if strings.EqualFold(backendPoolID, *existingPool.ID) { found = true; break }
     }]:
    whether an entry of [pools] is the pool, a [nil] id before such an entry
    being dereferenced. *)
Fixpoint containsPool (backendPoolID : string) (pools : list SubResource) : res bool :=
  match pools with
  | [] => Val false
  | existingPool :: pools' =>
      match ID existingPool with
      | None => Panic
      | Some id =>
          if EqualFold backendPoolID id then Val true else containsPool backendPoolID pools'
      end
  end.

(** The loop [for _, pool := range pools { if pool.ID != nil { ids = append(ids, *pool.ID) } }]. *)
Definition backendPoolIDs (pools : list SubResource) : list string :=
  omap ID pools.

(** The IP configuration that receives the pool, in [EnsureHostInPool] and in
    [ensureVMSSInPool]: the primary one for an IPv4 service of a single-stack
    cluster, else the first one of the address family of the cluster IP. *)
Definition selectIPConfiguration {Remote : Type} (ss : ScaleSet Remote) (service : Service)
    (config : VirtualMachineScaleSetNetworkConfiguration) (nodeName : string)
  : res (result nat) :=
  let ipv6 := IsIPv6String ss (ClusterIP service) in
  if negb (ipv6DualStackEnabled ss) && negb ipv6
  then getPrimaryIPConfigFromVMSSNetworkConfig config
  else getConfigForScaleSetByIPFamily config nodeName ipv6.

(** Whether the scale-set name of the load balancer has to match the one of
    the machine: always for the basic load balancer; for multiple standard
    load balancers unless the machine shares the primary one; never for the
    single standard load balancer. *)
Definition needCheck {Remote : Type} (ss : ScaleSet Remote)
    (vm : VirtualMachine) (vmSetNameOfLB : string) : bool :=
  if negb (useStandardLoadBalancer ss) then true
  else if EnableMultipleStandardLoadBalancers ss then
    if EqualFold (GetPrimaryVMSetName ss) vmSetNameOfLB &&
       bool_decide (ToLower (VMSSName vm) ∈ getVMSetNamesSharingPrimarySLB ss)
    then false else true
  else false.

(** The test [vmSetNameOfLB != "" && needCheck &&
    !strings.EqualFold(vmSetNameOfLB, vm.VMSSName)] of [EnsureHostInPool]:
    the machine is of another scale set than the load balancer asks for. *)
Definition skipsScaleSet {Remote : Type} (ss : ScaleSet Remote)
    (vm : VirtualMachine) (vmSetNameOfLB : string) : bool :=
  negb (String.eqb vmSetNameOfLB "") && needCheck ss vm vmSetNameOfLB &&
  negb (EqualFold vmSetNameOfLB (VMSSName vm)).

(** The block [if ss.useStandardLoadBalancer() && len(pools) > 0 { ... }] of
    [EnsureHostInPool] and of [ensureVMSSInPool]: [Some (Some err)] is its
    [return err], [Some None] its [return nil] for a pool of another load
    balancer, and [None] falls through. *)
Definition conflictWithLB {Remote : Type} (ss : ScaleSet Remote) (backendPoolID : string)
    (newBackendPools : slice) (pools : list SubResource) : option (option error) :=
  if useStandardLoadBalancer ss && negb (Nat.eqb (len newBackendPools) 0) then
    match isBackendPoolOnSameLB ss backendPoolID (backendPoolIDs pools) with
    | (_, _, Some err) => Some (Some err)
    | (false, _, None) => Some None
    | (true, _, None) => None
    end
  else None.

(** [EnsureHostInPool], from the machine that [getVmssVM] resolved on. *)
Definition EnsureHostInPool_vm {Remote : Type} (ss : ScaleSet Remote) (service : Service)
    (vm : VirtualMachine) (nodeName backendPoolID vmSetNameOfLB : string) : M Heap Staged :=
  let vmName := mapNodeNameToVMName ss nodeName in
  if skipsScaleSet ss vm vmSetNameOfLB then ret stagedNothing
  else
    l <- deref (vmssVM vm) ;;
    h <- get ;;
    obj <- deref (vmObjs h !! l) ;;
    props <- deref (vmProperties obj) ;;
    npc <- deref (NetworkProfileConfiguration props) ;;
    match NetworkInterfaceConfigurations npc with
    | None => ret stagedNothing
    | Some networkInterfaceConfigurations =>
        match getPrimaryNetworkInterfaceConfiguration networkInterfaceConfigurations vmName with
        | Err err => ret (stagedError err)
        | Ok i =>
            nic <- deref (networkInterfaceConfigurations !! i) ;;
            r <- liftRes (selectIPConfiguration ss service nic vmName) ;;
            match r with
            | Err err => ret (stagedError err)
            | Ok j =>
                ipConfigurations <- deref (IPConfigurations nic) ;;
                primaryIPConfiguration <- deref (ipConfigurations !! j) ;;
                let newBackendPools :=
                  default Slice.empty (LoadBalancerBackendAddressPools primaryIPConfiguration) in
                let pools := Slice.elems (arrays h) newBackendPools in
                foundPool <- liftRes (containsPool backendPoolID pools) ;;
                if (foundPool : bool) then ret stagedNothing
                else
                  match conflictWithLB ss backendPoolID newBackendPools pools with
                  | Some (Some err) => ret (stagedError err)
                  | Some None => ret stagedNothing
                  | None =>
                      appended <- onArrays (st <- get ;;
                                            let (st', s') :=
                                              Slice.append (growslice ss) st newBackendPools
                                                [ {| ID := Some backendPoolID |} ] in
                                            _ <- put st' ;;
                                            ret s') ;;
                      h1 <- get ;;
                      _ <- put (setVMPools l i j (Some appended) h1) ;;
                      let update :=
                        newVM vm props
                          (setPoolsInNICs i j (Some appended) networkInterfaceConfigurations) in
                      match GetNodeResourceGroup ss vmName with
                      | Err err => ret (stagedError err)
                      | Ok nodeResourceGroup =>
                          ret (nodeResourceGroup, VMSSName vm, InstanceID vm, Some update, None)
                      end
                  end
            end
        end
    end.

(** ** Resolving a node *)

Section Resolver.

Context {Remote : Type} (ss : ScaleSet Remote).

(** The callback of [vmsses.Range] in [getNodeIdentityByNodeName], over the
    entries in the order of the iteration: an entry without a name is passed
    over; the first entry whose prefix (the computer-name prefix of its OS
    profile, or else its name) is the node name without its last six bytes,
    up to case, gives the identity and ends the iteration.  The profile of
    a named scale set is read through the pointer to its properties
    ([v.vmss.VirtualMachineProfile]), with no test of this pointer. *)
Fixpoint rangeVmsses (h : Heap) (nodeName : string) (vmsses : list (string * vmssEntry))
    (node : nodeIdentity) : res nodeIdentity :=
  match vmsses with
  | [] => Val node
  | (_, v) :: rest =>
      match vmss v ≫= (fun p => vmssObjs h !! p) with
      | None => Panic
      | Some o =>
          match Name o with
          | None => rangeVmsses h nodeName rest node
          | Some name =>
              match vmssProperties o with
              | None => Panic
              | Some props =>
                  let vmssPrefix :=
                    default name
                      ((VirtualMachineProfile props ≫= OsProfile) ≫= ComputerNamePrefix) in
                  if EqualFold vmssPrefix (GoString.upto (String.length nodeName - 6) nodeName)
                  then Val {| resourceGroup := entryResourceGroup v;
                              vmssName := name;
                              nodeName := nodeName |}
                  else rangeVmsses h nodeName rest node
              end
          end
      end
  end.

(** The closure [getter] of [getNodeIdentityByNodeName]. *)
Definition getNodeIdentityByNodeName_getter (nodeName : string) (crt : AzureCacheReadType)
  : M (World Remote) (result nodeIdentity) :=
  cached <- call (EvCacheGet "vmssCache" VMSSKey crt) (vmssCache_Get ss crt) ;;
  match cached with
  | Err err => ret (Err err)
  | Ok vmsses =>
      h <- onHeap get ;;
      node <- liftRes (rangeVmsses h nodeName vmsses
                         {| resourceGroup := ""; vmssName := ""; nodeName := nodeName |}) ;;
      ret (Ok node)
  end.

(** [getNodeIdentityByNodeName]. *)
Definition getNodeIdentityByNodeName (nodeName : string) (crt : AzureCacheReadType)
  : M (World Remote) (result nodeIdentity) :=
  match getScaleSetVMInstanceID nodeName with
  | Err err => ret (Err err)
  | Ok _ =>
      r <- getNodeIdentityByNodeName_getter nodeName crt ;;
      match r with
      | Err err => ret (Err err)
      | Ok node =>
          if negb (String.eqb (vmssName node) "") then ret (Ok node)
          else
            r' <- getNodeIdentityByNodeName_getter nodeName CacheReadTypeForceRefresh ;;
            match r' with
            | Err err => ret (Err err)
            | Ok node' =>
                if String.eqb (vmssName node') "" then ret (Err InstanceNotFound)
                else ret (Ok node')
            end
      end
  end.

(** [virtualMachines.Load(nodeName)] on the entries of a [sync.Map]. *)
Definition Load {A : Type} (key : string) (entries : list (string * A)) : option A :=
  snd <$> find (fun e => String.eqb (fst e) key) entries.

(** The closure [getter] of [getVmssVMByNodeIdentity]:
    [(vm, found, err)]. *)
Definition getVmssVMByNodeIdentity_getter (cacheKey nodeName : string)
    (crt : AzureCacheReadType)
  : M (World Remote) (option VirtualMachine * bool * option error) :=
  cached <- call (EvCacheGet "vmssVMCache" cacheKey crt) (vmssVMCache_Get ss cacheKey crt) ;;
  match cached with
  | Err err => ret (None, false, Some err)
  | Ok virtualMachines =>
      match Load nodeName virtualMachines with
      | Some entry =>
          match virtualMachine entry with
          | None => ret (None, false, None)
          | Some p =>
              h <- onHeap get ;;
              ret (Some (FromVirtualMachineScaleSetVM ss p (entryVmssName entry) h), true, None)
          end
      | None => ret (None, false, None)
      end
  end.

(** [getVmssVMByNodeIdentity].  The lock on the cache key orders concurrent
    callers and has no effect on a single one. *)
Definition getVmssVMByNodeIdentity (node : nodeIdentity) (crt : AzureCacheReadType)
  : M (World Remote) (result VirtualMachine) :=
  kc <- call (EvCall "getVMSSVMCache" [resourceGroup node; vmssName node])
             (getVMSSVMCache ss (resourceGroup node) (vmssName node)) ;;
  match kc with
  | Err err => ret (Err err)
  | Ok cacheKey =>
      match getScaleSetVMInstanceID (nodeName node) with
      | Err err => ret (Err err)
      | Ok _ =>
          g <- getVmssVMByNodeIdentity_getter cacheKey (nodeName node) crt ;;
          match g with
          | (_, _, Some err) => ret (Err err)
          | (Some vm, true, None) => ret (Ok vm)
          | (None, true, None) => ret (Err InstanceNotFound)
          | (_, false, None) =>
              g' <- getVmssVMByNodeIdentity_getter cacheKey (nodeName node) crt ;;
              match g' with
              | (Some vm, true, None) => ret (Ok vm)
              | _ =>
                  g'' <- getVmssVMByNodeIdentity_getter cacheKey (nodeName node)
                           CacheReadTypeForceRefresh ;;
                  match g'' with
                  | (_, _, Some err) => ret (Err err)
                  | (Some vm, true, None) => ret (Ok vm)
                  | _ => ret (Err InstanceNotFound)
                  end
              end
          end
      end
  end.

(** [getVmssVM]. *)
Definition getVmssVM (nodeName : string) (crt : AzureCacheReadType)
  : M (World Remote) (result VirtualMachine) :=
  r <- getNodeIdentityByNodeName nodeName crt ;;
  match r with
  | Err err => ret (Err err)
  | Ok node => getVmssVMByNodeIdentity node crt
  end.

(** The loop over the statuses of [GetPowerStatusByNodeName]: the first code
    that starts with the power-state prefix, without the prefix. *)
Fixpoint powerStateOf (statuses : list InstanceViewStatus) : option string :=
  match statuses with
  | [] => None
  | status :: rest =>
      let state := to_String (Code status) in
      if HasPrefix state vmPowerStatePrefix then Some (TrimPrefix state vmPowerStatePrefix)
      else powerStateOf rest
  end.

(** [GetPowerStatusByNodeName]: [(powerState, err)].  The instance view is
    read through the pointer to the properties of the machine
    ([v.InstanceView]), with no test of this pointer. *)
Definition GetPowerStatusByNodeName (name : string) : M (World Remote) (string * option error) :=
  m <- call (EvCall "isNodeManagedByAvailabilitySet" [name])
            (isNodeManagedByAvailabilitySet ss name CacheReadTypeUnsafe) ;;
  match m with
  | Err err => ret ("", Some err)
  | Ok true =>
      call (EvCall "availabilitySet.GetPowerStatusByNodeName" [name])
           (as_GetPowerStatusByNodeName (availabilitySet ss) name)
  | Ok false =>
      r <- getVmssVM name CacheReadTypeDefault ;;
      match r with
      | Err err => ret ("", Some err)
      | Ok vm =>
          match variant vm with
          | VariantVirtualMachineScaleSetVM =>
              h <- onHeap get ;;
              v <- deref (vmssVM vm ≫= (fun p => vmObjs h !! p)) ;;
              props <- deref (vmProperties v) ;;
              match (InstanceView props ≫= Statuses) ≫= powerStateOf with
              | Some state => ret (state, None)
              | None => ret (vmPowerStateStopped, None)
              end
          | VariantVirtualMachine => ret (vmPowerStateStopped, None)
          end
      end
  end.

End Resolver.

(** ** Aggregated errors *)

(** The errors of an aggregate, those of nested aggregates in their place. *)
Fixpoint flattenErrors (e : error) : list error :=
  match e with
  | Aggregate es => flat_map flattenErrors es
  | _ => [e]
  end.

(** [utilerrors.NewAggregate]: [nil] for no error. *)
Definition NewAggregate (errs : list error) : option error :=
  match errs with
  | [] => None
  | _ => Some (Aggregate errs)
  end.

(** [utilerrors.Flatten]. *)
Definition Flatten (agg : option error) : option error :=
  match agg with
  | None => None
  | Some a => NewAggregate (flattenErrors a)
  end.

(** Modelled from the spec: [utilerrors.AggregateGoroutines] is declared in a
    vendored package.  "Run all group applications and all fixed-set
    delegations as independent concurrent tasks; wait for all to finish; do
    not short-circuit — collect every failure into an aggregate."  The tasks
    run here one after the other in the order of the list, which is one of
    the schedules of the concurrent run; [runAll] gives their failures. *)
Fixpoint runAll {S : Type} (tasks : list (M S (option error))) : M S (list error) :=
  match tasks with
  | [] => ret []
  | task :: rest =>
      r <- task ;;
      errs <- runAll rest ;;
      ret (match r with
           | Some err => err :: errs
           | None => errs
           end)
  end.

Definition AggregateGoroutines {S : Type} (tasks : list (M S (option error)))
  : M S (option error) :=
  errs <- runAll tasks ;;
  ret (NewAggregate errs).

(** ** Staging, from the node name *)

Section Reconciler.

Context {Remote : Type} (ss : ScaleSet Remote).

(** [EnsureHostInPool]. *)
Definition EnsureHostInPool (service : Service) (nodeName backendPoolID vmSetNameOfLB : string)
  : M (World Remote) Staged :=
  let vmName := mapNodeNameToVMName ss nodeName in
  r <- getVmssVM ss vmName CacheReadTypeDefault ;;
  match r with
  | Err err =>
      if isInstanceNotFound err then ret stagedNothing else ret (stagedError err)
  | Ok vm => onHeap (EnsureHostInPool_vm ss service vm nodeName backendPoolID vmSetNameOfLB)
  end.

(** [ensureBackendPoolDeletedFromNode]. *)
Definition ensureBackendPoolDeletedFromNode (nodeName backendPoolID : string)
  : M (World Remote) Staged :=
  r <- getVmssVM ss nodeName CacheReadTypeDefault ;;
  match r with
  | Err err =>
      if isInstanceNotFound err then ret stagedNothing else ret (stagedError err)
  | Ok vm => onHeap (ensureBackendPoolDeletedFromNode_vm ss vm nodeName backendPoolID)
  end.

(** ** Scale sets of the cache *)

(** The closure [getter] of [getVMSS]: the cached pointer, [nil] when the
    scale set is not cached. *)
Definition getVMSS_getter (vmssName : string) (crt : AzureCacheReadType)
  : M (World Remote) (result (option nat)) :=
  cached <- call (EvCacheGet "vmssCache" VMSSKey crt) (vmssCache_Get ss crt) ;;
  match cached with
  | Err err => ret (Err err)
  | Ok vmsses =>
      match Load vmssName vmsses with
      | Some entry => ret (Ok (vmss entry))
      | None => ret (Ok None)
      end
  end.

(** [getVMSS]: a pointer to the scale set. *)
Definition getVMSS (vmssName : string) (crt : AzureCacheReadType)
  : M (World Remote) (result nat) :=
  r <- getVMSS_getter vmssName crt ;;
  match r with
  | Err err => ret (Err err)
  | Ok (Some p) => ret (Ok p)
  | Ok None =>
      _ <- call (EvCacheDelete "vmssCache" VMSSKey) (fun s => (tt, vmssCache_Delete ss s)) ;;
      r' <- getVMSS_getter vmssName crt ;;
      match r' with
      | Err err => ret (Err err)
      | Ok None => ret (Err InstanceNotFound)
      | Ok (Some p) => ret (Ok p)
      end
  end.

(** [vmssNamesMap[name] = true] on the keys of the map, in the order they
    were first set. *)
Definition setName (name : string) (names : list string) : list string :=
  if bool_decide (name ∈ names) then names else names ++ [name].

(** [getVmssAndResourceGroupNameByVMProviderID]. *)
Definition getVmssAndResourceGroupNameByVMProviderID (providerID : string)
  : result (string * string) :=
  match vmssVMProviderIDRE ss providerID with
  | Some groups => Ok groups
  | None => Err ErrorNotVmssInstance
  end.

(** The first loop of [ensureVMSSInPool]: the scale sets of the nodes, under
    the single standard load balancer. *)
Fixpoint vmssNamesOfNodes (nodes : list Node) (names : list string)
  : M (World Remote) (result (list string)) :=
  match nodes with
  | [] => ret (Ok names)
  | node :: rest =>
      if excludeMasterNodesFromStandardLB ss && isControlPlane node
      then vmssNamesOfNodes rest names
      else
        x <- call (EvCall "ShouldNodeExcludedFromLoadBalancer" [nodeObjName node])
                  (ShouldNodeExcludedFromLoadBalancer ss (nodeObjName node)) ;;
        match x with
        | Err err => ret (Err err)
        | Ok true => vmssNamesOfNodes rest names
        | Ok false =>
            match getVmssAndResourceGroupNameByVMProviderID (ProviderID node) with
            | Err _ => vmssNamesOfNodes rest names
            | Ok (resourceGroupName, vmssName) =>
                if EqualFold resourceGroupName (ResourceGroup ss)
                then vmssNamesOfNodes rest (setName vmssName names)
                else vmssNamesOfNodes rest names
            end
        end
  end.

(** The update composed for a scale set: its location and the interface
    configurations of its template. *)
Definition newVMSS (o : VirtualMachineScaleSet)
    (vmssNIC : list VirtualMachineScaleSetNetworkConfiguration) : VirtualMachineScaleSet :=
  {| Name := None;
     vmssLocation := vmssLocation o;
     vmssProperties :=
       Some {| vmssProvisioningState := None;
               VirtualMachineProfile :=
                 Some {| OsProfile := None;
                         NetworkProfile :=
                           Some {| vmssNetworkInterfaceConfigurations :=
                                     Some vmssNIC |} |} |} |}.

(** Whether the scale set is being deleted, from its properties. *)
Definition isDeallocating (props : VirtualMachineScaleSetProperties) : bool :=
  match vmssProvisioningState props with
  | Some state => EqualFold state VirtualMachineScaleSetsDeallocating
  | None => false
  end.

(** The second loop of [ensureVMSSInPool], over the names of the map:
    [Some (Some err)] and [Some None] are [return err] and [return nil] from
    within the loop. *)
Fixpoint ensureVMSSInPool_loop (service : Service) (backendPoolID : string)
    (names : list string) : M (World Remote) (option error) :=
  match names with
  | [] => ret None
  | vmssName :: rest =>
      g <- getVMSS vmssName CacheReadTypeDefault ;;
      match g with
      | Err err => ret (Some err)
      | Ok p =>
          h <- onHeap get ;;
          o <- deref (vmssObjs h !! p) ;;
          props <- deref (vmssProperties o) ;;
          if isDeallocating props then ensureVMSSInPool_loop service backendPoolID rest
          else
            prof <- deref (VirtualMachineProfile props) ;;
            np <- deref (NetworkProfile prof) ;;
            match vmssNetworkInterfaceConfigurations np with
            | None => ensureVMSSInPool_loop service backendPoolID rest
            | Some vmssNIC =>
                match getPrimaryNetworkInterfaceConfigurationForScaleSet vmssNIC vmssName with
                | Err err => ret (Some err)
                | Ok i =>
                    primaryNIC <- deref (vmssNIC !! i) ;;
                    r <- liftRes (selectIPConfiguration ss service primaryNIC "") ;;
                    match r with
                    | Err err => ret (Some err)
                    | Ok j =>
                        ipConfigurations <- deref (IPConfigurations primaryNIC) ;;
                        primaryIPConfig <- deref (ipConfigurations !! j) ;;
                        let loadBalancerBackendAddressPools :=
                          default Slice.empty (LoadBalancerBackendAddressPools primaryIPConfig) in
                        let pools := Slice.elems (arrays h) loadBalancerBackendAddressPools in
                        found <- liftRes (containsPool backendPoolID pools) ;;
                        if (found : bool) then ensureVMSSInPool_loop service backendPoolID rest
                        else
                          match conflictWithLB ss backendPoolID
                                  loadBalancerBackendAddressPools pools with
                          | Some returned => ret returned
                          | None =>
                              let (st', appended) :=
                                Slice.append (growslice ss) (arrays h)
                                  loadBalancerBackendAddressPools
                                  [ {| ID := Some backendPoolID |} ] in
                              _ <- onHeap (put (setVMSSPools p i j (Some appended)
                                                  {| arrays := st';
                                                     vmObjs := vmObjs h;
                                                     vmssObjs := vmssObjs h |})) ;;
                              rerr <- call (EvCall "CreateOrUpdateVMSS" [ResourceGroup ss; vmssName])
                                           (CreateOrUpdateVMSS ss (ResourceGroup ss) vmssName
                                              (newVMSS o (setPoolsInNICs i j (Some appended) vmssNIC))) ;;
                              match rerr with
                              | Some err => ret (Some err)
                              | None => ensureVMSSInPool_loop service backendPoolID rest
                              end
                          end
                    end
                end
            end
      end
  end.

(** [ensureVMSSInPool]. *)
Definition ensureVMSSInPool (service : Service) (nodes : list Node)
    (backendPoolID vmSetNameOfLB : string) : M (World Remote) (option error) :=
  names <- (if useStandardLoadBalancer ss && negb (EnableMultipleStandardLoadBalancers ss)
            then vmssNamesOfNodes nodes []
            else ret (Ok [vmSetNameOfLB])) ;;
  match names with
  | Err err => ret (Some err)
  | Ok vmssNamesMap => ensureVMSSInPool_loop service backendPoolID vmssNamesMap
  end.

(** ** Bulk ensure *)

(** [nodeUpdates]: per scale set, the updates of its machines by instance
    id, with the keys in the order they were first set. *)
Definition NodeUpdates : Type :=
  list (vmssMetaInfo * list (string * VirtualMachineScaleSetVM)).

Definition metaEqb (a b : vmssMetaInfo) : bool :=
  String.eqb (metaVmssName a) (metaVmssName b) &&
  String.eqb (metaResourceGroup a) (metaResourceGroup b).

(** [m[key] = value] on a map held as a list of bindings. *)
Fixpoint setBinding {K V : Type} (eqb : K -> K -> bool) (key : K) (value : V)
    (m : list (K * V)) : list (K * V) :=
  match m with
  | [] => [(key, value)]
  | (k, v) :: rest =>
      if eqb k key then (k, value) :: rest else (k, v) :: setBinding eqb key value rest
  end.

(** [if v, ok := nodeUpdates[meta]; ok { v[id] = vm } else
    { nodeUpdates[meta] = map[string]VM{id: vm} }]. *)
Fixpoint setNodeUpdate (meta : vmssMetaInfo) (id : string) (vm : VirtualMachineScaleSetVM)
    (nodeUpdates : NodeUpdates) : NodeUpdates :=
  match nodeUpdates with
  | [] => [(meta, [(id, vm)])]
  | (k, v) :: rest =>
      if metaEqb k meta then (k, setBinding String.eqb id vm v) :: rest
      else (k, v) :: setNodeUpdate meta id vm rest
  end.

(** The task that applies the updates of one scale set in one batched call. *)
Definition updateVMsTask (meta : vmssMetaInfo)
    (update : list (string * VirtualMachineScaleSetVM)) : M (World Remote) (option error) :=
  call (EvCall "UpdateVMs" [metaResourceGroup meta; metaVmssName meta])
       (UpdateVMs ss (metaResourceGroup meta) (metaVmssName meta) update "network_update"
                  (getPutVMSSVMBatchSize ss)).

(** The deferred [deleteCacheForNode] calls, run last registered first. *)
Fixpoint runDeferred (names : list string) : M (World Remote) unit :=
  match names with
  | [] => ret tt
  | name :: rest =>
      _ <- call (EvCall "deleteCacheForNode" [name])
                (fun s => (tt, deleteCacheForNode ss name s)) ;;
      runDeferred rest
  end.

(** What the loop over the nodes of [EnsureHostsInPool] has built. *)
Record Staging : Type := mkStaging {
  hostUpdates : list (M (World Remote) (option error));
  nodeUpdates : NodeUpdates;
  stagingErrors : list error;
  deferred : list string
}.

(** The loop over the nodes of [EnsureHostsInPool]: [inl err] is the
    [return err] from within the loop. *)
Fixpoint EnsureHostsInPool_loop (service : Service) (backendPoolID vmSetNameOfLB : string)
    (nodes : list Node) (acc : Staging) : M (World Remote) (error * Staging + Staging) :=
  match nodes with
  | [] => ret (inr acc)
  | node :: rest =>
      let localNodeName := nodeObjName node in
      let continue := EnsureHostsInPool_loop service backendPoolID vmSetNameOfLB rest in
      if useStandardLoadBalancer ss && excludeMasterNodesFromStandardLB ss && isControlPlane node
      then continue acc
      else
        x <- call (EvCall "ShouldNodeExcludedFromLoadBalancer" [localNodeName])
                  (ShouldNodeExcludedFromLoadBalancer ss localNodeName) ;;
        match x with
        | Err err => ret (inl (err, acc))
        | Ok true => continue acc
        | Ok false =>
            m <- call (EvCall "isNodeManagedByAvailabilitySet" [localNodeName])
                      (isNodeManagedByAvailabilitySet ss localNodeName CacheReadTypeDefault) ;;
            match m with
            | Err err =>
                continue {| hostUpdates := hostUpdates acc;
                            nodeUpdates := nodeUpdates acc;
                            stagingErrors := stagingErrors acc ++ [err];
                            deferred := deferred acc |}
            | Ok true =>
                if useStandardLoadBalancer ss then
                  continue
                    {| hostUpdates :=
                         hostUpdates acc ++
                         [call (EvCall "availabilitySet.EnsureHostInPool" [localNodeName])
                               (as_EnsureHostInPool (availabilitySet ss) service localNodeName
                                                    backendPoolID vmSetNameOfLB)];
                       nodeUpdates := nodeUpdates acc;
                       stagingErrors := stagingErrors acc;
                       deferred := deferred acc |}
                else continue acc
            | Ok false =>
                staged <- EnsureHostInPool service localNodeName backendPoolID vmSetNameOfLB ;;
                match staged with
                | (_, _, _, _, Some err) =>
                    continue {| hostUpdates := hostUpdates acc;
                                nodeUpdates := nodeUpdates acc;
                                stagingErrors := stagingErrors acc ++ [err];
                                deferred := deferred acc |}
                | (_, _, _, None, None) => continue acc
                | (nodeResourceGroup, nodeVMSS, nodeInstanceID, Some nodeVMSSVM, None) =>
                    let nodeVMSSMetaInfo :=
                      {| metaVmssName := nodeVMSS; metaResourceGroup := nodeResourceGroup |} in
                    continue
                      {| hostUpdates := hostUpdates acc;
                         nodeUpdates :=
                           setNodeUpdate nodeVMSSMetaInfo nodeInstanceID nodeVMSSVM
                                         (nodeUpdates acc);
                         stagingErrors := stagingErrors acc;
                         deferred := localNodeName :: deferred acc |}
                end
            end
        end
  end.

Definition noStaging : Staging :=
  {| hostUpdates := []; nodeUpdates := []; stagingErrors := []; deferred := [] |}.

(** [EnsureHostsInPool].  The metric context it opens and observes on return
    is left out. *)
Definition EnsureHostsInPool (service : Service) (nodes : list Node)
    (backendPoolID vmSetNameOfLB : string) : M (World Remote) (option error) :=
  staged <- EnsureHostsInPool_loop service backendPoolID vmSetNameOfLB nodes noStaging ;;
  match staged with
  | inl (err, acc) =>
      _ <- runDeferred (deferred acc) ;;
      ret (Some err)
  | inr acc =>
      let tasks :=
        hostUpdates acc ++ map (fun mu => updateVMsTask (fst mu) (snd mu)) (nodeUpdates acc) in
      errs <- AggregateGoroutines tasks ;;
      returned <-
        match errs with
        | Some _ => ret (Flatten errs)
        | None =>
            match stagingErrors acc with
            | _ :: _ => ret (Flatten (NewAggregate (stagingErrors acc)))
            | [] => ensureVMSSInPool service nodes backendPoolID vmSetNameOfLB
            end
        end ;;
      _ <- runDeferred (deferred acc) ;;
      ret returned
  end.

(** ** Bulk delete *)

(** The closure [getter] of [getVmssVMByInstanceID]: [(vm, found, err)],
    from the first entry of the iteration with the resource group, scale set
    and instance id asked for, up to case. *)
Definition getVmssVMByInstanceID_getter (cacheKey resourceGroup scaleSetName instanceID : string)
    (crt : AzureCacheReadType) : M (World Remote) (option nat * bool * option error) :=
  cached <- call (EvCacheGet "vmssVMCache" cacheKey crt) (vmssVMCache_Get ss cacheKey crt) ;;
  match cached with
  | Err err => ret (None, false, Some err)
  | Ok virtualMachines =>
      match find (fun e =>
                    EqualFold (vmEntryResourceGroup (snd e)) resourceGroup &&
                    EqualFold (entryVmssName (snd e)) scaleSetName &&
                    EqualFold (entryInstanceID (snd e)) instanceID) virtualMachines with
      | Some e => ret (virtualMachine (snd e), true, None)
      | None => ret (None, false, None)
      end
  end.

(** [getVmssVMByInstanceID]: a pointer to the machine. *)
Definition getVmssVMByInstanceID (resourceGroup scaleSetName instanceID : string)
    (crt : AzureCacheReadType) : M (World Remote) (result nat) :=
  kc <- call (EvCall "getVMSSVMCache" [resourceGroup; scaleSetName])
             (getVMSSVMCache ss resourceGroup scaleSetName) ;;
  match kc with
  | Err err => ret (Err err)
  | Ok cacheKey =>
      let getter := getVmssVMByInstanceID_getter cacheKey resourceGroup scaleSetName instanceID in
      g <- getter crt ;;
      match g with
      | (_, _, Some err) => ret (Err err)
      | (vm, found, None) =>
          g' <- (if negb found then getter CacheReadTypeForceRefresh else ret (vm, found, None)) ;;
          match g' with
          | (_, _, Some err) => ret (Err err)
          | (Some p, true, None) => ret (Ok p)
          | (None, true, None) =>
              g'' <- getter CacheReadTypeDefault ;;
              match g'' with
              | (_, _, Some err) => ret (Err err)
              | (Some p, true, None) => ret (Ok p)
              | _ => ret (Err InstanceNotFound)
              end
          | (_, false, None) => ret (Err InstanceNotFound)
          end
      end
  end.

(** [GetNodeNameByIPConfigurationID]: [(nodeName, vmSetName, err)]. *)
Definition GetNodeNameByIPConfigurationID (ipConfigurationID : string)
  : M (World Remote) (string * string * option error) :=
  match vmssIPConfigurationRE ss ipConfigurationID with
  | None =>
      x <- call (EvCall "availabilitySet.GetNodeNameByIPConfigurationID" [ipConfigurationID])
                (as_GetNodeNameByIPConfigurationID (availabilitySet ss) ipConfigurationID) ;;
      match x with
      | (name, rg, Some err) =>
          if negb (isInstanceNotFound err) then ret ("", "", Some ErrorNotVmssInstance)
          else ret (name, rg, None)
      | (name, rg, None) => ret (name, rg, None)
      end
  | Some (resourceGroup, scaleSetName, instanceID) =>
      r <- getVmssVMByInstanceID resourceGroup scaleSetName instanceID CacheReadTypeUnsafe ;;
      match r with
      | Err err => ret ("", "", Some err)
      | Ok p =>
          h <- onHeap get ;;
          vm <- deref (vmObjs h !! p) ;;
          props <- deref (vmProperties vm) ;;
          match vmOsProfile props ≫= ComputerName with
          | Some name => ret (ToLower name, scaleSetName, None)
          | None => ret ("", "", None)
          end
      end
  end.

(** The task of [EnsureBackendPoolDeletedFromVMSets] for one scale set: it
    assigns the new membership list, and sends the template as it is then. *)
Definition vmssUpdater (vmssName : string) (p i j : nat) (newBackendPools : slice)
  : M (World Remote) (option error) :=
  h <- onHeap get ;;
  _ <- onHeap (put (setVMSSPools p i j (Some newBackendPools) h)) ;;
  h' <- onHeap get ;;
  o <- deref (vmssObjs h' !! p) ;;
  props <- deref (vmssProperties o) ;;
  prof <- deref (VirtualMachineProfile props) ;;
  np <- deref (NetworkProfile prof) ;;
  vmssNIC <- deref (vmssNetworkInterfaceConfigurations np) ;;
  call (EvCall "CreateOrUpdateVMSS" [ResourceGroup ss; vmssName])
       (CreateOrUpdateVMSS ss (ResourceGroup ss) vmssName (newVMSS o vmssNIC)).

(** The loop over the scale sets of [EnsureBackendPoolDeletedFromVMSets]:
    the tasks and the errors it collects. *)
Fixpoint EnsureBackendPoolDeletedFromVMSets_loop (backendPoolID : string) (names : list string)
    (vmssUpdaters : list (M (World Remote) (option error))) (errors : list error)
  : M (World Remote) (list (M (World Remote) (option error)) * list error) :=
  match names with
  | [] => ret (vmssUpdaters, errors)
  | vmssName :: rest =>
      let continue := EnsureBackendPoolDeletedFromVMSets_loop backendPoolID rest in
      g <- getVMSS vmssName CacheReadTypeDefault ;;
      match g with
      | Err err => continue vmssUpdaters (errors ++ [err])
      | Ok p =>
          h <- onHeap get ;;
          o <- deref (vmssObjs h !! p) ;;
          props <- deref (vmssProperties o) ;;
          if isDeallocating props then continue vmssUpdaters errors
          else
            prof <- deref (VirtualMachineProfile props) ;;
            np <- deref (NetworkProfile prof) ;;
            match vmssNetworkInterfaceConfigurations np with
            | None => continue vmssUpdaters errors
            | Some vmssNIC =>
                match getPrimaryNetworkInterfaceConfigurationForScaleSet vmssNIC vmssName with
                | Err err => continue vmssUpdaters (errors ++ [err])
                | Ok i =>
                    primaryNIC <- deref (vmssNIC !! i) ;;
                    r <- liftRes (getPrimaryIPConfigFromVMSSNetworkConfig primaryNIC) ;;
                    match r with
                    | Err err => continue vmssUpdaters (errors ++ [err])
                    | Ok j =>
                        ipConfigurations <- deref (IPConfigurations primaryNIC) ;;
                        primaryIPConfig <- deref (ipConfigurations !! j) ;;
                        let loadBalancerBackendAddressPools :=
                          default Slice.empty (LoadBalancerBackendAddressPools primaryIPConfig) in
                        lf <- onHeap (onArrays
                                (removeBackendPoolLoop (growslice ss) backendPoolID
                                   loadBalancerBackendAddressPools
                                   (len loadBalancerBackendAddressPools) Slice.empty false)) ;;
                        if negb lf.2 then continue vmssUpdaters errors
                        else continue (vmssUpdaters ++ [vmssUpdater vmssName p i j lf.1]) errors
                    end
                end
            end
      end
  end.

(** [EnsureBackendPoolDeletedFromVMSets], on the names of the map. *)
Definition EnsureBackendPoolDeletedFromVMSets (vmssNamesMap : list string)
    (backendPoolID : string) : M (World Remote) (option error) :=
  ue <- EnsureBackendPoolDeletedFromVMSets_loop backendPoolID vmssNamesMap [] [] ;;
  errs <- AggregateGoroutines ue.1 ;;
  match errs with
  | Some _ => ret (Flatten errs)
  | None =>
      match ue.2 with
      | _ :: _ => ret (Flatten (NewAggregate ue.2))
      | [] => ret None
      end
  end.

(** [getScaleSetAndResourceGroupNameByIPConfigurationID]. *)
Definition getScaleSetAndResourceGroupNameByIPConfigurationID (ipConfigurationID : string)
  : result (string * string) :=
  match vmssIPConfigurationRE ss ipConfigurationID with
  | Some (resourceGroup, scaleSetName, _) => Ok (scaleSetName, resourceGroup)
  | None => Err ErrorNotVmssInstance
  end.

(** [ensureBackendPoolDeletedFromVMSS]. *)
Definition ensureBackendPoolDeletedFromVMSS (service : Service)
    (backendPoolID vmSetName : string) (ipConfigurationIDs : list string)
  : M (World Remote) (option error) :=
  let vmssNamesMap :=
    if useStandardLoadBalancer ss then
      fold_left
        (fun names ipConfigurationID =>
           match getScaleSetAndResourceGroupNameByIPConfigurationID ipConfigurationID with
           | Err _ => names
           | Ok (vmssName, resourceGroupName) =>
               if EqualFold resourceGroupName (ResourceGroup ss) then setName vmssName names
               else names
           end)
        ipConfigurationIDs []
    else [vmSetName] in
  EnsureBackendPoolDeletedFromVMSets vmssNamesMap backendPoolID.

(** [extractScaleSetNameByProviderID]. *)
Definition extractScaleSetNameByProviderID (providerID : string) : result string :=
  match scaleSetNameRE ss providerID with
  | Some name => Ok name
  | None => Err ErrorNotVmssInstance
  end.

(** The first loop of [EnsureBackendPoolDeleted]: the ids of the backend IP
    configurations of the pools that are the pool to delete. *)
Fixpoint ipConfigurationIDsOf (backendPoolID : string) (pools : list BackendAddressPool)
  : res (list string) :=
  match pools with
  | [] => Val []
  | backendPool :: rest =>
      match poolID backendPool with
      | None => Panic
      | Some id =>
          match ipConfigurationIDsOf backendPoolID rest with
          | Panic => Panic
          | Val ids =>
              if EqualFold id backendPoolID then
                match BackendIPConfigurations backendPool with
                | Some ipConfs => Val (omap (fun x => x) ipConfs ++ ids)
                | None => Val ids
                end
              else Val ids
          end
      end
  end.

(** What the loop over the IP configurations of [EnsureBackendPoolDeleted]
    has built. *)
Record Unstaging : Type := mkUnstaging {
  delNodeUpdates : NodeUpdates;
  allErrs : list error;
  delDeferred : list string
}.

(** The loop over the IP configurations of [EnsureBackendPoolDeleted]. *)
Fixpoint EnsureBackendPoolDeleted_loop (backendPoolID vmSetName : string)
    (ipConfigurationIDs : list string) (acc : Unstaging) : M (World Remote) Unstaging :=
  match ipConfigurationIDs with
  | [] => ret acc
  | ipConfigurationID :: rest =>
      let continue := EnsureBackendPoolDeleted_loop backendPoolID vmSetName rest in
      let skipped :=
        match extractScaleSetNameByProviderID ipConfigurationID with
        | Ok scaleSetName =>
            negb (useStandardLoadBalancer ss) && negb (EqualFold scaleSetName vmSetName)
        | Err _ => false
        end in
      if skipped then continue acc
      else
        x <- GetNodeNameByIPConfigurationID ipConfigurationID ;;
        match x with
        | (_, _, Some err) =>
            if isErrorNotVmssInstance err then continue acc
            else if isInstanceNotFound err then continue acc
            else continue {| delNodeUpdates := delNodeUpdates acc;
                             allErrs := allErrs acc ++ [err];
                             delDeferred := delDeferred acc |}
        | (nodeName, _, None) =>
            staged <- ensureBackendPoolDeletedFromNode nodeName backendPoolID ;;
            match staged with
            | (_, _, _, _, Some err) =>
                if negb (isErrorNotVmssInstance err)
                then continue {| delNodeUpdates := delNodeUpdates acc;
                                 allErrs := allErrs acc ++ [err];
                                 delDeferred := delDeferred acc |}
                else continue acc
            | (_, _, _, None, None) => continue acc
            | (nodeResourceGroup, nodeVMSS, nodeInstanceID, Some nodeVMSSVM, None) =>
                let nodeVMSSMetaInfo :=
                  {| metaVmssName := nodeVMSS; metaResourceGroup := nodeResourceGroup |} in
                continue
                  {| delNodeUpdates :=
                       setNodeUpdate nodeVMSSMetaInfo nodeInstanceID nodeVMSSVM
                                     (delNodeUpdates acc);
                     allErrs := allErrs acc;
                     delDeferred := nodeName :: delDeferred acc |}
            end
        end
  end.

(** [EnsureBackendPoolDeleted].  The metric context, which is opened after
    the test of the pools, is left out. *)
Definition EnsureBackendPoolDeleted (service : Service) (backendPoolID vmSetName : string)
    (backendAddressPools : option (list BackendAddressPool)) (deleteFromVMSet : bool)
  : M (World Remote) (option error) :=
  match backendAddressPools with
  | None => ret None
  | Some pools =>
      ipConfigurationIDs <- liftRes (ipConfigurationIDsOf backendPoolID pools) ;;
      acc <- EnsureBackendPoolDeleted_loop backendPoolID vmSetName ipConfigurationIDs
               {| delNodeUpdates := []; allErrs := []; delDeferred := [] |} ;;
      let tasks := map (fun mu => updateVMsTask (fst mu) (snd mu)) (delNodeUpdates acc) in
      errs <- AggregateGoroutines tasks ;;
      returned <-
        match errs with
        | Some _ => ret (Flatten errs)
        | None =>
            match allErrs acc with
            | _ :: _ => ret (Flatten (NewAggregate (allErrs acc)))
            | [] =>
                if deleteFromVMSet
                then ensureBackendPoolDeletedFromVMSS service backendPoolID vmSetName
                                                     ipConfigurationIDs
                else ret None
            end
        end ;;
      _ <- runDeferred (delDeferred acc) ;;
      ret returned
  end.

End Reconciler.

(** * The other methods of the provider *)

From Stdlib Require DecimalPos DecimalN.

(** ** Scale sets of a service *)

Section VMSetNames.

Context {Remote : Type} (ss : ScaleSet Remote).

(** [getServiceLoadBalancerMode], which is declared in another file: whether
    the service has the annotation of the load-balancer mode, whether the
    mode is the automatic one, and the scale set that the annotation names. *)
Variable getServiceLoadBalancerMode : Service -> bool * bool * string.

(** The loop of [getAgentPoolScaleSets] over the nodes; [agentPoolScaleSets]
    is the list built so far. *)
Fixpoint getAgentPoolScaleSets_loop (nodes : list Node) (agentPoolScaleSets : list string)
  : M (World Remote) (result (list string)) :=
  match nodes with
  | [] => ret (Ok agentPoolScaleSets)
  | node :: rest =>
      if isControlPlane node then getAgentPoolScaleSets_loop rest agentPoolScaleSets
      else
        let nodeName := nodeObjName node in
        x <- call (EvCall "ShouldNodeExcludedFromLoadBalancer" [nodeName])
                  (ShouldNodeExcludedFromLoadBalancer ss nodeName) ;;
        match x with
        | Err err => ret (Err err)
        | Ok true => getAgentPoolScaleSets_loop rest agentPoolScaleSets
        | Ok false =>
            r <- getVmssVM ss nodeName CacheReadTypeDefault ;;
            match r with
            | Err err => ret (Err err)
            | Ok vm =>
                if String.eqb (VMSSName vm) ""
                then getAgentPoolScaleSets_loop rest agentPoolScaleSets
                else getAgentPoolScaleSets_loop rest (agentPoolScaleSets ++ [VMSSName vm])
            end
        end
  end.

(** [getAgentPoolScaleSets]. *)
Definition getAgentPoolScaleSets (nodes : list Node) : M (World Remote) (result (list string)) :=
  getAgentPoolScaleSets_loop nodes [].


End VMSetNames.

(** ** A provider to run the definitions on *)

Module Example.

(** An availability-set manager that owns no node. *)
Definition noAvailabilitySet : VMSet unit :=
  {| as_GetPowerStatusByNodeName := fun _ s => (("", Some InstanceNotFound), s);
     as_EnsureHostInPool := fun _ _ _ _ s => (None, s);
     as_GetNodeNameByIPConfigurationID := fun _ s => (("", "", Some InstanceNotFound), s) |}.

(** The system with the scale-set objects [objs] in its heap. *)
Definition install (objs : list VirtualMachineScaleSet) (s : Sys unit) : Sys unit :=
  {| heap := {| arrays := arrays (heap s); vmObjs := vmObjs (heap s); vmssObjs := objs |};
     remote := remote s |}.

(** A provider over fixed cache contents: [standard] is the load-balancer
    model, [vmsses] answers every read of the scale-set cache, which puts the
    scale sets [objs] in the heap, [vms] answers every read of a machine
    cache, [providerIDs] reads the resource group and the scale set in a
    provider id, [sameLB] is the conflict test and [failing] the scale sets
    whose batched update fails.  The cache of the machines of a scale set is keyed
    by the name of the scale set; a reallocating [append] takes the capacity
    it needs. *)
Definition provider (standard : bool) (vmsses : result (list (string * vmssEntry)))
    (objs : list VirtualMachineScaleSet)
    (providerIDs : string -> option (string * string))
    (vms : string -> list (string * vmssVirtualMachinesEntry))
    (sameLB : string -> list string -> bool * string * option error)
    (failing : list string) : ScaleSet unit :=
  {| useStandardLoadBalancer := standard;
     EnableMultipleStandardLoadBalancers := false;
     excludeMasterNodesFromStandardLB := true;
     ipv6DualStackEnabled := false;
     ResourceGroup := "rg";
     GetPrimaryVMSetName := "vmss-a";
     getVMSetNamesSharingPrimarySLB := [];
     getPutVMSSVMBatchSize := 10;
     growslice := fun _ n => n;
     mapNodeNameToVMName := fun n => n;
     IsIPv6String := fun _ => false;
     isBackendPoolOnSameLB := sameLB;
     GetNodeResourceGroup := fun _ => Ok "rg";
     FromVirtualMachineScaleSetVM := fun p name _ =>
       {| variant := VariantVirtualMachineScaleSetVM;
          VMSSName := name;
          InstanceID := formatUint (N.of_nat p);
          Location := "eastus";
          vmssVM := Some p |};
     scaleSetNameRE := fun _ => None;
     vmssIPConfigurationRE := fun _ => None;
     vmssVMProviderIDRE := providerIDs;
     availabilitySet := noAvailabilitySet;
     vmssCache_Get := fun _ s => (vmsses, install objs s);
     vmssCache_Delete := fun s => s;
     getVMSSVMCache := fun _ name s => (Ok name, s);
     vmssVMCache_Get := fun key _ s => (Ok (vms key), s);
     isNodeManagedByAvailabilitySet := fun _ _ s => (Ok false, s);
     ShouldNodeExcludedFromLoadBalancer := fun _ s => (Ok false, s);
     deleteCacheForNode := fun _ s => s;
     UpdateVMs := fun _ name _ _ _ s =>
       (if bool_decide (name ∈ failing) then Some (External "UpdateVMs failed") else None, s);
     CreateOrUpdateVMSS := fun _ _ _ s => (None, s) |}.

(** A provider with empty caches. *)
Definition bare (standard : bool) : ScaleSet unit :=
  provider standard (Ok []) [] (fun _ => None) (fun _ => []) (fun _ _ => (true, "", None)) [].

(** A pool reference. *)
Definition pool (id : string) : SubResource := {| ID := Some id |}.

(** An IP configuration whose membership list is [pools], and a machine
    with one interface configuration that has this IP configuration only. *)
Definition ipConfiguration (pools : option slice) : VirtualMachineScaleSetIPConfiguration :=
  {| ipName := Some "ipconfig0";
     ipPrimary := Some true;
     PrivateIPAddressVersion := IPVersionIPv4;
     LoadBalancerBackendAddressPools := pools |}.

Definition machineProperties (pools : option slice) : VirtualMachineScaleSetVMProperties :=
  {| InstanceView := None;
     HardwareProfile := None;
     vmOsProfile := None;
     NetworkProfileConfiguration :=
       Some {| NetworkInterfaceConfigurations :=
                 Some [ {| nicName := Some "nic0";
                           nicPrimary := Some true;
                           IPConfigurations := Some [ipConfiguration pools] |} ] |};
     ProvisioningState := None |}.

Definition machine (pools : option slice) : VirtualMachineScaleSetVM :=
  {| vmLocation := Some "eastus"; vmProperties := Some (machineProperties pools) |}.

(** The heap of one machine whose membership list is [ids], in an array of
    capacity [length ids + spare]. *)
Definition sliceOf (ids : list string) (spare : nat) : slice :=
  {| ptr := 0; off := 0; len := length ids; cap := length ids + spare |}.

Definition heapOf (ids : list string) (spare : nat) : Heap :=
  {| arrays := [map pool ids ++ replicate spare Slice.zero];
     vmObjs := [machine (Some (sliceOf ids spare))];
     vmssObjs := [] |}.

(** The machine as resolved by [getVmssVM]. *)
Definition resolved : VirtualMachine :=
  {| variant := VariantVirtualMachineScaleSetVM;
     VMSSName := "vmss-a";
     InstanceID := "0";
     Location := "eastus";
     vmssVM := Some 0 |}.

Definition service : Service := {| serviceName := "default/web"; ClusterIP := "10.0.0.10" |}.

Definition world (h : Heap) : World unit :=
  {| sys := {| heap := h; remote := tt |}; trace := [] |}.

(** A fleet of two scale sets in the resource group [rg]: [vmss-a], whose
    machines are named with the prefix [aks-a-], and [vmss-b], which has no
    computer-name prefix. *)
Definition scaleSet (name : string) (prefix : option string) : VirtualMachineScaleSet :=
  {| Name := Some name;
     vmssLocation := Some "eastus";
     vmssProperties :=
       Some {| vmssProvisioningState := Some "Succeeded";
               VirtualMachineProfile :=
                 Some {| OsProfile := Some {| ComputerNamePrefix := prefix |};
                         NetworkProfile :=
                           Some {| vmssNetworkInterfaceConfigurations := None |} |} |} |}.

Definition fleetObjs : list VirtualMachineScaleSet :=
  [scaleSet "vmss-a" (Some "aks-a-"); scaleSet "vmss-b" None].

Definition fleetEntries : list (string * vmssEntry) :=
  [("vmss-a", {| vmss := Some 0; entryResourceGroup := "rg" |});
   ("vmss-b", {| vmss := Some 1; entryResourceGroup := "rg" |})].

(** Its machines: two of [vmss-a] and one of [vmss-b], at the pointers 0, 1
    and 2. *)
Definition fleetMachines (key : string) : list (string * vmssVirtualMachinesEntry) :=
  if String.eqb key "vmss-a" then
    [("aks-a-000000", {| vmEntryResourceGroup := "rg"; entryVmssName := "vmss-a";
                         entryInstanceID := "0"; virtualMachine := Some 0 |});
     ("aks-a-000001", {| vmEntryResourceGroup := "rg"; entryVmssName := "vmss-a";
                         entryInstanceID := "1"; virtualMachine := Some 1 |})]
  else if String.eqb key "vmss-b" then
    [("vmss-b000000", {| vmEntryResourceGroup := "rg"; entryVmssName := "vmss-b";
                         entryInstanceID := "0"; virtualMachine := Some 2 |})]
  else [].

(** The heap of the fleet: no machine is a member of a pool yet. *)
Definition fleetHeap : Heap :=
  {| arrays := []; vmObjs := [machine None; machine None; machine None]; vmssObjs := fleetObjs |}.

(** The provider of the fleet; the batched update of the scale sets in
    [failing] fails. *)
Definition fleet (failing : list string) : ScaleSet unit :=
  provider true (Ok fleetEntries) fleetObjs (fun _ => None) fleetMachines
           (fun _ _ => (true, "", None)) failing.

(** The nodes of the fleet. *)
Definition fleetNodes : list Node :=
  [ {| nodeObjName := "aks-a-000000"; ProviderID := "azure:///a/0"; isControlPlane := false |};
    {| nodeObjName := "aks-a-000001"; ProviderID := "azure:///a/1"; isControlPlane := false |};
    {| nodeObjName := "vmss-b000000"; ProviderID := "azure:///b/0"; isControlPlane := false |} ].

(** A machine with two interface configurations, none of them primary. *)
Definition twoInterfaces : VirtualMachineScaleSetVM :=
  {| vmLocation := Some "eastus";
     vmProperties :=
       Some {| InstanceView := None;
               HardwareProfile := None;
               vmOsProfile := None;
               NetworkProfileConfiguration :=
                 Some {| NetworkInterfaceConfigurations :=
                           Some [ {| nicName := Some "nic0"; nicPrimary := None;
                                     IPConfigurations := Some [ipConfiguration None] |};
                                  {| nicName := Some "nic1"; nicPrimary := Some false;
                                     IPConfigurations := Some [ipConfiguration None] |} ] |};
               ProvisioningState := None |} |}.

(** The heap of the fleet when the second machine of [vmss-a] is such a one. *)
Definition brokenFleetHeap : Heap :=
  {| arrays := [];
     vmObjs := [machine None; twoInterfaces; machine None];
     vmssObjs := fleetObjs |}.

(** The provider of the fleet when the provider id of every node names a
    scale set [vmss-c] that the cache does not know. *)
Definition strayFleet : ScaleSet unit :=
  provider true (Ok fleetEntries) fleetObjs (fun _ => Some ("rg", "vmss-c")) fleetMachines
           (fun _ _ => (true, "", None)) [].

End Example.

(** ** Vocabulary of the statements *)

(** [i] is the first index of [cs] whose element satisfies [p]. *)
Definition firstWith {A : Type} (p : A -> bool) (cs : list A) (i : nat) : Prop :=
  (exists c, cs !! i = Some c /\ p c = true) /\
  (forall k c, k < i -> cs !! k = Some c -> p c = false).

(** An interface configuration with the IP configurations [ipcs]. *)
Definition configOf (ipcs : list VirtualMachineScaleSetIPConfiguration)
  : VirtualMachineScaleSetNetworkConfiguration :=
  {| nicName := None; nicPrimary := None; IPConfigurations := Some ipcs |}.

(** The IP configuration [j] of the interface configuration [i] of the
    machine at [l]. *)
Definition ipConfigAt (h : Heap) (l i j : nat) : option VirtualMachineScaleSetIPConfiguration :=
  obj ← vmObjs h !! l;
  props ← vmProperties obj;
  npc ← NetworkProfileConfiguration props;
  nics ← NetworkInterfaceConfigurations npc;
  nic ← nics !! i;
  ipcs ← IPConfigurations nic;
  ipcs !! j.

(** The membership list of an IP configuration: the elements of its slice,
    none for a [nil] pointer. *)
Definition membership (h : Heap) (c : VirtualMachineScaleSetIPConfiguration) : list SubResource :=
  Slice.elems (arrays h) (default Slice.empty (LoadBalancerBackendAddressPools c)).

Definition membershipAt (h : Heap) (l i j : nat) : option (list SubResource) :=
  membership h <$> ipConfigAt h l i j.

(** An entry is the pool, up to case. *)
Definition isPool (backendPoolID : string) (p : SubResource) : bool :=
  match ID p with
  | Some id => EqualFold backendPoolID id
  | None => false
  end.

(** The list with every entry that is the pool deleted, the others in
    their order. *)
Definition withoutPool (backendPoolID : string) (pools : list SubResource) : list SubResource :=
  List.filter (fun p => negb (isPool backendPoolID p)) pools.

(** The prefix a scale set gives to the names of its machines: the
    computer-name prefix of its OS profile, or else its name. *)
Definition prefixOf (o : VirtualMachineScaleSet) : option string :=
  match ((vmssProperties o ≫= VirtualMachineProfile) ≫= OsProfile) ≫= ComputerNamePrefix with
  | Some prefix => Some prefix
  | None => Name o
  end.

(** Every entry of the scale-set cache points to a scale set of the heap,
    and a scale set that has a name has its properties. *)
Definition validEntries (h : Heap) (vmsses : list (string * vmssEntry)) : Prop :=
  Forall (fun e => exists o, vmss (snd e) ≫= (fun p => vmssObjs h !! p) = Some o /\
                             (Name o <> None -> vmssProperties o <> None)) vmsses.

(** The scale-set cache hands out valid entries. *)
Definition soundCache {Remote : Type} (ss : ScaleSet Remote) : Prop :=
  forall crt s vmsses s',
    vmssCache_Get ss crt s = (Ok vmsses, s') -> validEntries (heap s') vmsses.

(** A read of the scale-set cache, as an event. *)
Definition readVmssCache (crt : AzureCacheReadType) : Event :=
  EvCacheGet "vmssCache" VMSSKey crt.

(** The properties of a machine have no instance view, or an instance view
    without a status list, or no status that carries a power state. *)
Definition noPowerState (props : VirtualMachineScaleSetVMProperties) : Prop :=
  match InstanceView props with
  | None => True
  | Some view =>
      match Statuses view with
      | None => True
      | Some statuses =>
          Forall (fun status => HasPrefix (to_String (Code status)) vmPowerStatePrefix = false)
                 statuses
      end
  end.

(** The scale set that an identity names is in the heap, and its prefix is
    the node name without its last six bytes, up to case. *)
Definition resolvedBy (h : Heap) (name : string) (node : nodeIdentity) : Prop :=
  exists o prefix,
    o ∈ vmssObjs h /\
    Name o = Some (vmssName node) /\
    prefixOf o = Some prefix /\
    EqualFold prefix (GoString.upto (String.length name - 6) name) = true.

(** The machine that [vm] points to, with its properties and its interface
    configurations. *)
Definition nicsOf (h : Heap) (vm : VirtualMachine)
  : option (nat * VirtualMachineScaleSetVMProperties *
            list VirtualMachineScaleSetNetworkConfiguration) :=
  l ← vmssVM vm;
  obj ← vmObjs h !! l;
  props ← vmProperties obj;
  npc ← NetworkProfileConfiguration props;
  nics ← NetworkInterfaceConfigurations npc;
  Some (l, props, nics).

Definition okIndex (r : result nat) : option nat :=
  match r with
  | Ok i => Some i
  | Err _ => None
  end.

Definition valIndex (r : res (result nat)) : option nat :=
  match r with
  | Val (Ok i) => Some i
  | _ => None
  end.

(** The primary IP configuration of the machine: its pointer, the indices of
    the primary interface configuration and of its primary IP configuration,
    and the IP configuration. *)
Definition primaryTarget (h : Heap) (vm : VirtualMachine) (name : string)
  : option (nat * nat * nat * VirtualMachineScaleSetIPConfiguration) :=
  lpn ← nicsOf h vm;
  i ← okIndex (getPrimaryNetworkInterfaceConfiguration lpn.2 name);
  nic ← lpn.2 !! i;
  j ← valIndex (getPrimaryIPConfigFromVMSSNetworkConfig nic);
  ipcs ← IPConfigurations nic;
  ipc ← ipcs !! j;
  Some (lpn.1.1, i, j, ipc).

(** The IP configuration that [EnsureHostInPool] selects for a service. *)
Definition ensureTarget {Remote : Type} (ss : ScaleSet Remote) (service : Service)
    (h : Heap) (vm : VirtualMachine) (name : string)
  : option (nat * nat * nat * VirtualMachineScaleSetIPConfiguration) :=
  lpn ← nicsOf h vm;
  i ← okIndex (getPrimaryNetworkInterfaceConfiguration lpn.2 (mapNodeNameToVMName ss name));
  nic ← lpn.2 !! i;
  j ← valIndex (selectIPConfiguration ss service nic (mapNodeNameToVMName ss name));
  ipcs ← IPConfigurations nic;
  ipc ← ipcs !! j;
  Some (lpn.1.1, i, j, ipc).

(** Every membership list of the heap lies within its backing array. *)
Definition wfHeap (h : Heap) : Prop :=
  forall l i j c s,
    ipConfigAt h l i j = Some c ->
    LoadBalancerBackendAddressPools c = Some s ->
    Slice.wf (arrays h) s.

(** The membership lists of two IP configurations of an interface
    configuration are in different arrays. *)
Definition separated (h : Heap) : Prop :=
  forall l i j j' c c' s s',
    j <> j' ->
    ipConfigAt h l i j = Some c ->
    ipConfigAt h l i j' = Some c' ->
    LoadBalancerBackendAddressPools c = Some s ->
    LoadBalancerBackendAddressPools c' = Some s' ->
    ptr s <> ptr s'.

(** An entry has an id, and is not the pool. *)
Definition otherPool (backendPoolID : string) (p : SubResource) : Prop :=
  exists id, ID p = Some id /\ EqualFold backendPoolID id = false.

(** An entry has an id. *)
Definition hasID (p : SubResource) : Prop := exists id, ID p = Some id.

(** Modelled from the spec: [isBackendPoolOnSameLB] is declared in another
    file of the package.  "Derive the owning load-balancer name from each
    existing pool id and from the target pool id; if any existing membership
    belongs to a differently-named load balancer, skip."  [lbNameOf] is the
    derivation of the name, which the spec leaves open; the result is whether
    every existing pool is of the load balancer of the new one, and the name
    of the first load balancer that is not. *)
Definition isBackendPoolOnSameLB_spec (lbNameOf : string -> string)
    (newBackendPoolID : string) (existingBackendPools : list string)
  : bool * string * option error :=
  match List.find (fun id => negb (String.eqb (lbNameOf id) (lbNameOf newBackendPoolID)))
                  existingBackendPools with
  | Some id => (false, lbNameOf id, None)
  | None => (true, "", None)
  end.

(** A task that is one call to a collaborator. *)
Definition isCall {Remote : Type} (task : M (World Remote) (option error)) : Prop :=
  exists ev f, task = call ev f.

(** [ranAll tasks w errs w']: from the world [w], every task of the list has
    run in its turn, in the world the tasks before it left, whatever they
    returned; [errs] are the failures and [w'] is the world left. *)
Inductive ranAll {Remote : Type}
  : list (M (World Remote) (option error)) -> World Remote -> list error -> World Remote -> Prop :=
| ranAll_nil (w : World Remote) : ranAll [] w [] w
| ranAll_cons (task : M (World Remote) (option error)) (tasks : list (M (World Remote) (option error)))
    (w w' w'' : World Remote) (r : option error) (errs : list error) :
    task w = (Val r, w') ->
    ranAll tasks w' errs w'' ->
    ranAll (task :: tasks) w (match r with Some err => err :: errs | None => errs end) w''.

(** The tasks that [EnsureHostsInPool] hands to [AggregateGoroutines]. *)
Definition tasksOf {Remote : Type} (ss : ScaleSet Remote) (acc : Staging)
  : list (M (World Remote) (option error)) :=
  hostUpdates acc ++ map (fun mu => updateVMsTask ss (fst mu) (snd mu)) (nodeUpdates acc).

(** ** Vocabulary of the bulk ensure *)

(** What the loop over the nodes of [EnsureHostsInPool] does with a node: it
    passes the node over, collects a failure, stages a delegation to the
    availability set, or puts the update of the machine in the group of its
    scale set. *)
Inductive Visit : Type :=
| Passed
| Collected (err : error)
| Delegated
| Grouped (meta : vmssMetaInfo) (instanceID : string) (update : VirtualMachineScaleSetVM).

Section BulkEnsureVocabulary.

Context {Remote : Type} (ss : ScaleSet Remote).
Variables (service : Service) (backendPoolID vmSetNameOfLB : string).

(** The node is a control-plane node that the standard load balancer leaves
    out. *)
Definition passedAsControlPlane (node : Node) : bool :=
  useStandardLoadBalancer ss && excludeMasterNodesFromStandardLB ss && isControlPlane node.

(** The two questions asked about a node, and the delegation of a node to
    the availability set, as calls. *)
Definition exclusionTest (name : string) : M (World Remote) (result bool) :=
  call (EvCall "ShouldNodeExcludedFromLoadBalancer" [name])
       (ShouldNodeExcludedFromLoadBalancer ss name).

Definition managementTest (name : string) : M (World Remote) (result bool) :=
  call (EvCall "isNodeManagedByAvailabilitySet" [name])
       (isNodeManagedByAvailabilitySet ss name CacheReadTypeDefault).

Definition delegation (name : string) : M (World Remote) (option error) :=
  call (EvCall "availabilitySet.EnsureHostInPool" [name])
       (as_EnsureHostInPool (availabilitySet ss) service name backendPoolID vmSetNameOfLB).

(** [visits node w v w']: from the world [w], the loop does [v] with [node]
    and goes on to the next node in the world [w'].  A control-plane node
    that is left out and a node that the exclusion test excludes are passed
    over.  A failure of the test of the manager is collected.  A node of the
    availability set is delegated under the standard load balancer, and
    passed over under the basic one.  For a node of a scale set
    [EnsureHostInPool] is called: its failure is collected, the node is
    passed over when there is nothing to update, and else the update goes to
    the group of the scale set. *)
Inductive visits (node : Node) (w : World Remote) : Visit -> World Remote -> Prop :=
| visits_control_plane :
    passedAsControlPlane node = true ->
    visits node w Passed w
| visits_excluded (w1 : World Remote) :
    passedAsControlPlane node = false ->
    exclusionTest (nodeObjName node) w = (Val (Ok true), w1) ->
    visits node w Passed w1
| visits_manager_unknown (w1 w2 : World Remote) (err : error) :
    passedAsControlPlane node = false ->
    exclusionTest (nodeObjName node) w = (Val (Ok false), w1) ->
    managementTest (nodeObjName node) w1 = (Val (Err err), w2) ->
    visits node w (Collected err) w2
| visits_availability_set (w1 w2 : World Remote) :
    passedAsControlPlane node = false ->
    exclusionTest (nodeObjName node) w = (Val (Ok false), w1) ->
    managementTest (nodeObjName node) w1 = (Val (Ok true), w2) ->
    visits node w (if useStandardLoadBalancer ss then Delegated else Passed) w2
| visits_staging_failed (w1 w2 w3 : World Remote) (rg vmss id : string)
    (update : option VirtualMachineScaleSetVM) (err : error) :
    passedAsControlPlane node = false ->
    exclusionTest (nodeObjName node) w = (Val (Ok false), w1) ->
    managementTest (nodeObjName node) w1 = (Val (Ok false), w2) ->
    EnsureHostInPool ss service (nodeObjName node) backendPoolID vmSetNameOfLB w2 =
      (Val (rg, vmss, id, update, Some err), w3) ->
    visits node w (Collected err) w3
| visits_nothing_to_update (w1 w2 w3 : World Remote) (rg vmss id : string) :
    passedAsControlPlane node = false ->
    exclusionTest (nodeObjName node) w = (Val (Ok false), w1) ->
    managementTest (nodeObjName node) w1 = (Val (Ok false), w2) ->
    EnsureHostInPool ss service (nodeObjName node) backendPoolID vmSetNameOfLB w2 =
      (Val (rg, vmss, id, None, None), w3) ->
    visits node w Passed w3
| visits_grouped (w1 w2 w3 : World Remote) (rg vmss id : string)
    (update : VirtualMachineScaleSetVM) :
    passedAsControlPlane node = false ->
    exclusionTest (nodeObjName node) w = (Val (Ok false), w1) ->
    managementTest (nodeObjName node) w1 = (Val (Ok false), w2) ->
    EnsureHostInPool ss service (nodeObjName node) backendPoolID vmSetNameOfLB w2 =
      (Val (rg, vmss, id, Some update, None), w3) ->
    visits node w (Grouped {| metaVmssName := vmss; metaResourceGroup := rg |} id update) w3.

(** The exclusion test of the node fails with [err]. *)
Definition refused (node : Node) (w : World Remote) (err : error) (w' : World Remote) : Prop :=
  passedAsControlPlane node = false /\
  exclusionTest (nodeObjName node) w = (Val (Err err), w').

(** [EnsureHostInPool] panics on the node. *)
Definition crashes (node : Node) (w w' : World Remote) : Prop :=
  exists w1 w2,
    passedAsControlPlane node = false /\
    exclusionTest (nodeObjName node) w = (Val (Ok false), w1) /\
    managementTest (nodeObjName node) w1 = (Val (Ok false), w2) /\
    EnsureHostInPool ss service (nodeObjName node) backendPoolID vmSetNameOfLB w2 = (Panic, w').

(** [visitsAll nodes w log w']: the loop visits every node of the list in
    its turn; [log] is what it did with each. *)
Inductive visitsAll : list Node -> World Remote -> list (Node * Visit) -> World Remote -> Prop :=
| visitsAll_nil (w : World Remote) : visitsAll [] w [] w
| visitsAll_cons (node : Node) (nodes : list Node) (w w1 w2 : World Remote) (v : Visit)
    (log : list (Node * Visit)) :
    visits node w v w1 ->
    visitsAll nodes w1 log w2 ->
    visitsAll (node :: nodes) w ((node, v) :: log) w2.

(** The failures collected, the delegations staged and the updates grouped,
    in the order of the nodes. *)
Definition failures (log : list (Node * Visit)) : list error :=
  flat_map (fun nv => match snd nv with Collected err => [err] | _ => [] end) log.

Definition delegations (log : list (Node * Visit)) : list (M (World Remote) (option error)) :=
  flat_map (fun nv => match snd nv with
                      | Delegated => [delegation (nodeObjName (fst nv))]
                      | _ => []
                      end) log.

Definition grouped (log : list (Node * Visit))
  : list (vmssMetaInfo * string * VirtualMachineScaleSetVM) :=
  flat_map (fun nv => match snd nv with
                      | Grouped meta id update => [(meta, id, update)]
                      | _ => []
                      end) log.

(** The groups: per scale set, the updates of its machines. *)
Definition groupsFrom (updates : list (vmssMetaInfo * string * VirtualMachineScaleSetVM))
    (m : NodeUpdates) : NodeUpdates :=
  fold_left (fun m u => setNodeUpdate (fst (fst u)) (snd (fst u)) (snd u) m) updates m.

Definition groups (log : list (Node * Visit)) : NodeUpdates := groupsFrom (grouped log) [].

(** The nodes whose machine is updated, the last one first: their cache
    entries are deleted when the call returns. *)
Definition affected (log : list (Node * Visit)) : list string :=
  rev (flat_map (fun nv => match snd nv with
                           | Grouped _ _ _ => [nodeObjName (fst nv)]
                           | _ => []
                           end) log).

(** The tasks: the delegations, and one batched update for each group. *)
Definition tasks (log : list (Node * Visit)) : list (M (World Remote) (option error)) :=
  delegations log ++ map (fun mu => updateVMsTask ss (fst mu) (snd mu)) (groups log).

(** What the loop has built after the visits of [log], from [acc]. *)
Definition noted (acc : Staging) (nv : Node * Visit) : Staging :=
  match snd nv with
  | Passed => acc
  | Collected err =>
      {| hostUpdates := hostUpdates acc;
         nodeUpdates := nodeUpdates acc;
         stagingErrors := stagingErrors acc ++ [err];
         deferred := deferred acc |}
  | Delegated =>
      {| hostUpdates := hostUpdates acc ++ [delegation (nodeObjName (fst nv))];
         nodeUpdates := nodeUpdates acc;
         stagingErrors := stagingErrors acc;
         deferred := deferred acc |}
  | Grouped meta id update =>
      {| hostUpdates := hostUpdates acc;
         nodeUpdates := setNodeUpdate meta id update (nodeUpdates acc);
         stagingErrors := stagingErrors acc;
         deferred := nodeObjName (fst nv) :: deferred acc |}
  end.

Definition record (log : list (Node * Visit)) (acc : Staging) : Staging :=
  fold_left noted log acc.

End BulkEnsureVocabulary.

(** A failure that does not flatten to nothing: any error but an aggregate
    whose members, and theirs, are all aggregates without members. *)
Definition countsAsFailure (e : error) : Prop := flattenErrors e <> [].

(** The group of the scale set [meta] holds an update for the machine [id]. *)
Definition inGroup (m : NodeUpdates) (meta : vmssMetaInfo) (id : string) : Prop :=
  exists updates update, (meta, updates) ∈ m /\ (id, update) ∈ updates.

(** ** Vocabulary of the further properties *)

(** A byte is a digit or a letter of either case. *)
Definition isAlphanumeric (c : ascii) : bool :=
  let n := N_of_ascii c in
  ((48 <=? n) && (n <=? 57) || (97 <=? n) && (n <=? 122) || (65 <=? n) && (n <=? 90))%N.

Definition alphanumeric (s : string) : bool :=
  forallb isAlphanumeric (list_ascii_of_string s).

(** The last six bytes of a name. *)
Definition lastSix (name : string) : string :=
  GoString.from (String.length name - 6) name.

(** The number that a string of digits and letters denotes in base 36, the
    letters of either case standing for ten to thirty-five. *)
Definition base36From (acc : N) (s : string) : N :=
  fold_left (fun n c => (n * 36 + default 0 (digitValue c))%N) (list_ascii_of_string s) acc.

Definition base36 (s : string) : N := base36From 0 s.

(** ** More of the example fleet *)

Module Scenario.

(** A machine of the fleet that reports its statuses. *)
Definition reportingProperties (codes : list (option string))
  : VirtualMachineScaleSetVMProperties :=
  {| InstanceView := Some {| Statuses := Some (map (fun c => {| Code := c |}) codes) |};
     HardwareProfile := None;
     vmOsProfile := Some {| ComputerName := Some "AKS-A-000000" |};
     NetworkProfileConfiguration :=
       NetworkProfileConfiguration (Example.machineProperties None);
     ProvisioningState := None |}.

Definition reporting (codes : list (option string)) : VirtualMachineScaleSetVM :=
  {| vmLocation := Some "eastus"; vmProperties := Some (reportingProperties codes) |}.

(** A machine record without properties, and the heap of the fleet when its
    first machine is such a one. *)
Definition blank : VirtualMachineScaleSetVM :=
  {| vmLocation := Some "eastus"; vmProperties := None |}.

Definition blankHeap : Heap :=
  {| arrays := [];
     vmObjs := [blank; Example.machine None; Example.machine None];
     vmssObjs := Example.fleetObjs |}.

(** The heap of the fleet when its first machine is a running one. *)
Definition runningHeap : Heap :=
  {| arrays := [];
     vmObjs := [reporting [Some "ProvisioningState/succeeded"; None; Some "PowerState/running";
                           Some "PowerState/stopped"];
                Example.machine None; Example.machine None];
     vmssObjs := Example.fleetObjs |}.

(** The provider [ss] with other address families, another answer to
    [GetNodeResourceGroup], another reading of the IP-configuration ids,
    another availability-set manager and another [CreateOrUpdateVMSS]. *)
Definition tuned (ss : ScaleSet unit)
    (dualStack : bool) (isIPv6 : string -> bool)
    (nodeResourceGroup : string -> result string)
    (ipConfigurationIDs : string -> option (string * string * string))
    (manager : VMSet unit)
    (createOrUpdate : string -> string -> VirtualMachineScaleSet -> Sys unit ->
                      option error * Sys unit)
  : ScaleSet unit :=
  {| useStandardLoadBalancer := useStandardLoadBalancer ss;
     EnableMultipleStandardLoadBalancers := EnableMultipleStandardLoadBalancers ss;
     excludeMasterNodesFromStandardLB := excludeMasterNodesFromStandardLB ss;
     ipv6DualStackEnabled := dualStack;
     ResourceGroup := ResourceGroup ss;
     GetPrimaryVMSetName := GetPrimaryVMSetName ss;
     getVMSetNamesSharingPrimarySLB := getVMSetNamesSharingPrimarySLB ss;
     getPutVMSSVMBatchSize := getPutVMSSVMBatchSize ss;
     growslice := growslice ss;
     mapNodeNameToVMName := mapNodeNameToVMName ss;
     IsIPv6String := isIPv6;
     isBackendPoolOnSameLB := isBackendPoolOnSameLB ss;
     GetNodeResourceGroup := nodeResourceGroup;
     FromVirtualMachineScaleSetVM := FromVirtualMachineScaleSetVM ss;
     scaleSetNameRE := scaleSetNameRE ss;
     vmssIPConfigurationRE := ipConfigurationIDs;
     vmssVMProviderIDRE := vmssVMProviderIDRE ss;
     availabilitySet := manager;
     vmssCache_Get := vmssCache_Get ss;
     vmssCache_Delete := vmssCache_Delete ss;
     getVMSSVMCache := getVMSSVMCache ss;
     vmssVMCache_Get := vmssVMCache_Get ss;
     isNodeManagedByAvailabilitySet := isNodeManagedByAvailabilitySet ss;
     ShouldNodeExcludedFromLoadBalancer := ShouldNodeExcludedFromLoadBalancer ss;
     deleteCacheForNode := deleteCacheForNode ss;
     UpdateVMs := UpdateVMs ss;
     CreateOrUpdateVMSS := createOrUpdate |}.

(** A provider that cannot tell the resource group of a node. *)
Definition lost : ScaleSet unit :=
  tuned (Example.bare true) false (fun _ => false)
        (fun _ => Err (External "no resource group"))
        (vmssIPConfigurationRE (Example.bare true)) Example.noAvailabilitySet
        (CreateOrUpdateVMSS (Example.bare true)).

(** A provider of a dual-stack cluster, a service with a cluster IP of the
    second family, and a machine with one interface configuration that has
    a primary IP configuration of the first family, listed in the pools
    [ids], and an IP configuration of the second family, listed nowhere. *)
Definition dualStack : ScaleSet unit :=
  tuned (Example.bare true) true (fun ip => String.eqb ip "fd00::10")
        (GetNodeResourceGroup (Example.bare true))
        (vmssIPConfigurationRE (Example.bare true)) Example.noAvailabilitySet
        (CreateOrUpdateVMSS (Example.bare true)).

Definition service6 : Service := {| serviceName := "default/web6"; ClusterIP := "fd00::10" |}.

Definition ipConfiguration6 : VirtualMachineScaleSetIPConfiguration :=
  {| ipName := Some "ipconfig1";
     ipPrimary := Some false;
     PrivateIPAddressVersion := IPVersionIPv6;
     LoadBalancerBackendAddressPools := None |}.

Definition twoFamilies (ids : list string) : VirtualMachineScaleSetVM :=
  {| vmLocation := Some "eastus";
     vmProperties :=
       Some {| InstanceView := None;
               HardwareProfile := None;
               vmOsProfile := None;
               NetworkProfileConfiguration :=
                 Some {| NetworkInterfaceConfigurations :=
                           Some [ {| nicName := Some "nic0";
                                     nicPrimary := Some true;
                                     IPConfigurations :=
                                       Some [Example.ipConfiguration
                                               (Some (Example.sliceOf ids 0));
                                             ipConfiguration6] |} ] |};
               ProvisioningState := None |} |}.

Definition twoFamiliesHeap (ids : list string) : Heap :=
  {| arrays := [map Example.pool ids]; vmObjs := [twoFamilies ids]; vmssObjs := [] |}.

(** A scale set [vmss-a] whose template has one interface configuration with
    one IP configuration, the membership list of which is [pools]; the heap
    that holds it with the membership list [ids]; and the providers that
    find it in the cache: one on the basic load balancer, and one on the
    standard load balancer that takes every pool for one of another load
    balancer. *)
Definition templated (state : string) (pools : option slice) : VirtualMachineScaleSet :=
  {| Name := Some "vmss-a";
     vmssLocation := Some "eastus";
     vmssProperties :=
       Some {| vmssProvisioningState := Some state;
               VirtualMachineProfile :=
                 Some {| OsProfile := Some {| ComputerNamePrefix := Some "aks-a-" |};
                         NetworkProfile :=
                           Some {| vmssNetworkInterfaceConfigurations :=
                                     Some [ {| nicName := Some "nic0";
                                               nicPrimary := Some true;
                                               IPConfigurations :=
                                                 Some [Example.ipConfiguration pools] |} ] |} |} |} |}.

Definition templateHeap (state : string) (ids : list string) : Heap :=
  {| arrays := [map Example.pool ids];
     vmObjs := [];
     vmssObjs := [templated state (Some (Example.sliceOf ids 0))] |}.

Definition basic (state : string) (ids : list string) : ScaleSet unit :=
  Example.provider false (Ok [("vmss-a", {| vmss := Some 0; entryResourceGroup := "rg" |})])
    [templated state (Some (Example.sliceOf ids 0))] (fun _ => None) (fun _ => [])
    (fun _ _ => (true, "", None)) [].

Definition crowded (ids : list string) : ScaleSet unit :=
  Example.provider true (Ok [("vmss-a", {| vmss := Some 0; entryResourceGroup := "rg" |})])
    [templated "Succeeded" (Some (Example.sliceOf ids 0))] (fun _ => None) (fun _ => [])
    (fun _ _ => (false, "lb-other", None)) [].

(** A scale set with a name and no properties, and a provider whose cache
    holds the scale set [vmss-a] of the fleet and then this one. *)
Definition unfinished : VirtualMachineScaleSet :=
  {| Name := Some "vmss-x"; vmssLocation := Some "eastus"; vmssProperties := None |}.

Definition unfinishedFleet : ScaleSet unit :=
  Example.provider true
    (Ok [("vmss-a", {| vmss := Some 0; entryResourceGroup := "rg" |});
         ("vmss-x", {| vmss := Some 1; entryResourceGroup := "rg" |})])
    [Example.scaleSet "vmss-a" (Some "aks-a-"); unfinished]
    (fun _ => None) (fun _ => []) (fun _ _ => (true, "", None)) [].


End Scenario.

(** An entry of the scale-set cache that the scan of
    [getNodeIdentityByNodeName] passes over: its scale set has no name, or
    has its properties and another prefix than the one of the node. *)
Definition passedOver (h : Heap) (nodeName : string) (e : string * vmssEntry) : Prop :=
  exists o,
    vmss (snd e) ≫= (fun p => vmssObjs h !! p) = Some o /\
    (Name o = None \/
     exists prefix,
       vmssProperties o <> None /\ prefixOf o = Some prefix /\
       EqualFold prefix (GoString.upto (String.length nodeName - 6) nodeName) = false).

(** ** Vocabulary of the bulk delete *)

(** What the loop over the IP configurations of [EnsureBackendPoolDeleted]
    does with one of them: it leaves it alone, collects an error, or puts
    the update of the machine of the node in the group of its scale set. *)
Inductive Removal : Type :=
| LeftAlone
| Noted (err : error)
| Unlisted (nodeName : string) (meta : vmssMetaInfo) (instanceID : string)
    (update : VirtualMachineScaleSetVM).

Section BulkDeleteVocabulary.

Context {Remote : Type} (ss : ScaleSet Remote).
Variables (backendPoolID vmSetName : string).

(** Under the basic load balancer, the IP configuration is one of another
    scale set than [vmSetName]. *)
Definition ofAnotherScaleSet (ipConfigurationID : string) : bool :=
  match extractScaleSetNameByProviderID ss ipConfigurationID with
  | Ok scaleSetName =>
      negb (useStandardLoadBalancer ss) && negb (EqualFold scaleSetName vmSetName)
  | Err _ => false
  end.

(** [unstages id w r w']: from the world [w], the loop does [r] with the IP
    configuration [id] and goes on to the next one in the world [w'].  An
    IP configuration of another scale set under the basic load balancer is
    left alone, and so is one whose node is not found or is not a machine
    of a scale set; another error of the lookup of the node is collected.
    For a node that is found [ensureBackendPoolDeletedFromNode] is called:
    its error is collected unless it tells that the node is not a machine
    of a scale set, the IP configuration is left alone when there is
    nothing to update, and else the update goes to the group of the scale
    set. *)
Inductive unstages (ipConfigurationID : string) (w : World Remote)
  : Removal -> World Remote -> Prop :=
| unstages_other_scale_set :
    ofAnotherScaleSet ipConfigurationID = true ->
    unstages ipConfigurationID w LeftAlone w
| unstages_no_machine (w1 : World Remote) (nodeName vmSet : string) (err : error) :
    ofAnotherScaleSet ipConfigurationID = false ->
    GetNodeNameByIPConfigurationID ss ipConfigurationID w =
      (Val (nodeName, vmSet, Some err), w1) ->
    isErrorNotVmssInstance err || isInstanceNotFound err = true ->
    unstages ipConfigurationID w LeftAlone w1
| unstages_lookup_failed (w1 : World Remote) (nodeName vmSet : string) (err : error) :
    ofAnotherScaleSet ipConfigurationID = false ->
    GetNodeNameByIPConfigurationID ss ipConfigurationID w =
      (Val (nodeName, vmSet, Some err), w1) ->
    isErrorNotVmssInstance err || isInstanceNotFound err = false ->
    unstages ipConfigurationID w (Noted err) w1
| unstages_not_of_a_scale_set (w1 w2 : World Remote) (nodeName vmSet rg vmss id : string)
    (update : option VirtualMachineScaleSetVM) (err : error) :
    ofAnotherScaleSet ipConfigurationID = false ->
    GetNodeNameByIPConfigurationID ss ipConfigurationID w = (Val (nodeName, vmSet, None), w1) ->
    ensureBackendPoolDeletedFromNode ss nodeName backendPoolID w1 =
      (Val (rg, vmss, id, update, Some err), w2) ->
    isErrorNotVmssInstance err = true ->
    unstages ipConfigurationID w LeftAlone w2
| unstages_failed (w1 w2 : World Remote) (nodeName vmSet rg vmss id : string)
    (update : option VirtualMachineScaleSetVM) (err : error) :
    ofAnotherScaleSet ipConfigurationID = false ->
    GetNodeNameByIPConfigurationID ss ipConfigurationID w = (Val (nodeName, vmSet, None), w1) ->
    ensureBackendPoolDeletedFromNode ss nodeName backendPoolID w1 =
      (Val (rg, vmss, id, update, Some err), w2) ->
    isErrorNotVmssInstance err = false ->
    unstages ipConfigurationID w (Noted err) w2
| unstages_nothing_to_update (w1 w2 : World Remote) (nodeName vmSet rg vmss id : string) :
    ofAnotherScaleSet ipConfigurationID = false ->
    GetNodeNameByIPConfigurationID ss ipConfigurationID w = (Val (nodeName, vmSet, None), w1) ->
    ensureBackendPoolDeletedFromNode ss nodeName backendPoolID w1 =
      (Val (rg, vmss, id, None, None), w2) ->
    unstages ipConfigurationID w LeftAlone w2
| unstages_unlisted (w1 w2 : World Remote) (nodeName vmSet rg vmss id : string)
    (update : VirtualMachineScaleSetVM) :
    ofAnotherScaleSet ipConfigurationID = false ->
    GetNodeNameByIPConfigurationID ss ipConfigurationID w = (Val (nodeName, vmSet, None), w1) ->
    ensureBackendPoolDeletedFromNode ss nodeName backendPoolID w1 =
      (Val (rg, vmss, id, Some update, None), w2) ->
    unstages ipConfigurationID w
      (Unlisted nodeName {| metaVmssName := vmss; metaResourceGroup := rg |} id update) w2.

(** The lookup of the node of the IP configuration panics, or
    [ensureBackendPoolDeletedFromNode] does on the node. *)
Definition unstagingCrashes (ipConfigurationID : string) (w w' : World Remote) : Prop :=
  ofAnotherScaleSet ipConfigurationID = false /\
  (GetNodeNameByIPConfigurationID ss ipConfigurationID w = (Panic, w') \/
   exists nodeName vmSet w1,
     GetNodeNameByIPConfigurationID ss ipConfigurationID w = (Val (nodeName, vmSet, None), w1) /\
     ensureBackendPoolDeletedFromNode ss nodeName backendPoolID w1 = (Panic, w')).

(** [unstagesAll ids w log w']: the loop deals with every IP configuration
    of the list in its turn; [log] is what it did with each. *)
Inductive unstagesAll : list string -> World Remote -> list Removal -> World Remote -> Prop :=
| unstagesAll_nil (w : World Remote) : unstagesAll [] w [] w
| unstagesAll_cons (id : string) (ids : list string) (w w1 w2 : World Remote) (r : Removal)
    (log : list Removal) :
    unstages id w r w1 ->
    unstagesAll ids w1 log w2 ->
    unstagesAll (id :: ids) w (r :: log) w2.

(** The errors collected and the updates grouped, in the order of the IP
    configurations; the groups; and the nodes whose machine is updated, the
    last one first. *)
Definition collectedErrors (log : list Removal) : list error :=
  flat_map (fun r => match r with Noted err => [err] | _ => [] end) log.

Definition unlisted (log : list Removal)
  : list (vmssMetaInfo * string * VirtualMachineScaleSetVM) :=
  flat_map (fun r => match r with
                     | Unlisted _ meta id update => [(meta, id, update)]
                     | _ => []
                     end) log.

Definition deletionGroups (log : list Removal) : NodeUpdates := groupsFrom (unlisted log) [].

Definition unlistedNodes (log : list Removal) : list string :=
  rev (flat_map (fun r => match r with Unlisted nodeName _ _ _ => [nodeName] | _ => [] end) log).

(** The tasks: one batched update for each group. *)
Definition deletionTasks (log : list Removal) : list (M (World Remote) (option error)) :=
  map (fun mu => updateVMsTask ss (fst mu) (snd mu)) (deletionGroups log).

(** What the loop has built after [log], from [acc]. *)
Definition unstaged (acc : Unstaging) (r : Removal) : Unstaging :=
  match r with
  | LeftAlone => acc
  | Noted err =>
      {| delNodeUpdates := delNodeUpdates acc;
         allErrs := allErrs acc ++ [err];
         delDeferred := delDeferred acc |}
  | Unlisted nodeName meta id update =>
      {| delNodeUpdates := setNodeUpdate meta id update (delNodeUpdates acc);
         allErrs := allErrs acc;
         delDeferred := nodeName :: delDeferred acc |}
  end.

End BulkDeleteVocabulary.

(** The version of an IP configuration is the one of the family asked for. *)
Definition ofFamily (IPv6 : bool) (c : VirtualMachineScaleSetIPConfiguration) : bool :=
  String.eqb (PrivateIPAddressVersion c) (if IPv6 then IPVersionIPv6 else IPVersionIPv4).

(** A node is one that [ensureVMSSInPool] and [EnsureHostsInPool] look at
    under the standard load balancer: not a control-plane node when these
    are excluded. *)
Definition counted {Remote : Type} (ss : ScaleSet Remote) (node : Node) : bool :=
  negb (excludeMasterNodesFromStandardLB ss && isControlPlane node).

(** The deletion of the key of the scale-set cache, and a read of the cache
    of the machines of a scale set, as events. *)
Definition deleteVmssCache : Event := EvCacheDelete "vmssCache" VMSSKey.

Definition readVmssVMCache (cacheKey : string) (crt : AzureCacheReadType) : Event :=
  EvCacheGet "vmssVMCache" cacheKey crt.

(** The call that opens the cache of the machines of a scale set. *)
Definition openVmssVMCache (resourceGroup scaleSetName : string) : Event :=
  EvCall "getVMSSVMCache" [resourceGroup; scaleSetName].

(** An entry of a machine cache is the one of an instance of a scale set of
    a resource group, up to case. *)
Definition isInstance (resourceGroup scaleSetName instanceID : string)
    (e : string * vmssVirtualMachinesEntry) : bool :=
  EqualFold (vmEntryResourceGroup (snd e)) resourceGroup &&
  EqualFold (entryVmssName (snd e)) scaleSetName &&
  EqualFold (entryInstanceID (snd e)) instanceID.

(** The IP configuration [j] of the interface configuration [i] of a machine
    object, and the membership list that a staged update carries for it. *)
Definition ipConfigIn (obj : VirtualMachineScaleSetVM) (i j : nat)
  : option VirtualMachineScaleSetIPConfiguration :=
  props ← vmProperties obj;
  npc ← NetworkProfileConfiguration props;
  nics ← NetworkInterfaceConfigurations npc;
  nic ← nics !! i;
  ipcs ← IPConfigurations nic;
  ipcs !! j.

Definition stagedMembership (h : Heap) (staged : Staged) (i j : nat)
  : option (list SubResource) :=
  match staged with
  | (_, _, _, Some update, _) => membership h <$> ipConfigIn update i j
  | _ => None
  end.

(** A pool of a load balancer contributes no IP configuration to the
    deletion of [backendPoolID]: it has an id, and either this id is another
    one or the pool has no list of backend IP configurations. *)
Definition contributesNothing (backendPoolID : string) (p : BackendAddressPool) : Prop :=
  exists id,
    poolID p = Some id /\
    (EqualFold id backendPoolID = false \/ BackendIPConfigurations p = None).

(** Whether a scale set is being deleted: its properties say so. *)
Definition beingDeleted (o : VirtualMachineScaleSet) : bool :=
  from_option isDeallocating false (vmssProperties o).

(** The template of the scale set at [p]: the object and its interface
    configurations. *)
Definition templateOf (h : Heap) (p : nat)
  : option (VirtualMachineScaleSet * list VirtualMachineScaleSetNetworkConfiguration) :=
  o ← vmssObjs h !! p;
  props ← vmssProperties o;
  prof ← VirtualMachineProfile props;
  np ← NetworkProfile prof;
  nics ← vmssNetworkInterfaceConfigurations np;
  Some (o, nics).

(** The IP configuration of the template that [ensureVMSSInPool] selects for
    a service: the indices of the primary interface configuration and of
    the IP configuration in it, and the IP configuration. *)
Definition templateTarget {Remote : Type} (ss : ScaleSet Remote) (service : Service)
    (h : Heap) (p : nat) (vmssName : string)
  : option (nat * nat * VirtualMachineScaleSetIPConfiguration) :=
  on ← templateOf h p;
  i ← okIndex (getPrimaryNetworkInterfaceConfigurationForScaleSet on.2 vmssName);
  nic ← on.2 !! i;
  j ← valIndex (selectIPConfiguration ss service nic "");
  ipcs ← IPConfigurations nic;
  ipc ← ipcs !! j;
  Some (i, j, ipc).

(** The membership list that a template carries for an IP configuration. *)
Definition templateMembership (st : Store) (o : VirtualMachineScaleSet) (i j : nat)
  : option (list SubResource) :=
  props ← vmssProperties o;
  prof ← VirtualMachineProfile props;
  np ← NetworkProfile prof;
  nics ← vmssNetworkInterfaceConfigurations np;
  nic ← nics !! i;
  ipcs ← IPConfigurations nic;
  ipc ← ipcs !! j;
  Some (Slice.elems st (default Slice.empty (LoadBalancerBackendAddressPools ipc))).

(** [ensureVMSSInPool] has the scale set [vmSetNameOfLB] only to look at:
    the load balancer is not the single standard one. *)
Definition oneScaleSet {Remote : Type} (ss : ScaleSet Remote) : Prop :=
  useStandardLoadBalancer ss && negb (EnableMultipleStandardLoadBalancers ss) = false.

(** * Properties *)

(** ** Strings *)

Lemma EqualFold_refl (s : string) : EqualFold s s = true.
Proof.
  induction s as [|a s IH]; simpl; [reflexivity|].
  rewrite Ascii.eqb_refl. exact IH.
Qed.

Lemma EqualFold_sym (s t : string) : EqualFold s t = EqualFold t s.
Proof.
  revert t. induction s as [|a s IH]; intros [|b t]; simpl; try reflexivity.
  rewrite IH. f_equal. apply Ascii.eqb_sym.
Qed.

(** ** Selection of the primary configuration *)

Section FindIndex.

Context {A : Type} (p : A -> bool).

Lemma findIndex_Some (cs : list A) (i : nat) :
  findIndex p cs = Some i <-> firstWith p cs i.
Proof.
  revert i. induction cs as [|c cs IH]; intros i; simpl.
  - split; [discriminate|]. intros [[c [Hc _]] _]. discriminate.
  - destruct (p c) eqn:Hp.
    + split.
      * intros [= <-]. split; [exists c; auto|]. intros k c' Hk. lia.
      * intros [[c' [Hi Hc']] Hfirst]. destruct i as [|i]; [reflexivity|].
        specialize (Hfirst 0 c ltac:(lia) eq_refl). congruence.
    + destruct (findIndex p cs) as [i'|]; simpl.
      * split.
        -- intros [= <-]. destruct (proj1 (IH i') eq_refl) as [[c' [Hi Hc']] Hfirst].
           split; [exists c'; auto|].
           intros [|k] c'' Hk Hl; simpl in Hl; [congruence|].
           apply (Hfirst k); [lia|exact Hl].
        -- intros [[c' [Hi Hc']] Hfirst]. destruct i as [|i]; simpl in Hi; [congruence|].
           f_equal. assert (Some i' = Some i) as [= ->]; [|reflexivity].
           apply IH. split; [exists c'; auto|].
           intros k c'' Hk Hl. apply (Hfirst (S k)); [lia|exact Hl].
      * split; [discriminate|].
        intros [[c' [Hi Hc']] Hfirst]. destruct i as [|i]; simpl in Hi; [congruence|].
        assert (@None nat = Some i) as Hs; [|congruence].
        apply IH. split; [exists c'; auto|].
        intros k c'' Hk Hl. apply (Hfirst (S k)); [lia|exact Hl].
Qed.

Lemma findIndex_None (cs : list A) :
  findIndex p cs = None <-> Forall (fun c => p c = false) cs.
Proof.
  induction cs as [|c cs IH]; simpl.
  - split; auto.
  - destruct (p c) eqn:Hp.
    + split; [discriminate|]. intros H. inversion H; congruence.
    + destruct (findIndex p cs); simpl.
      * split; [discriminate|]. intros H. inversion H; subst.
        apply IH in H3. discriminate.
      * split; [|reflexivity]. intros _. constructor; [exact Hp|]. apply IH. reflexivity.
Qed.

End FindIndex.

(** C6, as the code has it.  For every list of interface configurations and
    every list of IP configurations, selection of the primary one returns the
    element at index 0 when the list has exactly one element; otherwise it
    returns the first element whose primary flag is set, whether or not
    another one is flagged too; and it returns an error if and only if the
    length of the list is not one (the empty list included) and no element is
    flagged primary. *)
Theorem primary_selection
    (nics : list VirtualMachineScaleSetNetworkConfiguration) (nodeName : string)
    (ipcs : list VirtualMachineScaleSetIPConfiguration) :
  ((length nics = 1 -> getPrimaryNetworkInterfaceConfiguration nics nodeName = Ok 0) /\
   (length nics <> 1 ->
    forall i, getPrimaryNetworkInterfaceConfiguration nics nodeName = Ok i <->
              firstWith isPrimaryNIC nics i) /\
   ((exists e, getPrimaryNetworkInterfaceConfiguration nics nodeName = Err e) <->
    length nics <> 1 /\ Forall (fun c => isPrimaryNIC c = false) nics)) /\
  ((length ipcs = 1 -> getPrimaryIPConfigFromVMSSNetworkConfig (configOf ipcs) = Val (Ok 0)) /\
   (length ipcs <> 1 ->
    forall i, getPrimaryIPConfigFromVMSSNetworkConfig (configOf ipcs) = Val (Ok i) <->
              firstWith isPrimaryIP ipcs i) /\
   ((exists e, getPrimaryIPConfigFromVMSSNetworkConfig (configOf ipcs) = Val (Err e)) <->
    length ipcs <> 1 /\ Forall (fun c => isPrimaryIP c = false) ipcs)).
Proof.
  split.
  - unfold getPrimaryNetworkInterfaceConfiguration.
    destruct (decide (length nics = 1)) as [H1|H1].
    + split; [reflexivity|]. split; [intros; contradiction|].
      split; [intros [e He]; discriminate|intros [Hn _]; contradiction].
    + split; [intros; contradiction|]. split.
      * intros _ i. rewrite <- findIndex_Some.
        destruct (findIndex isPrimaryNIC nics); split; congruence.
      * rewrite <- findIndex_None.
        destruct (findIndex isPrimaryNIC nics); split.
        -- intros [e He]; discriminate.
        -- intros [_ Hn]; discriminate.
        -- auto.
        -- intros _. eexists; reflexivity.
  - unfold getPrimaryIPConfigFromVMSSNetworkConfig, configOf; simpl.
    destruct (decide (length ipcs = 1)) as [H1|H1].
    + split; [reflexivity|]. split; [intros; contradiction|].
      split; [intros [e He]; discriminate|intros [Hn _]; contradiction].
    + split; [intros; contradiction|]. split.
      * intros _ i. rewrite <- findIndex_Some.
        destruct (findIndex isPrimaryIP ipcs); split; congruence.
      * rewrite <- findIndex_None.
        destruct (findIndex isPrimaryIP ipcs); split.
        -- intros [e He]; discriminate.
        -- intros [_ Hn]; discriminate.
        -- auto.
        -- intros _. eexists; reflexivity.
Qed.

(** C6, as stated, fails on the empty list, which has no more than one
    element and yet is answered by an error; and on a list with two flagged
    elements the first one is returned although no element is the only one
    flagged. *)
Lemma primary_selection_counterexample :
  ~ ((exists e, getPrimaryNetworkInterfaceConfiguration [] "node-0" = Err e) <->
     1 < length (@nil VirtualMachineScaleSetNetworkConfiguration) /\
     Forall (fun c => isPrimaryNIC c = false) []) /\
  getPrimaryNetworkInterfaceConfiguration
    [ {| nicName := Some "nic0"; nicPrimary := Some true; IPConfigurations := None |};
      {| nicName := Some "nic1"; nicPrimary := Some true; IPConfigurations := None |} ]
    "node-0" = Ok 0.
Proof.
  split; [|reflexivity].
  intros [H _]. destruct H as [H _]; [eexists; reflexivity|]. simpl in H. lia.
Qed.

(** ** Names that are not of a scale set *)

(** C5.  A node name of fewer than six bytes, or whose last six bytes are not
    a number in base 36, is answered by [ErrorNotVmssInstance], and the world
    is left as it was: no cache is read and no collaborator is called. *)
Theorem not_a_fleet_name_fails_without_a_read {Remote : Type} (ss : ScaleSet Remote)
    (nodeName : string) (crt : AzureCacheReadType) (w : World Remote) :
  String.length nodeName < 6 \/
  ParseUint (GoString.from (String.length nodeName - 6) nodeName) 36 64 = None ->
  getScaleSetVMInstanceID nodeName = Err ErrorNotVmssInstance /\
  getNodeIdentityByNodeName ss nodeName crt w = (Val (Err ErrorNotVmssInstance), w) /\
  getVmssVM ss nodeName crt w = (Val (Err ErrorNotVmssInstance), w).
Proof.
  intros H.
  assert (getScaleSetVMInstanceID nodeName = Err ErrorNotVmssInstance) as Hid.
  { unfold getScaleSetVMInstanceID.
    destruct (decide (String.length nodeName < 6)) as [Hlt|Hge]; [reflexivity|].
    destruct H as [H|H]; [contradiction|]. rewrite H. reflexivity. }
  split; [exact Hid|].
  assert (getNodeIdentityByNodeName ss nodeName crt w = (Val (Err ErrorNotVmssInstance), w))
    as Hnode.
  { unfold getNodeIdentityByNodeName. rewrite Hid. reflexivity. }
  split; [exact Hnode|].
  unfold getVmssVM, bind. rewrite Hnode. reflexivity.
Qed.

(** The statement of C5 at the names [vm-1], which is too short, and
    [aks-pool1-1234_6], whose last six bytes are not a number. *)
Lemma not_a_fleet_name_witness :
  (getScaleSetVMInstanceID "vm-1" = Err ErrorNotVmssInstance /\
   getNodeIdentityByNodeName (Example.bare true) "vm-1" CacheReadTypeDefault
     (Example.world (Example.heapOf [] 0)) =
   (Val (Err ErrorNotVmssInstance), Example.world (Example.heapOf [] 0)) /\
   getVmssVM (Example.bare true) "vm-1" CacheReadTypeDefault
     (Example.world (Example.heapOf [] 0)) =
   (Val (Err ErrorNotVmssInstance), Example.world (Example.heapOf [] 0))) /\
  (getScaleSetVMInstanceID "aks-pool1-1234_6" = Err ErrorNotVmssInstance /\
   getNodeIdentityByNodeName (Example.bare true) "aks-pool1-1234_6" CacheReadTypeForceRefresh
     (Example.world (Example.heapOf [] 0)) =
   (Val (Err ErrorNotVmssInstance), Example.world (Example.heapOf [] 0)) /\
   getVmssVM (Example.bare true) "aks-pool1-1234_6" CacheReadTypeForceRefresh
     (Example.world (Example.heapOf [] 0)) =
   (Val (Err ErrorNotVmssInstance), Example.world (Example.heapOf [] 0))).
Proof.
  split.
  - apply (not_a_fleet_name_fails_without_a_read (Example.bare true) "vm-1").
    left. simpl. lia.
  - apply (not_a_fleet_name_fails_without_a_read (Example.bare true) "aks-pool1-1234_6").
    right. vm_compute. reflexivity.
Defined.

(** ** Deleting a pool that is already gone *)

(** C10.  With a [nil] list of backend address pools, [EnsureBackendPoolDeleted]
    returns [nil] and leaves the world as it was: no event is issued, so no
    remote call, no staged deletion and no cache invalidation. *)
Theorem EnsureBackendPoolDeleted_nil_pools {Remote : Type} (ss : ScaleSet Remote)
    (service : Service) (backendPoolID vmSetName : string) (deleteFromVMSet : bool)
    (w : World Remote) :
  EnsureBackendPoolDeleted ss service backendPoolID vmSetName None deleteFromVMSet w =
  (Val None, w).
Proof. reflexivity. Qed.

(** ** Removing a pool that is listed more than once *)

(** C1 at a list that names the pool twice.  The membership list
    [lb-a; LB-POOL; lb-b; lb-pool] without the pool [lb-pool] is [lb-a; lb-b];
    the loop leaves [lb-a; lb-b; lb-pool], and of [LB-POOL; lb-pool; lb-b] it
    leaves [lb-b; lb-b].  [ensureBackendPoolDeletedFromNode] stages the
    former list for the machine. *)
Theorem removal_keeps_a_duplicate :
  let h := Example.heapOf ["lb-a"; "LB-POOL"; "lb-b"; "lb-pool"] 0 in
  let h' := Example.heapOf ["LB-POOL"; "lb-pool"; "lb-b"] 0 in
  let loop (g : Heap) :=
    removeBackendPoolLoop (fun _ n => n) "lb-pool" (mkSlice 0 0 (length (arrays g !!! 0))
      (length (arrays g !!! 0))) (length (arrays g !!! 0)) Slice.empty false (arrays g) in
  withoutPool "lb-pool" (map Example.pool ["lb-a"; "LB-POOL"; "lb-b"; "lb-pool"]) =
    map Example.pool ["lb-a"; "lb-b"] /\
  (exists s st, loop h = (Val (s, true), st) /\
     Slice.elems st s = map Example.pool ["lb-a"; "lb-b"; "lb-pool"]) /\
  (exists s st, loop h' = (Val (s, true), st) /\
     Slice.elems st s = map Example.pool ["lb-b"; "lb-b"]) /\
  (exists update h1,
     ensureBackendPoolDeletedFromNode_vm (Example.bare true) Example.resolved
       "vmss-a000000" "lb-pool" h =
     (Val ("rg", "vmss-a", "0", Some update, None), h1) /\
     membershipAt h1 0 0 0 = Some (map Example.pool ["lb-a"; "lb-b"; "lb-pool"])).
Proof.
  cbv zeta. split; [reflexivity|].
  split; [eexists _, _; split; reflexivity|].
  split; [eexists _, _; split; reflexivity|].
  eexists _, _; split; reflexivity.
Qed.

(** ** Power state of a machine without an instance view *)

Lemma powerStateOf_None (statuses : list InstanceViewStatus) :
  Forall (fun status => HasPrefix (to_String (Code status)) vmPowerStatePrefix = false) statuses ->
  powerStateOf statuses = None.
Proof.
  induction 1 as [|status statuses Hs _ IH]; simpl; [reflexivity|].
  rewrite Hs. exact IH.
Qed.

(** C9.  For a node that the availability set does not manage and that
    [getVmssVM] resolves to a machine record [v] with the properties
    [props], of which the instance view is a field,
    [GetPowerStatusByNodeName] returns a power state and no error, in the
    world that the resolution left; the state is [stopped] when the instance
    view is [nil], when its status list is [nil], and when no status carries
    a power-state code. *)
Theorem power_status_of_a_machine_without_instance_view {Remote : Type} (ss : ScaleSet Remote)
    (name : string) (w w' : World Remote) (s1 : Sys Remote)
    (vm : VirtualMachine) (v : VirtualMachineScaleSetVM)
    (props : VirtualMachineScaleSetVMProperties) :
  isNodeManagedByAvailabilitySet ss name CacheReadTypeUnsafe (sys w) = (Ok false, s1) ->
  getVmssVM ss name CacheReadTypeDefault
    {| sys := s1; trace := trace w ++ [EvCall "isNodeManagedByAvailabilitySet" [name]] |} =
    (Val (Ok vm), w') ->
  vmssVM vm ≫= (fun p => vmObjs (heap (sys w')) !! p) = Some v ->
  vmProperties v = Some props ->
  exists state,
    GetPowerStatusByNodeName ss name w = (Val (state, None), w') /\
    (noPowerState props -> state = vmPowerStateStopped /\ state = "stopped").
Proof.
  intros Hmanaged Hvm Hv Hprops.
  unfold GetPowerStatusByNodeName, bind, call. rewrite Hmanaged, Hvm.
  destruct (variant vm).
  - eexists; split; [reflexivity|]. split; reflexivity.
  - unfold onHeap, get, deref; simpl. rewrite Hv; simpl. rewrite Hprops; simpl.
    unfold noPowerState.
    destruct (InstanceView props) as [view|]; simpl;
      [|eexists; split; [reflexivity|split; reflexivity]].
    destruct (Statuses view) as [statuses|]; simpl;
      [|eexists; split; [reflexivity|split; reflexivity]].
    destruct (powerStateOf statuses) as [state|] eqn:Hstate; simpl.
    + eexists; split; [reflexivity|].
      intros Hnone. apply powerStateOf_None in Hnone. congruence.
    + eexists; split; [reflexivity|split; reflexivity].
Qed.

(** The statement of C9 at a machine of the fleet, which has no instance
    view. *)
Lemma power_status_witness :
  let w := Example.world Example.fleetHeap in
  let w1 := {| sys := sys w; trace := [EvCall "isNodeManagedByAvailabilitySet" ["aks-a-000001"]] |} in
  exists state,
    GetPowerStatusByNodeName (Example.fleet []) "aks-a-000001" w =
      (Val (state, None),
       snd (getVmssVM (Example.fleet []) "aks-a-000001" CacheReadTypeDefault w1)) /\
    (noPowerState (Example.machineProperties None) ->
     state = vmPowerStateStopped /\ state = "stopped").
Proof.
  cbv zeta.
  apply (power_status_of_a_machine_without_instance_view (Example.fleet []) "aks-a-000001"
           (Example.world Example.fleetHeap) _ (sys (Example.world Example.fleetHeap))
           {| variant := VariantVirtualMachineScaleSetVM; VMSSName := "vmss-a";
              InstanceID := "1"; Location := "eastus"; vmssVM := Some 1 |}
           (Example.machine None)
           (Example.machineProperties None)).
  - reflexivity.
  - vm_compute. reflexivity.
  - reflexivity.
  - reflexivity.
Defined.

(** ** Resolution of the scale set of a node *)

Lemma rangeVmsses_spec (h : Heap) (name : string) (vmsses : list (string * vmssEntry))
    (node0 : nodeIdentity) :
  validEntries h vmsses ->
  exists node,
    rangeVmsses h name vmsses node0 = Val node /\
    (node = node0 \/ (nodeName node = name /\ resolvedBy h name node)).
Proof.
  induction 1 as [|[key v] vmsses Hv _ IH]; simpl.
  - exists node0. auto.
  - destruct Hv as [o [Ho Hprops]]. simpl in Ho. rewrite Ho.
    destruct (Name o) as [oname|] eqn:Hname; [|exact IH].
    destruct (vmssProperties o) as [props|] eqn:Hp; [|exfalso; apply Hprops; congruence].
    destruct (EqualFold _ _) eqn:Hfold; [|exact IH].
    eexists; split; [reflexivity|]. right. split; [reflexivity|].
    exists o. eexists. simpl.
    split.
    { destruct (vmss v) as [p|]; simpl in Ho; [|discriminate].
      apply list_elem_of_lookup. exists p. exact Ho. }
    split; [exact Hname|]. split; [|exact Hfold].
    unfold prefixOf. rewrite Hname, Hp. simpl.
    destruct ((VirtualMachineProfile props ≫= OsProfile) ≫= ComputerNamePrefix); reflexivity.
Qed.

Lemma getNodeIdentityByNodeName_getter_spec {Remote : Type} (ss : ScaleSet Remote)
    (name : string) (crt : AzureCacheReadType) (w : World Remote) :
  soundCache ss ->
  exists r w',
    getNodeIdentityByNodeName_getter ss name crt w = (Val r, w') /\
    trace w' = trace w ++ [readVmssCache crt] /\
    match r with
    | Ok node =>
        nodeName node = name /\
        (vmssName node <> "" -> resolvedBy (heap (sys w')) name node)
    | Err e => exists c s, fst (vmssCache_Get ss c s) = Err e
    end.
Proof.
  intros Hsound.
  unfold getNodeIdentityByNodeName_getter, bind, call.
  destruct (vmssCache_Get ss crt (sys w)) as [[vmsses|e] s'] eqn:Hget.
  - apply Hsound in Hget.
    destruct (rangeVmsses_spec (heap s') name vmsses
                {| resourceGroup := ""; vmssName := ""; nodeName := name |} Hget)
      as [node [Hrange Hnode]].
    unfold onHeap, get, liftRes; simpl. rewrite Hrange. simpl.
    eexists _, _. split; [reflexivity|]. split; [reflexivity|].
    destruct Hnode as [->|[Hname Hres]]; simpl.
    + split; [reflexivity|]. intros H; contradiction.
    + split; [exact Hname|]. intros _. exact Hres.
  - eexists _, _. split; [reflexivity|]. split; [reflexivity|].
    exists crt, (sys w). rewrite Hget. reflexivity.
Qed.

(** C4, as the code has it.  For a node name of at least six bytes whose last
    six bytes are a number in base 36, and a cache that hands out valid
    entries (each points to a scale set, which has its properties when it
    has a name), [getNodeIdentityByNodeName] reads the scale-set cache once in
    the mode of the caller and at most once more with a forced refresh, and
    - returns an identity whose scale set has a prefix (the computer-name
      prefix, or else its name) equal up to case to the node name without
      its last six bytes, or
    - fails with [InstanceNotFound] after the read in the mode of the caller
      and exactly one more read with a forced refresh, or
    - fails with the error of a read of the cache. *)
Theorem fleet_resolution_outcomes {Remote : Type} (ss : ScaleSet Remote)
    (name : string) (crt : AzureCacheReadType) (w : World Remote) :
  soundCache ss ->
  6 <= String.length name ->
  ParseUint (GoString.from (String.length name - 6) name) 36 64 <> None ->
  exists r w',
    getNodeIdentityByNodeName ss name crt w = (Val r, w') /\
    (trace w' = trace w ++ [readVmssCache crt] \/
     trace w' = trace w ++ [readVmssCache crt; readVmssCache CacheReadTypeForceRefresh]) /\
    match r with
    | Ok node =>
        nodeName node = name /\ vmssName node <> "" /\ resolvedBy (heap (sys w')) name node
    | Err e =>
        (e = InstanceNotFound /\
         trace w' = trace w ++ [readVmssCache crt; readVmssCache CacheReadTypeForceRefresh]) \/
        (exists c s, fst (vmssCache_Get ss c s) = Err e)
    end.
Proof.
  intros Hsound Hlen Hparse.
  unfold getNodeIdentityByNodeName, getScaleSetVMInstanceID.
  destruct (decide (String.length name < 6)) as [Hlt|_]; [lia|].
  destruct (ParseUint _ 36 64) as [instanceID|]; [|contradiction].
  unfold bind.
  destruct (getNodeIdentityByNodeName_getter_spec ss name crt w Hsound)
    as [r1 [w1 [Hrun1 [Htrace1 Hspec1]]]].
  rewrite Hrun1.
  destruct r1 as [node1|e1].
  - destruct Hspec1 as [Hname1 Hres1].
    destruct (String.eqb (vmssName node1) "") eqn:Hempty; simpl.
    + destruct (getNodeIdentityByNodeName_getter_spec ss name CacheReadTypeForceRefresh w1 Hsound)
        as [r2 [w2 [Hrun2 [Htrace2 Hspec2]]]].
      rewrite Hrun2.
      assert (trace w2 = trace w ++ [readVmssCache crt; readVmssCache CacheReadTypeForceRefresh])
        as Htrace.
      { rewrite Htrace2, Htrace1, <- app_assoc. reflexivity. }
      destruct r2 as [node2|e2].
      * destruct Hspec2 as [Hname2 Hres2].
        destruct (String.eqb (vmssName node2) "") eqn:Hempty2.
        -- eexists _, _. split; [reflexivity|]. split; [right; exact Htrace|].
           left. split; [reflexivity|exact Htrace].
        -- apply String.eqb_neq in Hempty2.
           eexists _, _. split; [reflexivity|]. split; [right; exact Htrace|].
           split; [exact Hname2|]. split; [exact Hempty2|]. apply Hres2, Hempty2.
      * eexists _, _. split; [reflexivity|]. split; [right; exact Htrace|].
        right. exact Hspec2.
    + apply String.eqb_neq in Hempty.
      eexists _, _. split; [reflexivity|]. split; [left; exact Htrace1|].
      split; [exact Hname1|]. split; [exact Hempty|]. apply Hres1, Hempty.
  - eexists _, _. split; [reflexivity|]. split; [left; exact Htrace1|].
    right. exact Hspec1.
Qed.

(** The cache of the fleet hands out valid entries. *)
Lemma fleet_soundCache (failing : list string) : soundCache (Example.fleet failing).
Proof.
  intros crt s vmsses s' H. simpl in H. injection H as <- <-.
  repeat constructor; simpl; (eexists; split; [reflexivity|discriminate]).
Qed.

(** The statement of C4 at the second machine of [vmss-a]. *)
Lemma fleet_resolution_witness :
  exists r w',
    getNodeIdentityByNodeName (Example.fleet []) "aks-a-000001" CacheReadTypeDefault
      (Example.world Example.fleetHeap) = (Val r, w') /\
    (trace w' = [] ++ [readVmssCache CacheReadTypeDefault] \/
     trace w' = [] ++ [readVmssCache CacheReadTypeDefault;
                       readVmssCache CacheReadTypeForceRefresh]) /\
    match r with
    | Ok node =>
        nodeName node = "aks-a-000001" /\ vmssName node <> "" /\
        resolvedBy (heap (sys w')) "aks-a-000001" node
    | Err e =>
        (e = InstanceNotFound /\
         trace w' = [] ++ [readVmssCache CacheReadTypeDefault;
                           readVmssCache CacheReadTypeForceRefresh]) \/
        (exists c s, fst (vmssCache_Get (Example.fleet []) c s) = Err e)
    end.
Proof.
  apply (fleet_resolution_outcomes (Example.fleet []) "aks-a-000001" CacheReadTypeDefault
           (Example.world Example.fleetHeap)).
  - apply fleet_soundCache.
  - simpl. lia.
  - vm_compute. discriminate.
Defined.

(** C4, as stated, fails in two ways.  When the read of the cache fails, the
    error of the read is returned: neither an identity nor
    [InstanceNotFound].  And when the caller itself asks for a forced
    refresh, [InstanceNotFound] comes after two forced refreshes. *)
Lemma fleet_resolution_counterexample :
  let throttled :=
    Example.provider true (Err (External "throttled")) [] (fun _ => None) (fun _ => [])
                     (fun _ _ => (true, "", None)) [] in
  6 <= String.length "aks-a-000001" /\
  ParseUint (GoString.from (String.length "aks-a-000001" - 6) "aks-a-000001") 36 64 = Some 1%N /\
  getNodeIdentityByNodeName throttled "aks-a-000001" CacheReadTypeDefault
    (Example.world Example.fleetHeap) =
  (Val (Err (External "throttled")),
   {| sys := Example.install [] (sys (Example.world Example.fleetHeap));
      trace := [readVmssCache CacheReadTypeDefault] |}) /\
  getNodeIdentityByNodeName (Example.bare true) "aks-a-000001" CacheReadTypeForceRefresh
    (Example.world Example.fleetHeap) =
  (Val (Err InstanceNotFound),
   {| sys := Example.install [] (sys (Example.world Example.fleetHeap));
      trace := [readVmssCache CacheReadTypeForceRefresh;
                readVmssCache CacheReadTypeForceRefresh] |}).
Proof.
  cbv zeta. split; [simpl; lia|]. split; [vm_compute; reflexivity|].
  split; vm_compute; reflexivity.
Qed.

(** ** Slices *)

Section SliceFacts.

Implicit Types (st : Store) (s : slice) (xs : list SubResource).

Lemma index_elems st s i : Slice.index st s i = Slice.elems st s !! i.
Proof.
  unfold Slice.index, Slice.elems.
  destruct (st !! ptr s) as [a|]; destruct (decide (i < len s)) as [Hi|Hi]; simpl.
  - rewrite lookup_take_lt by exact Hi. rewrite lookup_drop. reflexivity.
  - rewrite lookup_take_ge by lia. reflexivity.
  - reflexivity.
  - reflexivity.
Qed.

Lemma elems_no_capacity st s : len s <= cap s -> cap s = 0 -> Slice.elems st s = [].
Proof.
  intros Hlen Hcap. unfold Slice.elems.
  replace (len s) with 0 by lia. destruct (st !! ptr s); reflexivity.
Qed.

Lemma length_elems st s : Slice.wf st s -> length (Slice.elems st s) = len s.
Proof.
  intros [Hcap [Hzero|[a [Ha Hlen]]]].
  - rewrite elems_no_capacity by assumption. simpl. lia.
  - unfold Slice.elems. rewrite Ha.
    rewrite length_take, length_drop. lia.
Qed.

Lemma elems_nonempty st s : Slice.elems st s <> [] -> len s <> 0.
Proof.
  unfold Slice.elems. intros H Hz. rewrite Hz in H.
  destruct (st !! ptr s); apply H; reflexivity.
Qed.

Lemma elems_upto st s n : n <= len s -> Slice.elems st (Slice.upto s n) = take n (Slice.elems st s).
Proof.
  intros Hn. unfold Slice.elems, Slice.upto; simpl.
  destruct (st !! ptr s) as [a|]; [|destruct n; reflexivity].
  rewrite take_take. f_equal. lia.
Qed.



(** The elements after [append] are the elements before it, then the
    appended ones; the slice it returns lies within its array. *)
Lemma append_elems (grow : nat -> nat -> nat) st s xs :
  Slice.wf st s ->
  Slice.wf (Slice.append grow st s xs).1 (Slice.append grow st s xs).2 /\
  Slice.elems (Slice.append grow st s xs).1 (Slice.append grow st s xs).2 =
    Slice.elems st s ++ xs /\
  len (Slice.append grow st s xs).2 = len s + length xs.
Proof.
  intros Hwf. pose proof (length_elems st s Hwf) as Hlen.
  destruct Hwf as [Hcap Harray].
  unfold Slice.append.
  destruct (decide (len s + length xs <= cap s)) as [Hfit|Hgrow]; simpl.
  - destruct Harray as [Hzero|[a [Ha Hbound]]].
    { assert (xs = []) as -> by (destruct xs; simpl in *; [reflexivity|lia]).
      split; [|split; [|reflexivity]].
      - split; [exact Hfit|]. left. exact Hzero.
      - rewrite !elems_no_capacity by (simpl in *; lia). reflexivity. }
    assert (alter (list_inserts (off s + len s) xs) (ptr s) st !! ptr s =
            Some (list_inserts (off s + len s) xs a)) as Ha'.
    { rewrite list_lookup_alter_eq, Ha. reflexivity. }
    split; [|split; [|reflexivity]].
    + split; [exact Hfit|]. right. eexists. split; [exact Ha'|].
      rewrite length_inserts. exact Hbound.
    + unfold Slice.elems; simpl. rewrite Ha', Ha.
      apply list_eq. intros i.
      destruct (decide (i < len s)) as [Hi|Hi].
      * rewrite lookup_take_lt by lia. rewrite lookup_drop.
        rewrite list_lookup_inserts_lt by lia.
        rewrite lookup_app_l by (rewrite length_take, length_drop; lia).
        rewrite lookup_take_lt by lia. rewrite lookup_drop. reflexivity.
      * rewrite lookup_app_r by (rewrite length_take, length_drop; lia).
        rewrite length_take, length_drop.
        replace (len s `min` (length a - off s)) with (len s) by lia.
        destruct (decide (i < len s + length xs)) as [Hi'|Hi'].
        -- rewrite lookup_take_lt by lia. rewrite lookup_drop.
           rewrite list_lookup_inserts by lia. f_equal. lia.
        -- rewrite lookup_take_ge by lia. symmetry. apply lookup_ge_None. lia.
  - split; [|split; [|reflexivity]].
    + split; [simpl; lia|]. right. eexists. split.
      * simpl. rewrite lookup_app_r by lia. rewrite Nat.sub_diag. reflexivity.
      * simpl. rewrite !length_app, length_replicate, Hlen. lia.
    + unfold Slice.elems at 1; simpl.
      rewrite lookup_app_r by lia. rewrite Nat.sub_diag. simpl.
      rewrite app_assoc, drop_0.
      rewrite take_app_length'; [reflexivity|].
      rewrite length_app, Hlen. reflexivity.
Qed.

Lemma elems_from st s n :
  n <= len s -> Slice.elems st (Slice.from s n) = drop n (Slice.elems st s).
Proof.
  intros Hn. unfold Slice.elems, Slice.from; simpl.
  destruct (st !! ptr s) as [a|]; [|rewrite drop_nil; reflexivity].
  rewrite skipn_firstn_comm, drop_drop. reflexivity.
Qed.

(** [append] on [s[:n]] within capacity leaves the first [n] elements of [s]
    as they were. *)
Lemma append_upto_prefix (grow : nat -> nat -> nat) st s n xs i :
  n + length xs <= cap s -> i < n -> n <= len s ->
  Slice.index (Slice.append grow st (Slice.upto s n) xs).1 s i = Slice.index st s i.
Proof.
  intros Hfit Hi Hn. unfold Slice.append, Slice.upto; simpl.
  destruct (decide (n + length xs <= cap s)) as [_|Hgrow]; [|contradiction]. simpl.
  unfold Slice.index.
  destruct (decide (i < len s)) as [_|Hout]; [|reflexivity].
  rewrite list_lookup_alter_eq.
  destruct (st !! ptr s) as [a|]; simpl; [|reflexivity].
  apply list_lookup_inserts_lt. lia.
Qed.

(** [append] on a slice leaves the slices of the other arrays as they were. *)
Lemma append_frame (grow : nat -> nat -> nat) st s0 xs s :
  Slice.wf st s0 -> Slice.wf st s ->
  cap s = 0 \/ cap s0 = 0 \/ ptr s <> ptr s0 ->
  Slice.wf (Slice.append grow st s0 xs).1 s /\
  Slice.elems (Slice.append grow st s0 xs).1 s = Slice.elems st s.
Proof.
  intros [Hcap0 _] [Hcap Harray] Hsep.
  assert (cap s = 0 ->
          Slice.wf (Slice.append grow st s0 xs).1 s /\
          Slice.elems (Slice.append grow st s0 xs).1 s = Slice.elems st s) as Hempty.
  { intros Hzero. split; [split; [exact Hcap|left; exact Hzero]|].
    rewrite !elems_no_capacity by assumption. reflexivity. }
  destruct Harray as [Hzero|[a [Ha Hbound]]]; [exact (Hempty Hzero)|].
  destruct Hsep as [Hzero|Hsep]; [exact (Hempty Hzero)|]. clear Hempty.
  assert ((Slice.append grow st s0 xs).1 !! ptr s = Some a) as Ha'.
  { unfold Slice.append.
    destruct (decide (len s0 + length xs <= cap s0)) as [Hfit|Hgrow]; simpl.
    - destruct Hsep as [Hzero|Hne].
      + assert (xs = []) as -> by (destruct xs; simpl in *; [reflexivity|lia]).
        rewrite list_alter_id by reflexivity. exact Ha.
      + rewrite list_lookup_alter_ne by congruence. exact Ha.
    - apply lookup_app_l_Some. exact Ha. }
  split.
  - split; [exact Hcap|]. right. exists a. split; [exact Ha'|exact Hbound].
  - unfold Slice.elems. rewrite Ha', Ha. reflexivity.
Qed.

End SliceFacts.

(** ** The removal loop on a list without the pool, and with the pool last *)

Section RemovalLoop.

Context (grow : nat -> nat -> nat) (backendPoolID : string).

(** Below an index up to which no entry is the pool, the loop changes
    nothing. *)
Lemma removeBackendPoolLoop_no_match (st : Store) (existing : slice) (k : nat)
    (newBackendPools : slice) (foundPool : bool) :
  (forall i, i < k -> exists p, Slice.index st existing i = Some p /\ otherPool backendPoolID p) ->
  removeBackendPoolLoop grow backendPoolID existing k newBackendPools foundPool st =
  (Val (newBackendPools, foundPool), st).
Proof.
  induction k as [|k IH]; intros Hother; simpl; [reflexivity|].
  destruct (Hother k ltac:(lia)) as [p [Hp [id [Hid Hfold]]]].
  unfold bind, get, deref. rewrite Hp. simpl. rewrite Hid. simpl. rewrite Hfold.
  apply IH. intros i Hi. apply Hother. lia.
Qed.


(** The loop passes over the indices whose entries are not the pool. *)
Lemma removeBackendPoolLoop_skip (st : Store) (existing : slice) (k0 n : nat)
    (newBackendPools : slice) (foundPool : bool) :
  (forall i, k0 <= i < k0 + n ->
             exists p, Slice.index st existing i = Some p /\ otherPool backendPoolID p) ->
  removeBackendPoolLoop grow backendPoolID existing (k0 + n) newBackendPools foundPool st =
  removeBackendPoolLoop grow backendPoolID existing k0 newBackendPools foundPool st.
Proof.
  induction n as [|n IH]; intros Hother.
  - rewrite Nat.add_0_r. reflexivity.
  - rewrite Nat.add_succ_r. simpl.
    destruct (Hother (k0 + n) ltac:(lia)) as [p [Hp [id [Hid Hfold]]]].
    unfold bind, get, deref. rewrite Hp. simpl. rewrite Hid. simpl. rewrite Hfold.
    apply IH. intros i Hi. apply Hother. lia.
Qed.

(** On a list with one entry that is the pool, the loop leaves the list
    without this entry. *)
Lemma removeBackendPoolLoop_single (st : Store) (existing : slice)
    (pre post : list SubResource) (id : string) :
  Slice.wf st existing ->
  Slice.elems st existing = pre ++ {| ID := Some id |} :: post ->
  EqualFold backendPoolID id = true ->
  Forall (otherPool backendPoolID) pre ->
  Forall (otherPool backendPoolID) post ->
  exists s st',
    removeBackendPoolLoop grow backendPoolID existing (len existing) Slice.empty false st =
      (Val (s, true), st') /\
    Slice.elems st' s = pre ++ post.
Proof.
  intros Hwf Helems Hfold Hpre Hpost.
  pose proof (length_elems st existing Hwf) as Hlen.
  rewrite Helems, length_app in Hlen. simpl in Hlen.
  assert (len existing = S (length pre) + length post) as -> by lia.
  rewrite removeBackendPoolLoop_skip.
  2:{ intros i Hi. rewrite index_elems, Helems.
      rewrite lookup_app_r by lia.
      destruct (length pre) as [|m] eqn:Hm in Hi |- *.
      - destruct i as [|i]; [lia|]. simpl.
        destruct (lookup_lt_is_Some_2 post i ltac:(lia)) as [p Hp].
        exists p. replace (S i - 0) with (S i) by lia. simpl. split; [exact Hp|].
        rewrite Forall_forall in Hpost. apply Hpost.
        apply list_elem_of_In, list_elem_of_lookup. eauto.
      - destruct (i - S m) as [|d] eqn:Hd; [lia|]. simpl.
        destruct (lookup_lt_is_Some_2 post d ltac:(lia)) as [p Hp].
        exists p. split; [exact Hp|].
        rewrite Forall_forall in Hpost. apply Hpost.
        apply list_elem_of_In, list_elem_of_lookup. eauto. }
  simpl. unfold bind, get, deref.
  rewrite index_elems, Helems.
  rewrite lookup_app_r by lia. rewrite Nat.sub_diag. simpl. rewrite Hfold.
  assert (Slice.wf st (Slice.upto existing (length pre))) as Hwf0.
  { destruct Hwf as [Hcap Harray]. split; [simpl; lia|exact Harray]. }
  assert (length pre + 1 <= len existing) as Hle by lia.
  assert (Slice.elems st (Slice.from existing (length pre + 1)) = post) as Hfrom.
  { rewrite elems_from by lia. rewrite Helems.
    change (pre ++ {| ID := Some id |} :: post) with (pre ++ [ {| ID := Some id |} ] ++ post).
    rewrite app_assoc. apply drop_app_length'. rewrite length_app. reflexivity. }
  rewrite Hfrom.
  pose proof (append_elems grow st (Slice.upto existing (length pre)) post Hwf0)
    as [_ [Happ _]].
  rewrite elems_upto in Happ by lia.
  rewrite Helems, take_app_length in Happ.
  pose proof (fun i => append_upto_prefix grow st existing (length pre) post i) as Hprefix.
  destruct (Slice.append grow st (Slice.upto existing (length pre)) post) as [st' s'] eqn:Ha.
  simpl in Happ, Hprefix. unfold put. simpl.
  exists s', st'. split; [|exact Happ].
  apply removeBackendPoolLoop_no_match.
  intros i Hi. rewrite Hprefix; [| |exact Hi|lia].
  - rewrite index_elems, Helems. rewrite lookup_app_l by lia.
    destruct (lookup_lt_is_Some_2 pre i Hi) as [p Hp].
    exists p. split; [exact Hp|].
    rewrite Forall_forall in Hpre. apply Hpre.
    apply list_elem_of_In, list_elem_of_lookup. eauto.
  - destruct Hwf as [Hcap _]. lia.
Qed.

End RemovalLoop.

(** ** Selection after an assignment of a membership list *)

Lemma findIndex_alter {A : Type} (p : A -> bool) (f : A -> A) (i : nat) (cs : list A) :
  (forall c, p (f c) = p c) -> findIndex p (alter f i cs) = findIndex p cs.
Proof.
  intros Hf. revert i. induction cs as [|c cs IH]; intros [|i]; simpl; try reflexivity.
  - rewrite Hf. reflexivity.
  - specialize (IH i). unfold alter in IH. rewrite IH. reflexivity.
Qed.

Lemma getPrimaryNetworkInterfaceConfiguration_name
    (nics : list VirtualMachineScaleSetNetworkConfiguration) (n1 n2 : string) (i : nat) :
  getPrimaryNetworkInterfaceConfiguration nics n1 = Ok i ->
  getPrimaryNetworkInterfaceConfiguration nics n2 = Ok i.
Proof.
  unfold getPrimaryNetworkInterfaceConfiguration.
  destruct (decide (length nics = 1)); [auto|].
  destruct (findIndex isPrimaryNIC nics); [auto|discriminate].
Qed.

Section AfterAssignment.

Context (i j : nat) (pools : option slice).

Lemma getPrimaryNetworkInterfaceConfiguration_setPools
    (nics : list VirtualMachineScaleSetNetworkConfiguration) (name : string) :
  getPrimaryNetworkInterfaceConfiguration (setPoolsInNICs i j pools nics) name =
  getPrimaryNetworkInterfaceConfiguration nics name.
Proof.
  unfold getPrimaryNetworkInterfaceConfiguration, setPoolsInNICs.
  rewrite length_alter, findIndex_alter by reflexivity. reflexivity.
Qed.

Lemma getPrimaryIPConfigFromVMSSNetworkConfig_setPools
    (nic : VirtualMachineScaleSetNetworkConfiguration) :
  getPrimaryIPConfigFromVMSSNetworkConfig (setPoolsInNIC j pools nic) =
  getPrimaryIPConfigFromVMSSNetworkConfig nic.
Proof.
  unfold getPrimaryIPConfigFromVMSSNetworkConfig, setPoolsInNIC; simpl.
  destruct (IPConfigurations nic) as [ipcs|]; simpl; [|reflexivity].
  rewrite length_alter, findIndex_alter by reflexivity. reflexivity.
Qed.

Lemma selectIPConfiguration_setPools {Remote : Type} (ss : ScaleSet Remote) (service : Service)
    (nic : VirtualMachineScaleSetNetworkConfiguration) (name : string) :
  selectIPConfiguration ss service (setPoolsInNIC j pools nic) name =
  selectIPConfiguration ss service nic name.
Proof.
  unfold selectIPConfiguration.
  rewrite getPrimaryIPConfigFromVMSSNetworkConfig_setPools.
  destruct (negb (ipv6DualStackEnabled ss) && negb (IsIPv6String ss (ClusterIP service)));
    [reflexivity|].
  unfold getConfigForScaleSetByIPFamily, setPoolsInNIC; simpl.
  destruct (IPConfigurations nic) as [ipcs|]; simpl; [|reflexivity].
  rewrite findIndex_alter by reflexivity. reflexivity.
Qed.

(** The interface configurations of the machine at [l], after the
    assignment to its IP configuration [(i, j)]. *)
Lemma nicsOf_setVMPools (h : Heap) (st : Store) (vm : VirtualMachine) (l : nat)
    (props : VirtualMachineScaleSetVMProperties)
    (nics : list VirtualMachineScaleSetNetworkConfiguration) :
  nicsOf h vm = Some (l, props, nics) ->
  exists props',
    nicsOf (setVMPools l i j pools
              {| arrays := st; vmObjs := vmObjs h; vmssObjs := vmssObjs h |}) vm =
      Some (l, props', setPoolsInNICs i j pools nics) /\
    HardwareProfile props' = HardwareProfile props.
Proof.
  unfold nicsOf, setVMPools; simpl.
  destruct (vmssVM vm) as [l'|]; simpl; [|discriminate].
  destruct (vmObjs h !! l') as [obj|] eqn:Hobj; simpl; [|discriminate].
  destruct (vmProperties obj) as [props0|] eqn:Hprops; simpl; [|discriminate].
  destruct (NetworkProfileConfiguration props0) as [npc|] eqn:Hnpc; simpl; [|discriminate].
  destruct (NetworkInterfaceConfigurations npc) as [nics0|] eqn:Hnics; simpl; [|discriminate].
  intros [= -> -> ->].
  rewrite list_lookup_alter_eq, Hobj. simpl. rewrite Hprops. simpl.
  rewrite Hnpc. simpl. rewrite Hnics. simpl.
  eexists. split; reflexivity.
Qed.


End AfterAssignment.

(** The IP configuration of a target is the one at its indices. *)
Lemma nicsOf_ipConfigAt (h : Heap) (vm : VirtualMachine) (l i j : nat)
    (props : VirtualMachineScaleSetVMProperties)
    (nics : list VirtualMachineScaleSetNetworkConfiguration)
    (nic : VirtualMachineScaleSetNetworkConfiguration)
    (ipcs : list VirtualMachineScaleSetIPConfiguration)
    (ipc : VirtualMachineScaleSetIPConfiguration) :
  nicsOf h vm = Some (l, props, nics) ->
  nics !! i = Some nic -> IPConfigurations nic = Some ipcs -> ipcs !! j = Some ipc ->
  ipConfigAt h l i j = Some ipc.
Proof.
  unfold nicsOf, ipConfigAt.
  destruct (vmssVM vm) as [l'|]; simpl; [|discriminate].
  destruct (vmObjs h !! l') as [obj|] eqn:Hobj; simpl; [|discriminate].
  destruct (vmProperties obj) as [props0|] eqn:Hprops; simpl; [|discriminate].
  destruct (NetworkProfileConfiguration props0) as [npc|] eqn:Hnpc; simpl; [|discriminate].
  destruct (NetworkInterfaceConfigurations npc) as [nics0|] eqn:Hnics; simpl; [|discriminate].
  intros [= -> -> ->] Hnic Hipcs Hipc.
  rewrite Hobj. simpl. rewrite Hprops. simpl. rewrite Hnpc. simpl. rewrite Hnics. simpl.
  rewrite Hnic. simpl. rewrite Hipcs. simpl. exact Hipc.
Qed.

(** ** The staging functions on a machine whose target is known *)

Section Staging.

Context {Remote : Type} (ss : ScaleSet Remote).

Lemma nicsOf_inv (h : Heap) (vm : VirtualMachine) (l : nat)
    (props : VirtualMachineScaleSetVMProperties)
    (nics : list VirtualMachineScaleSetNetworkConfiguration) :
  nicsOf h vm = Some (l, props, nics) ->
  exists obj npc,
    vmssVM vm = Some l /\ vmObjs h !! l = Some obj /\ vmProperties obj = Some props /\
    NetworkProfileConfiguration props = Some npc /\
    NetworkInterfaceConfigurations npc = Some nics.
Proof.
  unfold nicsOf.
  destruct (vmssVM vm) as [l'|]; simpl; [|discriminate].
  destruct (vmObjs h !! l') as [obj|] eqn:Hobj; simpl; [|discriminate].
  destruct (vmProperties obj) as [props0|] eqn:Hprops; simpl; [|discriminate].
  destruct (NetworkProfileConfiguration props0) as [npc|] eqn:Hnpc; simpl; [|discriminate].
  destruct (NetworkInterfaceConfigurations npc) as [nics0|] eqn:Hnics; simpl; [|discriminate].
  intros [= <- <- <-]. exists obj, npc. auto.
Qed.

(** What [EnsureHostInPool] returns for a resolved machine, and the heap it
    leaves. *)
Lemma EnsureHostInPool_vm_run (service : Service) (vm : VirtualMachine)
    (name backendPoolID vmSetNameOfLB : string) (h : Heap) (l i j : nat)
    (props : VirtualMachineScaleSetVMProperties)
    (nics : list VirtualMachineScaleSetNetworkConfiguration)
    (nic : VirtualMachineScaleSetNetworkConfiguration)
    (ipcs : list VirtualMachineScaleSetIPConfiguration)
    (ipc : VirtualMachineScaleSetIPConfiguration) (found : bool) :
  nicsOf h vm = Some (l, props, nics) ->
  getPrimaryNetworkInterfaceConfiguration nics (mapNodeNameToVMName ss name) = Ok i ->
  nics !! i = Some nic ->
  selectIPConfiguration ss service nic (mapNodeNameToVMName ss name) = Val (Ok j) ->
  IPConfigurations nic = Some ipcs ->
  ipcs !! j = Some ipc ->
  containsPool backendPoolID (membership h ipc) = Val found ->
  EnsureHostInPool_vm ss service vm name backendPoolID vmSetNameOfLB h =
  if skipsScaleSet ss vm vmSetNameOfLB then (Val stagedNothing, h)
  else if found then (Val stagedNothing, h)
  else
    let s0 := default Slice.empty (LoadBalancerBackendAddressPools ipc) in
    match conflictWithLB ss backendPoolID s0 (membership h ipc) with
    | Some (Some err) => (Val (stagedError err), h)
    | Some None => (Val stagedNothing, h)
    | None =>
        let a := Slice.append (growslice ss) (arrays h) s0 [ {| ID := Some backendPoolID |} ] in
        (Val match GetNodeResourceGroup ss (mapNodeNameToVMName ss name) with
             | Err err => stagedError err
             | Ok nodeResourceGroup =>
                 (nodeResourceGroup, VMSSName vm, InstanceID vm,
                  Some (newVM vm props (setPoolsInNICs i j (Some a.2) nics)), None)
             end,
         setVMPools l i j (Some a.2)
           {| arrays := a.1; vmObjs := vmObjs h; vmssObjs := vmssObjs h |})
    end.
Proof.
  intros Hnics Hi Hnic Hj Hipcs Hipc Hfound.
  destruct (nicsOf_inv _ _ _ _ _ Hnics) as [obj [npc [Hl [Hobj [Hprops [Hnpc Hn]]]]]].
  unfold EnsureHostInPool_vm.
  destruct (skipsScaleSet ss vm vmSetNameOfLB); [reflexivity|].
  unfold bind, deref, get, liftRes. rewrite Hl. simpl. rewrite Hobj. simpl.
  rewrite Hprops. simpl. rewrite Hnpc. simpl. rewrite Hn, Hi. rewrite Hnic. simpl.
  rewrite Hj. simpl. rewrite Hipcs. simpl. rewrite Hipc. simpl.
  unfold membership in Hfound. rewrite Hfound. simpl.
  destruct found; [reflexivity|].
  unfold membership.
  destruct (conflictWithLB ss backendPoolID _ _) as [[err|]|]; try reflexivity.
  unfold onArrays, bind, get, put, ret; simpl.
  destruct (Slice.append _ _ _ _) as [st' s'] eqn:Happend. simpl.
  destruct (GetNodeResourceGroup ss (mapNodeNameToVMName ss name)); reflexivity.
Qed.

(** What [ensureBackendPoolDeletedFromNode] returns for a resolved machine,
    and the heap it leaves. *)
Lemma ensureBackendPoolDeletedFromNode_vm_run (vm : VirtualMachine)
    (name backendPoolID : string) (h : Heap) (l i j : nat)
    (props : VirtualMachineScaleSetVMProperties)
    (nics : list VirtualMachineScaleSetNetworkConfiguration)
    (nic : VirtualMachineScaleSetNetworkConfiguration)
    (ipcs : list VirtualMachineScaleSetIPConfiguration)
    (ipc : VirtualMachineScaleSetIPConfiguration) :
  nicsOf h vm = Some (l, props, nics) ->
  getPrimaryNetworkInterfaceConfiguration nics name = Ok i ->
  nics !! i = Some nic ->
  getPrimaryIPConfigFromVMSSNetworkConfig nic = Val (Ok j) ->
  IPConfigurations nic = Some ipcs ->
  ipcs !! j = Some ipc ->
  ensureBackendPoolDeletedFromNode_vm ss vm name backendPoolID h =
  match LoadBalancerBackendAddressPools ipc with
  | None => (Val stagedNothing, h)
  | Some existing =>
      if decide (len existing = 0) then (Val stagedNothing, h)
      else
        match removeBackendPoolLoop (growslice ss) backendPoolID existing (len existing)
                Slice.empty false (arrays h) with
        | (Panic, st') => (Panic, {| arrays := st'; vmObjs := vmObjs h; vmssObjs := vmssObjs h |})
        | (Val lf, st') =>
            let h' := {| arrays := st'; vmObjs := vmObjs h; vmssObjs := vmssObjs h |} in
            if negb lf.2 then (Val stagedNothing, h')
            else
              (Val match GetNodeResourceGroup ss name with
                   | Err err => stagedError err
                   | Ok nodeResourceGroup =>
                       (nodeResourceGroup, VMSSName vm, InstanceID vm,
                        Some (newVM vm props (setPoolsInNICs i j (Some lf.1) nics)), None)
                   end,
               setVMPools l i j (Some lf.1) h')
        end
  end.
Proof.
  intros Hnics Hi Hnic Hj Hipcs Hipc.
  destruct (nicsOf_inv _ _ _ _ _ Hnics) as [obj [npc [Hl [Hobj [Hprops [Hnpc Hn]]]]]].
  unfold ensureBackendPoolDeletedFromNode_vm.
  unfold bind, deref, get, liftRes. rewrite Hl. simpl. rewrite Hobj. simpl.
  rewrite Hprops. simpl. rewrite Hnpc. simpl. rewrite Hn, Hi. rewrite Hnic. simpl.
  rewrite Hj. simpl. rewrite Hipcs. simpl. rewrite Hipc. simpl.
  destruct (LoadBalancerBackendAddressPools ipc) as [existing|]; [|reflexivity].
  destruct (decide (len existing = 0)); [reflexivity|].
  unfold onArrays.
  destruct (removeBackendPoolLoop _ _ _ _ _ _ _) as [[[new found]|] st']; simpl;
    [|reflexivity].
  destruct found; simpl; [|reflexivity].
  unfold put, ret.
  destruct (GetNodeResourceGroup ss name); reflexivity.
Qed.

(** [EnsureHostInPool] and [ensureBackendPoolDeletedFromNode] are the
    functions above, run on the machine that [getVmssVM] resolves. *)
Lemma EnsureHostInPool_resolved (service : Service) (nodeName backendPoolID vmSetNameOfLB : string)
    (vm : VirtualMachine) (w w1 : World Remote) :
  getVmssVM ss (mapNodeNameToVMName ss nodeName) CacheReadTypeDefault w = (Val (Ok vm), w1) ->
  EnsureHostInPool ss service nodeName backendPoolID vmSetNameOfLB w =
  onHeap (EnsureHostInPool_vm ss service vm nodeName backendPoolID vmSetNameOfLB) w1.
Proof.
  intros Hvm. unfold EnsureHostInPool, bind. rewrite Hvm. reflexivity.
Qed.

Lemma ensureBackendPoolDeletedFromNode_resolved (nodeName backendPoolID : string)
    (vm : VirtualMachine) (w w1 : World Remote) :
  getVmssVM ss nodeName CacheReadTypeDefault w = (Val (Ok vm), w1) ->
  ensureBackendPoolDeletedFromNode ss nodeName backendPoolID w =
  onHeap (ensureBackendPoolDeletedFromNode_vm ss vm nodeName backendPoolID) w1.
Proof.
  intros Hvm. unfold ensureBackendPoolDeletedFromNode, bind. rewrite Hvm. reflexivity.
Qed.

End Staging.

(** ** Looking for the pool in a membership list *)

Section ContainsPool.

Context (backendPoolID : string).

Lemma containsPool_other (pools : list SubResource) :
  Forall (otherPool backendPoolID) pools -> containsPool backendPoolID pools = Val false.
Proof.
  induction 1 as [|p pools [id [Hid Hfold]] _ IH]; simpl; [reflexivity|].
  rewrite Hid, Hfold. exact IH.
Qed.

Lemma containsPool_false_other (pools : list SubResource) :
  containsPool backendPoolID pools = Val false -> Forall (otherPool backendPoolID) pools.
Proof.
  induction pools as [|p pools IH]; simpl; [constructor|].
  destruct (ID p) as [id|] eqn:Hid; [|discriminate].
  destruct (EqualFold backendPoolID id) eqn:Hfold; [discriminate|].
  intros H. constructor; [exists id; auto|apply IH, H].
Qed.

Lemma containsPool_total (pools : list SubResource) :
  Forall hasID pools -> exists found, containsPool backendPoolID pools = Val found.
Proof.
  induction 1 as [|p pools [id Hid] _ [found IH]]; simpl; [eauto|].
  rewrite Hid. destruct (EqualFold backendPoolID id); eauto.
Qed.

Lemma containsPool_present (pre post : list SubResource) (p : SubResource) :
  Forall hasID pre ->
  isPool backendPoolID p = true ->
  containsPool backendPoolID (pre ++ p :: post) = Val true.
Proof.
  intros Hids Hp. induction Hids as [|q pre [id Hid] _ IH]; simpl.
  - unfold isPool in Hp. destruct (ID p) as [id|]; [|discriminate]. rewrite Hp. reflexivity.
  - rewrite Hid. destruct (EqualFold backendPoolID id); [reflexivity|exact IH].
Qed.

Lemma containsPool_appended (pools : list SubResource) :
  Forall (otherPool backendPoolID) pools ->
  containsPool backendPoolID (pools ++ [ {| ID := Some backendPoolID |} ]) = Val true.
Proof.
  induction 1 as [|p pools [id [Hid Hfold]] _ IH]; simpl.
  - rewrite EqualFold_refl. reflexivity.
  - rewrite Hid, Hfold. exact IH.
Qed.

End ContainsPool.

(** ** Targets *)

Section Targets.

Context {Remote : Type} (ss : ScaleSet Remote).

Lemma ensureTarget_inv (service : Service) (h : Heap) (vm : VirtualMachine) (name : string)
    (l i j : nat) (ipc : VirtualMachineScaleSetIPConfiguration) :
  ensureTarget ss service h vm name = Some (l, i, j, ipc) ->
  exists props nics nic ipcs,
    nicsOf h vm = Some (l, props, nics) /\
    getPrimaryNetworkInterfaceConfiguration nics (mapNodeNameToVMName ss name) = Ok i /\
    nics !! i = Some nic /\
    selectIPConfiguration ss service nic (mapNodeNameToVMName ss name) = Val (Ok j) /\
    IPConfigurations nic = Some ipcs /\
    ipcs !! j = Some ipc.
Proof.
  unfold ensureTarget.
  destruct (nicsOf h vm) as [[[l' props] nics]|]; simpl; [|discriminate].
  destruct (getPrimaryNetworkInterfaceConfiguration nics _) as [i'|] eqn:Hi; simpl;
    [|discriminate].
  destruct (nics !! i') as [nic|] eqn:Hnic; simpl; [|discriminate].
  destruct (selectIPConfiguration ss service nic _) as [[j'|]|] eqn:Hj; simpl;
    try discriminate.
  destruct (IPConfigurations nic) as [ipcs|] eqn:Hipcs; simpl; [|discriminate].
  destruct (ipcs !! j') as [ipc'|] eqn:Hipc; simpl; [|discriminate].
  intros [= <- <- <- <-]. exists props, nics, nic, ipcs. repeat split; assumption || reflexivity.
Qed.

Lemma primaryTarget_inv (h : Heap) (vm : VirtualMachine) (name : string)
    (l i j : nat) (ipc : VirtualMachineScaleSetIPConfiguration) :
  primaryTarget h vm name = Some (l, i, j, ipc) ->
  exists props nics nic ipcs,
    nicsOf h vm = Some (l, props, nics) /\
    getPrimaryNetworkInterfaceConfiguration nics name = Ok i /\
    nics !! i = Some nic /\
    getPrimaryIPConfigFromVMSSNetworkConfig nic = Val (Ok j) /\
    IPConfigurations nic = Some ipcs /\
    ipcs !! j = Some ipc.
Proof.
  unfold primaryTarget.
  destruct (nicsOf h vm) as [[[l' props] nics]|]; simpl; [|discriminate].
  destruct (getPrimaryNetworkInterfaceConfiguration nics _) as [i'|] eqn:Hi; simpl;
    [|discriminate].
  destruct (nics !! i') as [nic|] eqn:Hnic; simpl; [|discriminate].
  destruct (getPrimaryIPConfigFromVMSSNetworkConfig nic) as [[j'|]|] eqn:Hj; simpl;
    try discriminate.
  destruct (IPConfigurations nic) as [ipcs|] eqn:Hipcs; simpl; [|discriminate].
  destruct (ipcs !! j') as [ipc'|] eqn:Hipc; simpl; [|discriminate].
  intros [= <- <- <- <-]. exists props, nics, nic, ipcs. repeat split; assumption || reflexivity.
Qed.

(** The slice of a membership list of a well-formed heap, or the empty slice
    of a [nil] pointer, lies within its array. *)
Lemma wfHeap_target (h : Heap) (l i j : nat) (ipc : VirtualMachineScaleSetIPConfiguration) :
  wfHeap h -> ipConfigAt h l i j = Some ipc ->
  Slice.wf (arrays h) (default Slice.empty (LoadBalancerBackendAddressPools ipc)).
Proof.
  intros Hwf Hipc.
  destruct (LoadBalancerBackendAddressPools ipc) as [s|] eqn:Hs; simpl.
  - exact (Hwf l i j ipc s Hipc Hs).
  - split; [simpl; lia|left; reflexivity].
Qed.

End Targets.

(** ** Idempotence, round trip and conflict *)

Section Reconciliation.

Context {Remote : Type} (ss : ScaleSet Remote).

(** The way to the target, after an assignment to it. *)
Lemma path_after_assignment (h : Heap) (st : Store) (vm : VirtualMachine) (l i j : nat)
    (pools : option slice)
    (props : VirtualMachineScaleSetVMProperties)
    (nics : list VirtualMachineScaleSetNetworkConfiguration)
    (nic : VirtualMachineScaleSetNetworkConfiguration)
    (ipcs : list VirtualMachineScaleSetIPConfiguration)
    (ipc : VirtualMachineScaleSetIPConfiguration) :
  nicsOf h vm = Some (l, props, nics) ->
  nics !! i = Some nic -> IPConfigurations nic = Some ipcs -> ipcs !! j = Some ipc ->
  exists props',
    nicsOf (setVMPools l i j pools
              {| arrays := st; vmObjs := vmObjs h; vmssObjs := vmssObjs h |}) vm =
      Some (l, props', setPoolsInNICs i j pools nics) /\
    setPoolsInNICs i j pools nics !! i = Some (setPoolsInNIC j pools nic) /\
    IPConfigurations (setPoolsInNIC j pools nic) = Some (alter (setPools pools) j ipcs) /\
    alter (setPools pools) j ipcs !! j = Some (setPools pools ipc).
Proof.
  intros Hnics Hnic Hipcs Hipc.
  destruct (nicsOf_setVMPools i j pools h st vm l props nics Hnics) as [props' [Hn _]].
  exists props'. split; [exact Hn|]. split; [|split].
  - unfold setPoolsInNICs. rewrite list_lookup_alter_eq, Hnic. reflexivity.
  - simpl. rewrite Hipcs. reflexivity.
  - rewrite list_lookup_alter_eq, Hipc. reflexivity.
Qed.

(** The membership list of the target after [append]. *)
Lemma membership_appended (h : Heap) (l i j : nat)
    (ipc : VirtualMachineScaleSetIPConfiguration) (xs : list SubResource) :
  wfHeap h -> ipConfigAt h l i j = Some ipc ->
  let s0 := default Slice.empty (LoadBalancerBackendAddressPools ipc) in
  let a := Slice.append (growslice ss) (arrays h) s0 xs in
  Slice.wf a.1 a.2 /\ Slice.elems a.1 a.2 = membership h ipc ++ xs /\
  len a.2 = len s0 + length xs.
Proof.
  intros Hwf Hipc. cbv zeta. apply append_elems. exact (wfHeap_target h l i j ipc Hwf Hipc).
Qed.

(** A call of [EnsureHostInPool] that stages an update has found the target,
    and not the pool in it, and leaves the pool appended. *)
Lemma EnsureHostInPool_vm_staged_inv (service : Service) (vm : VirtualMachine)
    (name backendPoolID vmSetNameOfLB : string) (h h1 : Heap)
    (rg vn iid : string) (update : VirtualMachineScaleSetVM) :
  EnsureHostInPool_vm ss service vm name backendPoolID vmSetNameOfLB h =
    (Val (rg, vn, iid, Some update, None), h1) ->
  exists l i j ipc,
    ensureTarget ss service h vm name = Some (l, i, j, ipc) /\
    containsPool backendPoolID (membership h ipc) = Val false /\
    let a := Slice.append (growslice ss) (arrays h)
               (default Slice.empty (LoadBalancerBackendAddressPools ipc))
               [ {| ID := Some backendPoolID |} ] in
    h1 = setVMPools l i j (Some a.2)
           {| arrays := a.1; vmObjs := vmObjs h; vmssObjs := vmssObjs h |}.
Proof.
  unfold EnsureHostInPool_vm, ensureTarget, nicsOf.
  destruct (skipsScaleSet ss vm vmSetNameOfLB); [discriminate|].
  unfold bind, deref, get, liftRes.
  destruct (vmssVM vm) as [l|]; simpl; [|discriminate].
  destruct (vmObjs h !! l) as [obj|]; simpl; [|discriminate].
  destruct (vmProperties obj) as [props|]; simpl; [|discriminate].
  destruct (NetworkProfileConfiguration props) as [npc|]; simpl; [|discriminate].
  destruct (NetworkInterfaceConfigurations npc) as [nics|]; simpl; [|discriminate].
  destruct (getPrimaryNetworkInterfaceConfiguration nics _) as [i|]; simpl; [|discriminate].
  destruct (nics !! i) as [nic|]; simpl; [|discriminate].
  destruct (selectIPConfiguration ss service nic _) as [[j|]|]; simpl; try discriminate.
  destruct (IPConfigurations nic) as [ipcs|]; simpl; [|discriminate].
  destruct (ipcs !! j) as [ipc|]; simpl; [|discriminate].
  fold (membership h ipc).
  destruct (containsPool backendPoolID (membership h ipc)) as [[|]|] eqn:Hfound; simpl;
    try discriminate.
  destruct (conflictWithLB ss backendPoolID _ _) as [[err|]|]; try discriminate.
  unfold onArrays, bind, get, put, ret; simpl.
  destruct (Slice.append _ _ _ _) as [st' s'] eqn:Happend. simpl.
  destruct (GetNodeResourceGroup ss _); [|discriminate].
  intros [= _ _ _ _ <-].
  exists l, i, j, ipc. split; [reflexivity|]. split; [exact Hfound|].
  cbv zeta. rewrite Happend. reflexivity.
Qed.

(** C3.  When the pool already appears, up to case, in the membership list
    of the IP configuration that [EnsureHostInPool] selects (the entries
    before it having ids), the call stages nothing, returns no error and
    leaves the heap as it was.  Hence, in a heap whose membership lists lie
    within their arrays, a second call that observes the membership appended
    by a first, staging, call stages nothing and changes nothing. *)
Theorem ensure_is_idempotent (service : Service) (vm : VirtualMachine)
    (name backendPoolID vmSetNameOfLB : string) (h : Heap) :
  (forall l i j ipc pre p post,
     ensureTarget ss service h vm name = Some (l, i, j, ipc) ->
     membership h ipc = pre ++ p :: post ->
     Forall hasID pre ->
     isPool backendPoolID p = true ->
     EnsureHostInPool_vm ss service vm name backendPoolID vmSetNameOfLB h =
       (Val stagedNothing, h)) /\
  (forall rg vn iid update h1,
     wfHeap h ->
     EnsureHostInPool_vm ss service vm name backendPoolID vmSetNameOfLB h =
       (Val (rg, vn, iid, Some update, None), h1) ->
     EnsureHostInPool_vm ss service vm name backendPoolID vmSetNameOfLB h1 =
       (Val stagedNothing, h1)).
Proof.
  split.
  - intros l i j ipc pre p post Htarget Hlist Hids Hpresent.
    destruct (ensureTarget_inv ss _ _ _ _ _ _ _ _ Htarget)
      as [props [nics [nic [ipcs [Hnics [Hi [Hnic [Hj [Hipcs Hipc]]]]]]]]].
    rewrite (EnsureHostInPool_vm_run ss service vm name backendPoolID vmSetNameOfLB h
               l i j props nics nic ipcs ipc true Hnics Hi Hnic Hj Hipcs Hipc
               ltac:(rewrite Hlist; exact (containsPool_present _ _ _ _ Hids Hpresent))).
    destruct (skipsScaleSet ss vm vmSetNameOfLB); reflexivity.
  - intros rg vn iid update h1 Hwf Hstaged.
    destruct (EnsureHostInPool_vm_staged_inv _ _ _ _ _ _ _ _ _ _ _ Hstaged)
      as [l [i [j [ipc [Htarget [Hfound Hh1]]]]]].
    destruct (ensureTarget_inv ss _ _ _ _ _ _ _ _ Htarget)
      as [props [nics [nic [ipcs [Hnics [Hi [Hnic [Hj [Hipcs Hipc]]]]]]]]].
    pose proof (nicsOf_ipConfigAt h vm l i j props nics nic ipcs ipc Hnics Hnic Hipcs Hipc)
      as Hat.
    destruct (membership_appended h l i j ipc [ {| ID := Some backendPoolID |} ] Hwf Hat)
      as [_ [Helems _]].
    cbv zeta in Hh1.
    set (a := Slice.append (growslice ss) (arrays h)
                (default Slice.empty (LoadBalancerBackendAddressPools ipc))
                [ {| ID := Some backendPoolID |} ]) in *.
    destruct (path_after_assignment h a.1 vm l i j (Some a.2) props nics nic ipcs ipc
                Hnics Hnic Hipcs Hipc) as [props' [Hnics' [Hnic' [Hipcs' Hipc']]]].
    rewrite <- Hh1 in Hnics'.
    assert (containsPool backendPoolID (membership h1 (setPools (Some a.2) ipc)) = Val true)
      as Hfound'.
    { unfold membership. simpl. rewrite Hh1. simpl. rewrite Helems.
      apply containsPool_appended, containsPool_false_other, Hfound. }
    rewrite (EnsureHostInPool_vm_run ss service vm name backendPoolID vmSetNameOfLB h1
               l i j props' _ _ _ _ true Hnics'
               ltac:(rewrite getPrimaryNetworkInterfaceConfiguration_setPools; exact Hi)
               Hnic'
               ltac:(rewrite selectIPConfiguration_setPools; exact Hj)
               Hipcs' Hipc' Hfound').
    destruct (skipsScaleSet ss vm vmSetNameOfLB); reflexivity.
Qed.

(** The removal loop finds nothing in a list without the pool. *)
Lemma removeBackendPoolLoop_absent (backendPoolID : string) (st : Store) (existing : slice) :
  Slice.wf st existing ->
  Forall (otherPool backendPoolID) (Slice.elems st existing) ->
  removeBackendPoolLoop (growslice ss) backendPoolID existing (len existing)
    Slice.empty false st = (Val (Slice.empty, false), st).
Proof.
  intros Hwf Hother. apply removeBackendPoolLoop_no_match.
  intros k Hk. rewrite index_elems.
  destruct (lookup_lt_is_Some_2 (Slice.elems st existing) k) as [p Hp].
  { rewrite length_elems by exact Hwf. exact Hk. }
  exists p. split; [exact Hp|].
  rewrite Forall_forall in Hother. apply Hother.
  apply list_elem_of_In, list_elem_of_lookup. eauto.
Qed.






(** C7.  Under the standard load balancer, with a helper
    [isBackendPoolOnSameLB] that behaves as the spec describes it, when the
    membership list of the selected IP configuration is not empty, its
    entries have ids, and one of them is of a load balancer with another
    name than the one of the pool to add, [EnsureHostInPool] stages nothing,
    returns no error and leaves the heap, the membership list with it, as it
    was. *)
Theorem conflicting_load_balancer_is_skipped (service : Service) (vm : VirtualMachine)
    (name backendPoolID vmSetNameOfLB : string) (h : Heap) (l i j : nat)
    (ipc : VirtualMachineScaleSetIPConfiguration) (lbNameOf : string -> string) :
  ensureTarget ss service h vm name = Some (l, i, j, ipc) ->
  useStandardLoadBalancer ss = true ->
  (forall id ids, isBackendPoolOnSameLB ss id ids = isBackendPoolOnSameLB_spec lbNameOf id ids) ->
  membership h ipc <> [] ->
  Forall hasID (membership h ipc) ->
  Exists (fun p => exists id, ID p = Some id /\ lbNameOf id <> lbNameOf backendPoolID)
         (membership h ipc) ->
  EnsureHostInPool_vm ss service vm name backendPoolID vmSetNameOfLB h =
    (Val stagedNothing, h).
Proof.
  intros Htarget Hstd Hspec Hnonempty Hids Hother.
  destruct (ensureTarget_inv ss _ _ _ _ _ _ _ _ Htarget)
    as [props [nics [nic [ipcs [Hnics [Hi [Hnic [Hj [Hipcs Hipc]]]]]]]]].
  destruct (containsPool_total backendPoolID _ Hids) as [found Hfound].
  rewrite (EnsureHostInPool_vm_run ss service vm name backendPoolID vmSetNameOfLB h
             l i j props nics nic ipcs ipc found Hnics Hi Hnic Hj Hipcs Hipc Hfound).
  destruct (skipsScaleSet ss vm vmSetNameOfLB); [reflexivity|].
  destruct found; [reflexivity|].
  cbv zeta. unfold conflictWithLB. rewrite Hstd, Hspec.
  assert (len (default Slice.empty (LoadBalancerBackendAddressPools ipc)) <> 0) as Hlen.
  { apply (elems_nonempty (arrays h)). exact Hnonempty. }
  apply Nat.eqb_neq in Hlen. rewrite Hlen. simpl.
  unfold isBackendPoolOnSameLB_spec.
  destruct (List.find _ (backendPoolIDs (membership h ipc))) as [id|] eqn:Hfind;
    [reflexivity|].
  exfalso.
  apply Exists_exists in Hother as [p [Hin [id [Hid Hname]]]].
  assert (In id (backendPoolIDs (membership h ipc))) as Hid'.
  { unfold backendPoolIDs. apply list_elem_of_In, list_elem_of_omap.
    exists p. split; [apply list_elem_of_In, Hin|exact Hid]. }
  pose proof (List.find_none _ _ Hfind id Hid') as Hsame.
  apply negb_false_iff, String.eqb_eq in Hsame. contradiction.
Qed.

End Reconciliation.

(** ** The statements at a machine with one IP configuration *)

(** The heap of one machine is well formed. *)
Lemma heapOf_wf (ids : list string) (spare : nat) : wfHeap (Example.heapOf ids spare).
Proof.
  intros l i j c s Hc Hs. unfold ipConfigAt in Hc.
  destruct l as [|l]; [|destruct l; discriminate]. simpl in Hc.
  destruct i as [|i]; [|destruct i; discriminate]. simpl in Hc.
  destruct j as [|j]; [|destruct j; discriminate]. simpl in Hc.
  injection Hc as <-. simpl in Hs. injection Hs as <-.
  split; [simpl; lia|]. right. eexists. split; [reflexivity|].
  simpl. rewrite length_app, length_map, length_replicate. lia.
Qed.

(** It has one membership list only. *)
Lemma heapOf_separated (ids : list string) (spare : nat) : separated (Example.heapOf ids spare).
Proof.
  intros l i j j' c c' s s' Hne Hc Hc' _ _. unfold ipConfigAt in Hc, Hc'.
  destruct l as [|l]; [|destruct l; discriminate]. simpl in Hc, Hc'.
  destruct i as [|i]; [|destruct i; discriminate]. simpl in Hc, Hc'.
  destruct j as [|j]; [|destruct j; discriminate].
  destruct j' as [|j']; [|destruct j'; discriminate].
  contradiction.
Qed.

(** The statement of C3 at a list that names the pool in another case, and
    at the heap left by a first call on a list without the pool. *)
Lemma ensure_is_idempotent_witness :
  let ss := Example.bare true in
  let present := Example.heapOf ["lb-a"; "LB-POOL"] 0 in
  let absent := Example.heapOf ["lb-a"] 0 in
  let ensure := EnsureHostInPool_vm ss Example.service Example.resolved
                  "aks-a-000000" "lb-pool" "" in
  ensure present = (Val stagedNothing, present) /\
  ensure (snd (ensure absent)) = (Val stagedNothing, snd (ensure absent)).
Proof.
  cbv zeta. split.
  - apply (proj1 (ensure_is_idempotent (Example.bare true) Example.service Example.resolved
                    "aks-a-000000" "lb-pool" "" (Example.heapOf ["lb-a"; "LB-POOL"] 0))
             0 0 0 (Example.ipConfiguration (Some (Example.sliceOf ["lb-a"; "LB-POOL"] 0)))
             [Example.pool "lb-a"] (Example.pool "LB-POOL") []).
    + reflexivity.
    + reflexivity.
    + repeat constructor; eexists; reflexivity.
    + reflexivity.
  - eapply (proj2 (ensure_is_idempotent (Example.bare true) Example.service Example.resolved
                     "aks-a-000000" "lb-pool" "" (Example.heapOf ["lb-a"] 0))).
    + apply heapOf_wf.
    + cbv. reflexivity.
Defined.


(** The statement of C7 at a machine listed in a pool of the load balancer
    [lb-a] and asked to join a pool of [lb-b], the name of the load balancer
    being the first four bytes of the pool id. *)
Lemma conflicting_load_balancer_witness :
  let lbNameOf := fun id : string => substring 0 4 id in
  let ss := Example.provider true (Ok []) [] (fun _ => None) (fun _ => [])
              (isBackendPoolOnSameLB_spec lbNameOf) [] in
  let h := Example.heapOf ["lb-a/pool-1"] 0 in
  EnsureHostInPool_vm ss Example.service Example.resolved "aks-a-000000" "lb-b/pool-1" "" h =
    (Val stagedNothing, h).
Proof.
  cbv zeta.
  apply (conflicting_load_balancer_is_skipped _ Example.service Example.resolved
           "aks-a-000000" "lb-b/pool-1" "" (Example.heapOf ["lb-a/pool-1"] 0) 0 0 0
           (Example.ipConfiguration (Some (Example.sliceOf ["lb-a/pool-1"] 0)))
           (fun id : string => substring 0 4 id)).
  - reflexivity.
  - reflexivity.
  - reflexivity.
  - discriminate.
  - repeat constructor; eexists; reflexivity.
  - left. exists "lb-a/pool-1". split; [reflexivity|]. simpl. discriminate.
Defined.

(** ** Bulk ensure *)

Section BulkEnsure.

Context {Remote : Type} (ss : ScaleSet Remote).

(** Tasks that are calls all run, whatever they return. *)
Lemma runAll_calls (tasks : list (M (World Remote) (option error))) (w : World Remote) :
  Forall isCall tasks ->
  exists errs w', runAll tasks w = (Val errs, w') /\ ranAll tasks w errs w'.
Proof.
  intros Hcalls. revert w.
  induction Hcalls as [|task tasks [ev [f ->]] _ IH]; intros w; simpl.
  - eexists _, _. split; [reflexivity|constructor].
  - unfold bind at 1. unfold call at 1.
    destruct (f (sys w)) as [r s'] eqn:Hf.
    destruct (IH {| sys := s'; trace := trace w ++ [ev] |}) as [errs [w' [Hrun Hran]]].
    unfold bind. rewrite Hrun. simpl.
    eexists _, _. split; [reflexivity|].
    eapply ranAll_cons; [|exact Hran].
    unfold call. rewrite Hf. reflexivity.
Qed.

Lemma runDeferred_returns (names : list string) (w : World Remote) :
  exists w', runDeferred ss names w = (Val tt, w').
Proof.
  revert w. induction names as [|name names IH]; intros w; simpl.
  - eexists; reflexivity.
  - unfold bind, call. simpl. apply IH.
Qed.

(** The loop over the nodes, from any accumulator: it visits the nodes in
    their turn, and ends before the last one only when the exclusion test of
    a node fails or [EnsureHostInPool] panics. *)
Lemma EnsureHostsInPool_loop_visits (service : Service) (backendPoolID vmSetNameOfLB : string)
    (nodes : list Node) (acc : Staging) (w : World Remote) :
  (exists log w1,
     visitsAll ss service backendPoolID vmSetNameOfLB nodes w log w1 /\
     EnsureHostsInPool_loop ss service backendPoolID vmSetNameOfLB nodes acc w =
       (Val (inr (record ss service backendPoolID vmSetNameOfLB log acc)), w1)) \/
  (exists pre node post log w1 err w2,
     nodes = pre ++ node :: post /\
     visitsAll ss service backendPoolID vmSetNameOfLB pre w log w1 /\
     refused ss node w1 err w2 /\
     EnsureHostsInPool_loop ss service backendPoolID vmSetNameOfLB nodes acc w =
       (Val (inl (err, record ss service backendPoolID vmSetNameOfLB log acc)), w2)) \/
  (exists pre node post log w1 w2,
     nodes = pre ++ node :: post /\
     visitsAll ss service backendPoolID vmSetNameOfLB pre w log w1 /\
     crashes ss service backendPoolID vmSetNameOfLB node w1 w2 /\
     EnsureHostsInPool_loop ss service backendPoolID vmSetNameOfLB nodes acc w = (Panic, w2)).
Proof.
  revert acc w. induction nodes as [|node nodes IH]; intros acc w.
  - left. exists [], w. split; [constructor|reflexivity].
  - assert (forall (v : Visit) (w1 : World Remote),
              visits ss service backendPoolID vmSetNameOfLB node w v w1 ->
              forall k,
                k = EnsureHostsInPool_loop ss service backendPoolID vmSetNameOfLB nodes
                      (noted ss service backendPoolID vmSetNameOfLB acc (node, v)) w1 ->
                (exists log w2,
                   visitsAll ss service backendPoolID vmSetNameOfLB (node :: nodes) w log w2 /\
                   k = (Val (inr (record ss service backendPoolID vmSetNameOfLB log acc)), w2)) \/
                (exists pre node' post log w2 err w3,
                   node :: nodes = pre ++ node' :: post /\
                   visitsAll ss service backendPoolID vmSetNameOfLB pre w log w2 /\
                   refused ss node' w2 err w3 /\
                   k = (Val (inl (err, record ss service backendPoolID vmSetNameOfLB log acc)),
                        w3)) \/
                (exists pre node' post log w2 w3,
                   node :: nodes = pre ++ node' :: post /\
                   visitsAll ss service backendPoolID vmSetNameOfLB pre w log w2 /\
                   crashes ss service backendPoolID vmSetNameOfLB node' w2 w3 /\
                   k = (Panic, w3))) as Hgo.
    { intros v w1 Hv k ->.
      destruct (IH (noted ss service backendPoolID vmSetNameOfLB acc (node, v)) w1)
        as [[log [w2 [Hall Hrun]]]
           |[[pre [node' [post [log [w2 [err [w3 [-> [Hall [Href Hrun]]]]]]]]]]
            |[pre [node' [post [log [w2 [w3 [-> [Hall [Hcrash Hrun]]]]]]]]]]].
      - left. exists ((node, v) :: log), w2.
        split; [econstructor; eassumption|exact Hrun].
      - right. left. exists (node :: pre), node', post, ((node, v) :: log), w2, err, w3.
        split; [reflexivity|]. split; [econstructor; eassumption|]. split; [exact Href|exact Hrun].
      - right. right. exists (node :: pre), node', post, ((node, v) :: log), w2, w3.
        split; [reflexivity|]. split; [econstructor; eassumption|].
        split; [exact Hcrash|exact Hrun]. }
    set (k := EnsureHostsInPool_loop ss service backendPoolID vmSetNameOfLB (node :: nodes) acc w).
    assert (k = EnsureHostsInPool_loop ss service backendPoolID vmSetNameOfLB (node :: nodes)
                  acc w) as Hk by reflexivity.
    clearbody k. cbn [EnsureHostsInPool_loop] in Hk.
    fold (passedAsControlPlane ss node) in Hk.
    destruct (passedAsControlPlane ss node) eqn:Hcp.
    { apply (Hgo Passed w); [constructor; exact Hcp|exact Hk]. }
    unfold bind at 1 in Hk. fold (exclusionTest ss (nodeObjName node)) in Hk.
    destruct (exclusionTest ss (nodeObjName node) w) as [[[[|]|err]|] w1] eqn:Hex.
    + apply (Hgo Passed w1); [apply visits_excluded; assumption|exact Hk].
    + unfold bind at 1 in Hk. fold (managementTest ss (nodeObjName node)) in Hk.
      destruct (managementTest ss (nodeObjName node) w1) as [[[[|]|err]|] w2] eqn:Hman.
      * pose proof (visits_availability_set ss service backendPoolID vmSetNameOfLB
                      node w w1 w2 Hcp Hex Hman) as Hv.
        destruct (useStandardLoadBalancer ss); eapply Hgo; try exact Hv; exact Hk.
      * unfold bind at 1 in Hk.
        destruct (EnsureHostInPool ss service (nodeObjName node) backendPoolID vmSetNameOfLB w2)
          as [[[[[[rg vn] iid] [update|]] [err|]]|] w3] eqn:Hstage.
        -- eapply Hgo; [eapply visits_staging_failed; eassumption|exact Hk].
        -- eapply Hgo; [eapply visits_grouped; eassumption|exact Hk].
        -- eapply Hgo; [eapply visits_staging_failed; eassumption|exact Hk].
        -- eapply Hgo; [eapply visits_nothing_to_update; eassumption|exact Hk].
        -- right. right. exists [], node, nodes, [], w, w3.
           split; [reflexivity|]. split; [constructor|]. split; [|exact Hk].
           exists w1, w2. auto.
      * eapply Hgo; [eapply visits_manager_unknown; eassumption|exact Hk].
      * exfalso. unfold managementTest, call in Hman.
        destruct (isNodeManagedByAvailabilitySet ss _ _ _); discriminate.
    + right. left. exists [], node, nodes, [], w, err, w1.
      split; [reflexivity|]. split; [constructor|]. split; [split; assumption|exact Hk].
    + exfalso. unfold exclusionTest, call in Hex.
      destruct (ShouldNodeExcludedFromLoadBalancer ss _ _); discriminate.
Qed.

(** What the loop has built, by the visits. *)
Lemma record_parts (service : Service) (backendPoolID vmSetNameOfLB : string)
    (log : list (Node * Visit)) (acc : Staging) :
  let acc' := record ss service backendPoolID vmSetNameOfLB log acc in
  hostUpdates acc' = hostUpdates acc ++ delegations ss service backendPoolID vmSetNameOfLB log /\
  nodeUpdates acc' = groupsFrom (grouped log) (nodeUpdates acc) /\
  stagingErrors acc' = stagingErrors acc ++ failures log /\
  deferred acc' = affected log ++ deferred acc.
Proof.
  cbv zeta. revert acc. induction log as [|[node v] log IH]; intros acc.
  - cbn. rewrite !app_nil_r. auto.
  - change (record ss service backendPoolID vmSetNameOfLB ((node, v) :: log) acc)
      with (record ss service backendPoolID vmSetNameOfLB log
              (noted ss service backendPoolID vmSetNameOfLB acc (node, v))).
    destruct (IH (noted ss service backendPoolID vmSetNameOfLB acc (node, v)))
      as [-> [-> [-> ->]]].
    unfold affected.
    destruct v; cbn; rewrite <- ?app_assoc; cbn; auto.
Qed.

Lemma setBinding_holds {V : Type} (id : string) (v : V) (m : list (string * V)) :
  (id, v) ∈ setBinding String.eqb id v m.
Proof.
  induction m as [|[k u] m IH]; cbn; [apply list_elem_of_here|].
  destruct (String.eqb k id) eqn:Heq.
  - apply String.eqb_eq in Heq as ->. apply list_elem_of_here.
  - apply list_elem_of_further, IH.
Qed.

Lemma setBinding_keeps {V : Type} (id id' : string) (v v' : V) (m : list (string * V)) :
  (id', v') ∈ m -> exists u, (id', u) ∈ setBinding String.eqb id v m.
Proof.
  induction m as [|[k u] m IH]; cbn; intros Hin; [inversion Hin|].
  apply elem_of_cons in Hin as [[= <- <-]|Hin].
  - destruct (String.eqb id' id) eqn:Heq.
    + eexists. apply list_elem_of_here.
    + eexists. apply list_elem_of_here.
  - destruct (IH Hin) as [u' Hu'].
    destruct (String.eqb k id); eexists; apply list_elem_of_further; [exact Hin|exact Hu'].
Qed.

Lemma metaEqb_eq (a b : vmssMetaInfo) : metaEqb a b = true -> a = b.
Proof.
  destruct a, b. unfold metaEqb. cbn. intros H.
  apply andb_true_iff in H as [H1 H2].
  apply String.eqb_eq in H1, H2. congruence.
Qed.

Lemma setNodeUpdate_holds (meta : vmssMetaInfo) (id : string) (vm : VirtualMachineScaleSetVM)
    (m : NodeUpdates) :
  inGroup (setNodeUpdate meta id vm m) meta id.
Proof.
  induction m as [|[k u] m IH]; cbn.
  - exists [(id, vm)], vm. split; apply list_elem_of_here.
  - destruct (metaEqb k meta) eqn:Heq.
    + apply metaEqb_eq in Heq as ->.
      exists (setBinding String.eqb id vm u), vm.
      split; [apply list_elem_of_here|apply setBinding_holds].
    + destruct IH as [updates [update [Hin Hid]]].
      exists updates, update. split; [apply list_elem_of_further, Hin|exact Hid].
Qed.

Lemma setNodeUpdate_keeps (meta meta' : vmssMetaInfo) (id id' : string)
    (vm : VirtualMachineScaleSetVM) (m : NodeUpdates) :
  inGroup m meta' id' -> inGroup (setNodeUpdate meta id vm m) meta' id'.
Proof.
  intros [updates [update [Hin Hid]]].
  induction m as [|[k u] m IH]; cbn; [inversion Hin|].
  apply elem_of_cons in Hin as [[= <- <-]|Hin].
  - destruct (metaEqb meta' meta) eqn:Heq.
    + destruct (setBinding_keeps id id' vm update updates Hid) as [u' Hu'].
      eexists _, _. split; [apply list_elem_of_here|exact Hu'].
    + eexists _, _. split; [apply list_elem_of_here|exact Hid].
  - destruct (IH Hin) as [updates' [update' [Hin' Hid']]].
    destruct (metaEqb k meta).
    + eexists _, _. split; [apply list_elem_of_further, Hin|exact Hid].
    + eexists _, _. split; [apply list_elem_of_further, Hin'|exact Hid'].
Qed.

(** Every update that was grouped is in the group of its scale set. *)
Lemma groupsFrom_holds (updates : list (vmssMetaInfo * string * VirtualMachineScaleSetVM))
    (m : NodeUpdates) (meta : vmssMetaInfo) (id : string) :
  inGroup m meta id \/ (exists vm, (meta, id, vm) ∈ updates) ->
  inGroup (groupsFrom updates m) meta id.
Proof.
  revert m. induction updates as [|[[meta0 id0] vm0] updates IH]; intros m; cbn.
  - intros [H|[vm H]]; [exact H|inversion H].
  - intros [H|[vm H]].
    + apply IH. left. apply setNodeUpdate_keeps, H.
    + apply elem_of_cons in H as [[= <- <- <-]|H].
      * apply IH. left. apply setNodeUpdate_holds.
      * apply IH. right. exists vm. exact H.
Qed.

(** The tasks of a log are calls. *)
Lemma tasks_calls (service : Service) (backendPoolID vmSetNameOfLB : string)
    (log : list (Node * Visit)) :
  Forall isCall (tasks ss service backendPoolID vmSetNameOfLB log).
Proof.
  unfold tasks. apply Forall_app. split.
  - unfold delegations. induction log as [|[node v] log IH]; cbn; [constructor|].
    destruct v; cbn; try exact IH.
    constructor; [|exact IH]. eexists _, _. reflexivity.
  - apply Forall_forall. intros task Hin. apply in_map_iff in Hin as [mu [<- _]].
    eexists _, _. reflexivity.
Qed.

(** The flattened aggregate of failures, one of which counts, is an error. *)
Lemma Flatten_NewAggregate_Some (errs : list error) :
  errs <> [] -> Forall countsAsFailure errs -> Flatten (NewAggregate errs) <> None.
Proof.
  intros Hne Hall. destruct errs as [|err errs]; [contradiction|].
  apply Forall_cons_1 in Hall as [Herr _]. unfold countsAsFailure in Herr.
  cbn. destruct (flattenErrors err) as [|e es] eqn:Hflat; [contradiction|].
  cbn. discriminate.
Qed.

(** C8, as the code has it.  A call of [EnsureHostsInPool] goes one of three
    ways.
    - The exclusion test fails for a node: the nodes before it were visited,
      those after it are not looked at, no task runs, and the call returns
      the error of the test once the cache entries of the nodes staged so
      far are deleted.
    - [EnsureHostInPool] panics on a node: so does the call.
    - Every node is visited, a failure collected for a node not ending the
      loop.  Every update that was staged is in the group of its scale set,
      and every task (each delegation to the availability set and the
      batched update of each group) runs in its turn whatever the others
      return.  The call then returns the flattened aggregate of the
      failures of the tasks when a task failed, else the flattened
      aggregate of the failures collected for the nodes when there are
      some, else what [ensureVMSSInPool] returns for the templates (a panic
      of which is a panic of the call); before it returns, the cache
      entries of the nodes whose machine is updated are deleted, in the
      world that the tasks and the templates left.  When no failure is one
      that flattens to nothing, the call returns [nil] if and only if no
      task failed, no failure was collected and [ensureVMSSInPool]
      returned [nil]. *)
Theorem bulk_ensure_outcome (service : Service) (nodes : list Node)
    (backendPoolID vmSetNameOfLB : string) (w : World Remote) :
  let run := EnsureHostsInPool ss service nodes backendPoolID vmSetNameOfLB w in
  let visited := visitsAll ss service backendPoolID vmSetNameOfLB in
  (exists pre node post log w1 err w2 w3,
     nodes = pre ++ node :: post /\
     visited pre w log w1 /\
     refused ss node w1 err w2 /\
     runDeferred ss (affected log) w2 = (Val tt, w3) /\
     run = (Val (Some err), w3)) \/
  (exists pre node post log w1 w2,
     nodes = pre ++ node :: post /\
     visited pre w log w1 /\
     crashes ss service backendPoolID vmSetNameOfLB node w1 w2 /\
     run = (Panic, w2)) \/
  (exists log w1 errs w2 returned w2',
     visited nodes w log w1 /\
     (forall meta id update,
        (meta, id, update) ∈ grouped log -> inGroup (groups log) meta id) /\
     ranAll (tasks ss service backendPoolID vmSetNameOfLB log) w1 errs w2 /\
     (returned, w2') =
       match errs, failures log with
       | _ :: _, _ => (Val (Flatten (NewAggregate errs)), w2)
       | [], _ :: _ => (Val (Flatten (NewAggregate (failures log))), w2)
       | [], [] => ensureVMSSInPool ss service nodes backendPoolID vmSetNameOfLB w2
       end /\
     match returned with
     | Val r =>
         exists w3, runDeferred ss (affected log) w2' = (Val tt, w3) /\ run = (Val r, w3)
     | Panic => run = (Panic, w2')
     end /\
     (Forall countsAsFailure errs -> Forall countsAsFailure (failures log) ->
      (fst run = Val None <->
       errs = [] /\ failures log = [] /\
       fst (ensureVMSSInPool ss service nodes backendPoolID vmSetNameOfLB w2) = Val None))).
Proof.
  cbv zeta.
  destruct (EnsureHostsInPool_loop_visits service backendPoolID vmSetNameOfLB nodes noStaging w)
    as [[log [w1 [Hall Hloop]]]
       |[[pre [node [post [log [w1 [err [w2 [-> [Hall [Href Hloop]]]]]]]]]]
        |[pre [node [post [log [w1 [w2 [-> [Hall [Hcrash Hloop]]]]]]]]]]].
  - right. right.
    destruct (record_parts service backendPoolID vmSetNameOfLB log noStaging)
      as [Hhost [Hnode [Hstaging Hdeferred]]].
    cbv zeta in Hhost, Hnode, Hstaging, Hdeferred.
    cbn [noStaging hostUpdates nodeUpdates stagingErrors deferred app] in Hhost, Hnode,
      Hstaging, Hdeferred.
    rewrite app_nil_r in Hdeferred.
    fold (groups log) in Hnode.
    destruct (runAll_calls _ w1 (tasks_calls service backendPoolID vmSetNameOfLB log))
      as [errs [w2 [Hrun Hran]]].
    assert (exists returned w2',
              (returned, w2') =
                match errs, failures log with
                | _ :: _, _ => (Val (Flatten (NewAggregate errs)), w2)
                | [], _ :: _ => (Val (Flatten (NewAggregate (failures log))), w2)
                | [], [] => ensureVMSSInPool ss service nodes backendPoolID vmSetNameOfLB w2
                end) as [returned [w2' Hreturned]].
    { destruct errs; [destruct (failures log)|]; try (eexists _, _; reflexivity).
      destruct (ensureVMSSInPool ss service nodes backendPoolID vmSetNameOfLB w2).
      eexists _, _; reflexivity. }
    assert (match returned with
            | Val r =>
                exists w3, runDeferred ss (affected log) w2' = (Val tt, w3) /\
                           EnsureHostsInPool ss service nodes backendPoolID vmSetNameOfLB w =
                             (Val r, w3)
            | Panic =>
                EnsureHostsInPool ss service nodes backendPoolID vmSetNameOfLB w = (Panic, w2')
            end) as Hrunning.
    { unfold EnsureHostsInPool, AggregateGoroutines, bind. rewrite Hloop.
      cbv beta iota. rewrite Hhost, Hnode, Hstaging, Hdeferred.
      fold (tasks ss service backendPoolID vmSetNameOfLB log). rewrite Hrun.
      destruct errs as [|err errs]; cbn [NewAggregate]; unfold ret; cbv beta iota.
      - destruct (failures log) as [|serr serrs] eqn:Hfail.
        + destruct (ensureVMSSInPool ss service nodes backendPoolID vmSetNameOfLB w2)
            as [[r|] w2''] eqn:Hens; injection Hreturned as -> ->; [|reflexivity].
          destruct (runDeferred_returns (affected log) w2'') as [w3 Hdef].
          exists w3. rewrite Hdef. split; reflexivity.
        + injection Hreturned as -> ->.
          destruct (runDeferred_returns (affected log) w2) as [w3 Hdef].
          exists w3. rewrite Hdef. split; reflexivity.
      - injection Hreturned as -> ->.
        destruct (runDeferred_returns (affected log) w2) as [w3 Hdef].
        exists w3. rewrite Hdef. split; reflexivity. }
    exists log, w1, errs, w2, returned, w2'.
    split; [exact Hall|]. split.
    { intros meta id update Hin. apply groupsFrom_holds. right. exists update. exact Hin. }
    split; [exact Hran|]. split; [exact Hreturned|]. split; [exact Hrunning|].
    intros Herrs Hfailures.
    assert (fst (EnsureHostsInPool ss service nodes backendPoolID vmSetNameOfLB w) = returned)
      as ->.
    { destruct returned as [r|]; [destruct Hrunning as [w3 [_ ->]]|rewrite Hrunning];
        reflexivity. }
    destruct errs as [|err errs].
    + destruct (failures log) as [|serr serrs].
      * rewrite <- Hreturned. cbn. split; [auto|]. intros [_ [_ H]]. exact H.
      * injection Hreturned as -> ->. split.
        -- intros [= H]. exfalso. revert H.
           apply (Flatten_NewAggregate_Some (serr :: serrs)); [discriminate|exact Hfailures].
        -- intros [_ [H _]]. discriminate.
    + injection Hreturned as -> ->. split.
      * intros [= H]. exfalso. revert H.
        apply (Flatten_NewAggregate_Some (err :: errs)); [discriminate|exact Herrs].
      * intros [H _]. discriminate.
  - left. destruct (record_parts service backendPoolID vmSetNameOfLB log noStaging)
      as [_ [_ [_ Hdeferred]]].
    cbv zeta in Hdeferred. cbn [noStaging deferred] in Hdeferred.
    rewrite app_nil_r in Hdeferred.
    destruct (runDeferred_returns (affected log) w2) as [w3 Hdef].
    exists pre, node, post, log, w1, err, w2, w3.
    split; [reflexivity|]. split; [exact Hall|]. split; [exact Href|]. split; [exact Hdef|].
    unfold EnsureHostsInPool, bind. rewrite Hloop. cbv beta iota.
    rewrite Hdeferred, Hdef. reflexivity.
  - right. left. exists pre, node, post, log, w1, w2.
    split; [reflexivity|]. split; [exact Hall|]. split; [exact Hcrash|].
    unfold EnsureHostsInPool, bind. rewrite Hloop. reflexivity.
Qed.

End BulkEnsure.

(** The scenario of three nodes in two scale sets, where the batched update
    of [vmss-b] fails.  Every node is visited and its update is grouped;
    there are two groups, [vmss-a] with two machines and [vmss-b] with one;
    both batched updates run, the one of [vmss-a] is sent all the same, and
    the aggregate returned holds the one failure. *)
Example three_nodes_two_groups :
  let ss := Example.fleet ["vmss-b"] in
  let w := Example.world Example.fleetHeap in
  let run := EnsureHostsInPool ss Example.service Example.fleetNodes "lb-pool" "" w in
  (exists log w1 w2,
     visitsAll ss Example.service "lb-pool" "" Example.fleetNodes w log w1 /\
     failures log = [] /\
     map (fun mu => (metaVmssName (fst mu), map fst (snd mu))) (groups log) =
       [("vmss-a", ["0"; "1"]); ("vmss-b", ["2"])] /\
     ranAll (tasks ss Example.service "lb-pool" "" log) w1 [External "UpdateVMs failed"] w2) /\
  fst run = Val (Some (Aggregate [External "UpdateVMs failed"])) /\
  List.filter (fun ev => match ev with EvCall "UpdateVMs" _ => true | _ => false end)
              (trace (snd run)) =
    [EvCall "UpdateVMs" ["rg"; "vmss-a"]; EvCall "UpdateVMs" ["rg"; "vmss-b"]].
Proof.
  cbv zeta. split; [|split; vm_compute; reflexivity].
  eexists _, _, _. split.
  { eapply visitsAll_cons;
      [eapply visits_grouped; [reflexivity|reflexivity|reflexivity|cbv; reflexivity]|].
    eapply visitsAll_cons;
      [eapply visits_grouped; [reflexivity|reflexivity|reflexivity|cbv; reflexivity]|].
    eapply visitsAll_cons;
      [eapply visits_grouped; [reflexivity|reflexivity|reflexivity|cbv; reflexivity]|].
    apply visitsAll_nil. }
  split; [reflexivity|]. split; [reflexivity|].
  eapply (ranAll_cons _ _ _ _ _ None); [reflexivity|].
  eapply (ranAll_cons _ _ _ _ _ (Some (External "UpdateVMs failed")) []); [reflexivity|].
  apply ranAll_nil.
Qed.

(** C8, as stated, fails in two ways.  With a node whose staging fails and a
    scale set whose batched update fails, the returned aggregate holds the
    failure of the update only, not the one collected while staging.  And
    with no failure collected at all, the call still fails when the
    reconciliation of the templates does. *)
Lemma bulk_ensure_counterexample :
  (let w := Example.world Example.brokenFleetHeap in
   (exists acc w1,
      EnsureHostsInPool_loop (Example.fleet ["vmss-b"]) Example.service "lb-pool" ""
        Example.fleetNodes noStaging w = (Val (inr acc), w1) /\
      stagingErrors acc =
        [fmtErrorf "failed to find a primary network configuration for the scale set VM %q"
                   ["aks-a-000001"]]) /\
   fst (EnsureHostsInPool (Example.fleet ["vmss-b"]) Example.service Example.fleetNodes
          "lb-pool" "" w) =
     Val (Some (Aggregate [External "UpdateVMs failed"]))) /\
  (let w := Example.world Example.fleetHeap in
   (exists acc w1 w2,
      EnsureHostsInPool_loop Example.strayFleet Example.service "lb-pool" ""
        Example.fleetNodes noStaging w = (Val (inr acc), w1) /\
      stagingErrors acc = [] /\
      runAll (tasksOf Example.strayFleet acc) w1 = (Val [], w2)) /\
   fst (EnsureHostsInPool Example.strayFleet Example.service Example.fleetNodes
          "lb-pool" "" w) =
     Val (Some InstanceNotFound)).
Proof.
  cbv zeta. split; split.
  - eexists _, _. split; [cbv; reflexivity|]. reflexivity.
  - vm_compute. reflexivity.
  - eexists _, _, _. split; [cbv; reflexivity|]. split; [reflexivity|]. cbv. reflexivity.
  - vm_compute. reflexivity.
Qed.

(** * Further properties *)

(** ** Instance ids *)

Section InstanceID.

Lemma length_append (p s : string) :
  String.length (p ++ s)%string = String.length p + String.length s.
Proof. induction p as [|c p IH]; simpl; [reflexivity|now rewrite IH]. Qed.

Lemma substring_all (s : string) : substring 0 (String.length s) s = s.
Proof. induction s as [|c s IH]; simpl; [reflexivity|now rewrite IH]. Qed.

Lemma substring_append (p s : string) (n : nat) :
  substring (String.length p) n (p ++ s)%string = substring 0 n s.
Proof. induction p as [|c p IH]; simpl; [reflexivity|exact IH]. Qed.

Lemma lastSix_append (p s : string) :
  String.length s = 6 -> lastSix (p ++ s)%string = s.
Proof.
  intros Hs. unfold lastSix, GoString.from. rewrite length_append, Hs.
  replace (String.length p + 6 - 6) with (String.length p) by lia.
  replace (String.length p + 6 - String.length p) with (String.length s) by lia.
  rewrite substring_append. apply substring_all.
Qed.

Lemma length_substring_from (s : string) (n : nat) :
  n <= String.length s ->
  String.length (substring n (String.length s - n) s) = String.length s - n.
Proof.
  revert n. induction s as [|c s IH]; intros [|n] Hn; simpl in *; try lia.
  - now rewrite substring_all.
  - apply IH. lia.
Qed.

Lemma length_lastSix (name : string) :
  6 <= String.length name -> String.length (lastSix name) = 6.
Proof.
  intros H. unfold lastSix, GoString.from.
  rewrite length_substring_from by lia. lia.
Qed.

Lemma digitValue_alphanumeric (c : ascii) :
  isAlphanumeric c = true <-> exists d, digitValue c = Some d /\ (d < 36)%N.
Proof.
  unfold isAlphanumeric, digitValue.
  destruct (48 <=? N_of_ascii c)%N eqn:H1, (N_of_ascii c <=? 57)%N eqn:H2,
           (97 <=? N_of_ascii c)%N eqn:H3, (N_of_ascii c <=? 122)%N eqn:H4,
           (65 <=? N_of_ascii c)%N eqn:H5, (N_of_ascii c <=? 90)%N eqn:H6; simpl;
    repeat match goal with
           | H : (_ <=? _)%N = true |- _ => apply N.leb_le in H
           | H : (_ <=? _)%N = false |- _ => apply N.leb_gt in H
           end;
    split; intros H; try discriminate; try lia;
    try (eexists; split; [reflexivity|lia]);
    try (destruct H as [d [H _]]; discriminate).
Qed.

Lemma parseDigits_alphanumeric (maxVal : N) (s : string) (acc : N) :
  alphanumeric s = true ->
  ((acc + 1) * 36 ^ N.of_nat (String.length s) <= maxVal + 1)%N ->
  exists n, parseDigits 36 maxVal acc s = Some n /\
            (acc * 36 ^ N.of_nat (String.length s) <= n)%N /\
            (n < (acc + 1) * 36 ^ N.of_nat (String.length s))%N.
Proof.
  revert acc. induction s as [|c s IH]; intros acc Hs Hmax.
  - exists acc. simpl. split; [reflexivity|]. lia.
  - unfold alphanumeric in Hs. simpl in Hs. apply andb_true_iff in Hs as [Hc Hs].
    apply digitValue_alphanumeric in Hc as [d [Hd Hlt]].
    cbn [parseDigits String.length] in *. rewrite Hd.
    replace (36 <=? d)%N with false by (symmetry; apply N.leb_gt; exact Hlt).
    rewrite Nat2N.inj_succ, N.pow_succ_r' in *.
    assert (1 <= 36 ^ N.of_nat (String.length s))%N as Hpos
      by (apply N.lt_pred_le; simpl; apply N.neq_0_lt_0, N.pow_nonzero; lia).
    set (k := (36 ^ N.of_nat (String.length s))%N) in *.
    assert ((acc + 1) * 36 <= (acc + 1) * (36 * k))%N as Hstep
      by (apply N.mul_le_mono_l; nia).
    replace (maxVal <? acc * 36 + d)%N with false by (symmetry; apply N.ltb_ge; lia).
    destruct (IH (acc * 36 + d)%N Hs) as [n [Hn [Hlo Hhi]]]; [nia|].
    exists n. split; [exact Hn|]. nia.
Qed.

Lemma parseDigits_Some_alphanumeric (maxVal : N) (s : string) (acc n : N) :
  parseDigits 36 maxVal acc s = Some n -> alphanumeric s = true.
Proof.
  revert acc. induction s as [|c s IH]; intros acc H; [reflexivity|].
  cbn [parseDigits] in H. destruct (digitValue c) as [d|] eqn:Hd; [|discriminate].
  destruct (36 <=? d)%N eqn:Hb; [discriminate|].
  destruct (maxVal <? acc * 36 + d)%N; [discriminate|].
  unfold alphanumeric. simpl. apply andb_true_iff. split.
  - apply digitValue_alphanumeric. exists d. split; [exact Hd|]. now apply N.leb_gt.
  - exact (IH _ H).
Qed.

Lemma parseDigits_base36 (maxVal : N) (s : string) (acc : N) :
  alphanumeric s = true ->
  ((acc + 1) * 36 ^ N.of_nat (String.length s) <= maxVal + 1)%N ->
  parseDigits 36 maxVal acc s = Some (base36From acc s).
Proof.
  revert acc. induction s as [|c s IH]; intros acc Hs Hmax; [reflexivity|].
  unfold alphanumeric in Hs. simpl in Hs. apply andb_true_iff in Hs as [Hc Hs].
  apply digitValue_alphanumeric in Hc as [d [Hd Hlt]].
  cbn [parseDigits String.length] in *. unfold base36From. simpl. rewrite Hd. simpl.
  replace (36 <=? d)%N with false by (symmetry; apply N.leb_gt; exact Hlt).
  rewrite Nat2N.inj_succ, N.pow_succ_r' in *.
  assert (1 <= 36 ^ N.of_nat (String.length s))%N as Hpos
    by (apply N.lt_pred_le; simpl; apply N.neq_0_lt_0, N.pow_nonzero; lia).
  set (k := (36 ^ N.of_nat (String.length s))%N) in *.
  assert ((acc + 1) * 36 <= (acc + 1) * (36 * k))%N as Hstep
    by (apply N.mul_le_mono_l; nia).
  replace (maxVal <? acc * 36 + d)%N with false by (symmetry; apply N.ltb_ge; lia).
  apply IH; [exact Hs|]. fold k. nia.
Qed.

Lemma base36From_bounds (s : string) (acc : N) :
  (acc * 36 ^ N.of_nat (String.length s) <= base36From acc s)%N /\
  (base36From acc s < (acc + 1) * 36 ^ N.of_nat (String.length s))%N.
Proof.
  revert acc. induction s as [|c s IH]; intros acc.
  - unfold base36From. simpl. lia.
  - unfold base36From in *. cbn [String.length list_ascii_of_string fold_left].
    rewrite Nat2N.inj_succ, N.pow_succ_r'.
    assert (default 0 (digitValue c) < 36)%N as Hd.
    { unfold digitValue.
      destruct (48 <=? N_of_ascii c)%N eqn:H1, (N_of_ascii c <=? 57)%N eqn:H2,
               (97 <=? N_of_ascii c)%N eqn:H3, (N_of_ascii c <=? 122)%N eqn:H4,
               (65 <=? N_of_ascii c)%N eqn:H5, (N_of_ascii c <=? 90)%N eqn:H6; simpl;
        repeat match goal with
               | H : (_ <=? _)%N = true |- _ => apply N.leb_le in H
               | H : (_ <=? _)%N = false |- _ => apply N.leb_gt in H
               end; lia. }
    specialize (IH (acc * 36 + default 0 (digitValue c))%N) as [Hlo Hhi].
    set (k := (36 ^ N.of_nat (String.length s))%N) in *.
    set (d := default 0%N (digitValue c)) in *.
    split; nia.
Qed.

Lemma digitValue_foldByte (c : ascii) : digitValue (foldByte c) = digitValue c.
Proof.
  unfold foldByte.
  destruct ((65 <=? N_of_ascii c)%N && (N_of_ascii c <=? 90)%N) eqn:Hup; [|reflexivity].
  apply andb_true_iff in Hup as [H1 H2]. apply N.leb_le in H1, H2.
  unfold digitValue. rewrite N_ascii_embedding by lia.
  repeat match goal with
         | |- context [(?a <=? ?b)%N] =>
             let H := fresh in destruct (a <=? b)%N eqn:H;
             [apply N.leb_le in H|apply N.leb_gt in H]
         end; simpl; try lia; f_equal; lia.
Qed.

Lemma foldByte_of_digitValue (c c' : ascii) (d : N) :
  digitValue c = Some d -> digitValue c' = Some d -> foldByte c = foldByte c'.
Proof.
  assert (forall a b, N_of_ascii a = N_of_ascii b -> a = b) as Hinj.
  { intros a b H. rewrite <- (ascii_N_embedding a), <- (ascii_N_embedding b). now rewrite H. }
  unfold digitValue, foldByte. intros H H'.
  pose proof (N_ascii_bounded c) as Hb. pose proof (N_ascii_bounded c') as Hb'.
  repeat match type of H with
         | context [(?a <=? ?b)%N] =>
             let E := fresh in destruct (a <=? b)%N eqn:E;
             [apply N.leb_le in E|apply N.leb_gt in E]
         end; simpl in H; try discriminate; injection H as <-;
  repeat match type of H' with
         | context [(?a <=? ?b)%N] =>
             let E := fresh in destruct (a <=? b)%N eqn:E;
             [apply N.leb_le in E|apply N.leb_gt in E]
         end; simpl in H'; try discriminate; injection H' as H';
  simpl; try lia;
  try (apply Hinj; lia);
  try (f_equal; lia);
  try (rewrite <- (ascii_N_embedding c); f_equal; lia);
  try (rewrite <- (ascii_N_embedding c'); f_equal; lia).
Qed.

Lemma EqualFold_base36From (s t : string) (acc : N) :
  EqualFold s t = true -> base36From acc s = base36From acc t.
Proof.
  revert t acc. induction s as [|a s IH]; intros [|b t] acc H; simpl in H; try discriminate;
    [reflexivity|].
  apply andb_true_iff in H as [Hab Hst]. apply Ascii.eqb_eq in Hab.
  unfold base36From in *. simpl.
  rewrite <- (digitValue_foldByte a), Hab, digitValue_foldByte. apply IH, Hst.
Qed.

Lemma isAlphanumeric_digitValue (c : ascii) :
  isAlphanumeric c = match digitValue c with Some _ => true | None => false end.
Proof.
  unfold isAlphanumeric, digitValue.
  destruct (48 <=? N_of_ascii c)%N, (N_of_ascii c <=? 57)%N,
           (97 <=? N_of_ascii c)%N, (N_of_ascii c <=? 122)%N,
           (65 <=? N_of_ascii c)%N, (N_of_ascii c <=? 90)%N; reflexivity.
Qed.

Lemma EqualFold_alphanumeric (s t : string) :
  EqualFold s t = true -> alphanumeric s = alphanumeric t.
Proof.
  revert t. induction s as [|a s IH]; intros [|b t] H; simpl in H; try discriminate;
    [reflexivity|].
  apply andb_true_iff in H as [Hab Hst]. apply Ascii.eqb_eq in Hab.
  unfold alphanumeric in *. simpl. rewrite (IH _ Hst). f_equal.
  rewrite !isAlphanumeric_digitValue, <- (digitValue_foldByte a), Hab, digitValue_foldByte.
  reflexivity.
Qed.

Lemma base36From_inj (s t : string) (acc acc' : N) :
  String.length s = String.length t ->
  alphanumeric s = true -> alphanumeric t = true ->
  base36From acc s = base36From acc' t ->
  acc = acc' /\ EqualFold s t = true.
Proof.
  revert t acc acc'. induction s as [|a s IH]; intros [|b t] acc acc' Hlen Hs Ht H;
    simpl in Hlen; try discriminate.
  - unfold base36From in H. simpl in H. split; [exact H|reflexivity].
  - unfold alphanumeric in Hs, Ht. simpl in Hs, Ht.
    apply andb_true_iff in Hs as [Ha Hs]. apply andb_true_iff in Ht as [Hb Ht].
    apply digitValue_alphanumeric in Ha as [d [Hd Hlt]].
    apply digitValue_alphanumeric in Hb as [d' [Hd' Hlt']].
    unfold base36From in H. simpl in H. rewrite Hd, Hd' in H. simpl in H.
    destruct (IH t (acc * 36 + d)%N (acc' * 36 + d')%N) as [Hacc Hst];
      [lia|exact Hs|exact Ht|exact H|].
    assert (acc = acc' /\ d = d') as [-> <-] by lia.
    split; [reflexivity|]. simpl. rewrite Hst, andb_true_r.
    apply Ascii.eqb_eq. exact (foldByte_of_digitValue a b d Hd Hd').
Qed.

Lemma formatUint_inj (n m : N) : formatUint n = formatUint m -> n = m.
Proof.
  unfold formatUint. intros H.
  assert (forall k, NilZero.uint_of_string (NilZero.string_of_uint (N.to_uint k)) =
                    Some (N.to_uint k)) as Husu.
  { intros k. apply NilZero.usu. destruct k as [|p]; [discriminate|].
    simpl. intros Hnil. pose proof (DecimalPos.Unsigned.to_uint_nonnil p). contradiction. }
  pose proof (Husu n) as Hn. rewrite H, Husu in Hn. injection Hn as Hn.
  symmetry. exact (DecimalN.Unsigned.to_uint_inj _ _ Hn).
Qed.

Lemma getScaleSetVMInstanceID_run (machineName : string) :
  getScaleSetVMInstanceID machineName =
  if decide (String.length machineName < 6) then Err ErrorNotVmssInstance
  else if alphanumeric (lastSix machineName)
       then Ok (formatUint (base36 (lastSix machineName)))
       else Err ErrorNotVmssInstance.
Proof.
  unfold getScaleSetVMInstanceID. fold (lastSix machineName).
  destruct (decide (String.length machineName < 6)) as [|Hlen]; [reflexivity|].
  pose proof (length_lastSix machineName ltac:(lia)) as Hsix.
  unfold ParseUint.
  destruct (lastSix machineName) as [|c s] eqn:Hs; [discriminate|]. rewrite <- Hs in *.
  destruct (alphanumeric (lastSix machineName)) eqn:Ha.
  - rewrite (parseDigits_base36 _ _ 0%N Ha); [reflexivity|]. rewrite Hsix. vm_compute. discriminate.
  - destruct (parseDigits 36 (2 ^ 64 - 1) 0 (lastSix machineName)) as [n|] eqn:Hp; [|reflexivity].
    apply parseDigits_Some_alphanumeric in Hp. congruence.
Qed.

Lemma getScaleSetVMInstanceID_error (machineName : string) (e : error) :
  getScaleSetVMInstanceID machineName = Err e -> e = ErrorNotVmssInstance.
Proof.
  rewrite getScaleSetVMInstanceID_run.
  destruct (decide (String.length machineName < 6)); [congruence|].
  destruct (alphanumeric (lastSix machineName)); congruence.
Qed.

End InstanceID.

(** X1.  [getScaleSetVMInstanceID] succeeds exactly on the names of six bytes
    or more whose last six bytes are digits or letters of either case; the
    instance id is then the decimal numeral of the number that these six
    bytes denote in base 36, which is below [36 ^ 6], so that the range of 64
    bits is never exceeded.  On every other name it fails with
    [ErrorNotVmssInstance]. *)
Theorem instance_id_of_a_machine_name (machineName : string) :
  getScaleSetVMInstanceID machineName =
    (if (6 <=? String.length machineName)%nat && alphanumeric (lastSix machineName)
     then Ok (formatUint (base36 (lastSix machineName)))
     else Err ErrorNotVmssInstance) /\
  (base36 (lastSix machineName) < 36 ^ 6)%N.
Proof.
  split.
  - rewrite getScaleSetVMInstanceID_run.
    destruct (decide (String.length machineName < 6)) as [Hlt|Hge].
    + replace (6 <=? String.length machineName)%nat with false
        by (symmetry; apply Nat.leb_gt; exact Hlt).
      reflexivity.
    + replace (6 <=? String.length machineName)%nat with true
        by (symmetry; apply Nat.leb_le; lia).
      reflexivity.
  - pose proof (base36From_bounds (lastSix machineName) 0) as [_ Hhi]. fold base36 in Hhi.
    eapply N.lt_le_trans; [exact Hhi|]. rewrite N.mul_1_l.
    apply N.pow_le_mono_r; [discriminate|].
    assert (String.length (lastSix machineName) <= 6); [|lia].
    destruct (decide (6 <= String.length machineName)) as [Hge|Hlt].
    + rewrite length_lastSix by exact Hge. lia.
    + unfold lastSix, GoString.from.
      replace (String.length machineName - 6) with 0 by lia.
      rewrite Nat.sub_0_r, substring_all. lia.
Qed.

(** X2.  Two machine names whose last six bytes are digits or letters have
    the same instance id exactly when these six bytes are the same up to the
    case of the letters: what precedes them does not count, and machines
    with different suffixes never share an id. *)
Theorem instance_id_up_to_case (p q s t : string) :
  String.length s = 6 -> String.length t = 6 -> alphanumeric s = true ->
  getScaleSetVMInstanceID (p ++ s)%string = getScaleSetVMInstanceID (q ++ t)%string <->
  EqualFold s t = true.
Proof.
  intros Hs Ht Ha.
  rewrite !getScaleSetVMInstanceID_run, !length_append, Hs, Ht.
  rewrite (lastSix_append p s Hs), (lastSix_append q t Ht), Ha.
  destruct (decide (String.length p + 6 < 6)); [lia|].
  destruct (decide (String.length q + 6 < 6)); [lia|].
  split.
  - destruct (alphanumeric t) eqn:Hat; [|discriminate].
    intros [= H]. apply formatUint_inj in H.
    exact (proj2 (base36From_inj s t 0 0 ltac:(lia) Ha Hat H)).
  - intros H. rewrite <- (EqualFold_alphanumeric s t H), Ha.
    unfold base36. rewrite (EqualFold_base36From s t 0 H). reflexivity.
Qed.

(** The statement of X2 at two spellings of the tenth machine of two scale
    sets. *)
Lemma instance_id_up_to_case_witness :
  getScaleSetVMInstanceID ("aks-nodepool1-" ++ "00000A")%string =
  getScaleSetVMInstanceID ("vmss-b" ++ "00000a")%string <->
  EqualFold "00000A" "00000a" = true.
Proof.
  apply (instance_id_up_to_case "aks-nodepool1-" "vmss-b" "00000A" "00000a"); reflexivity.
Defined.

(** ** Power state *)

Lemma HasPrefix_append (p x : string) : HasPrefix (p ++ x)%string p = true.
Proof.
  unfold HasPrefix. apply prefix_correct.
  induction p as [|c p IH]; simpl; [now destruct x|now rewrite IH].
Qed.

Lemma TrimPrefix_append (p x : string) : TrimPrefix (p ++ x)%string p = x.
Proof.
  unfold TrimPrefix. rewrite HasPrefix_append, length_append.
  replace (String.length p + String.length x - String.length p) with (String.length x) by lia.
  rewrite substring_append. apply substring_all.
Qed.

Lemma powerStateOf_first (pre post : list InstanceViewStatus) (status : InstanceViewStatus)
    (state : string) :
  Forall (fun st => HasPrefix (to_String (Code st)) vmPowerStatePrefix = false) pre ->
  Code status = Some (vmPowerStatePrefix ++ state)%string ->
  powerStateOf (pre ++ status :: post) = Some state.
Proof.
  intros Hpre Hcode. induction Hpre as [|st pre Hst _ IH]; cbn [app powerStateOf].
  - rewrite Hcode.
    change (to_String (Some (vmPowerStatePrefix ++ state)%string))
      with (vmPowerStatePrefix ++ state)%string.
    rewrite HasPrefix_append, TrimPrefix_append. reflexivity.
  - rewrite Hst. exact IH.
Qed.

(** X3.  For a node of a scale set, [GetPowerStatusByNodeName] returns what
    follows the prefix ["PowerState/"] in the first status code of the
    instance view that starts with it: the statuses before it, those without
    a code included, and the statuses after it do not count. *)
Theorem power_status_is_the_first_power_state {Remote : Type} (ss : ScaleSet Remote)
    (name : string) (w w' : World Remote) (s1 : Sys Remote)
    (vm : VirtualMachine) (v : VirtualMachineScaleSetVM)
    (props : VirtualMachineScaleSetVMProperties)
    (view : VirtualMachineScaleSetVMInstanceView)
    (pre post : list InstanceViewStatus) (status : InstanceViewStatus) (state : string) :
  isNodeManagedByAvailabilitySet ss name CacheReadTypeUnsafe (sys w) = (Ok false, s1) ->
  getVmssVM ss name CacheReadTypeDefault
    {| sys := s1; trace := trace w ++ [EvCall "isNodeManagedByAvailabilitySet" [name]] |} =
    (Val (Ok vm), w') ->
  variant vm = VariantVirtualMachineScaleSetVM ->
  vmssVM vm ≫= (fun p => vmObjs (heap (sys w')) !! p) = Some v ->
  vmProperties v = Some props ->
  InstanceView props = Some view ->
  Statuses view = Some (pre ++ status :: post) ->
  Forall (fun st => HasPrefix (to_String (Code st)) vmPowerStatePrefix = false) pre ->
  Code status = Some ("PowerState/" ++ state)%string ->
  GetPowerStatusByNodeName ss name w = (Val (state, None), w').
Proof.
  intros Hmanaged Hvm Hvariant Hv Hprops Hview Hstatuses Hpre Hcode.
  unfold GetPowerStatusByNodeName, bind, call. rewrite Hmanaged, Hvm, Hvariant.
  unfold onHeap, get, deref, ret. simpl. rewrite Hv. simpl. rewrite Hprops. simpl.
  rewrite Hview. simpl. rewrite Hstatuses. simpl.
  rewrite (powerStateOf_first pre post status state Hpre Hcode). reflexivity.
Qed.

(** The statement of X3 at the first machine of the fleet, whose third
    status is the first one of a power state. *)
Lemma power_status_is_the_first_power_state_witness :
  let w := Example.world Scenario.runningHeap in
  let w1 := {| sys := sys w; trace := [EvCall "isNodeManagedByAvailabilitySet" ["aks-a-000000"]] |} in
  GetPowerStatusByNodeName (Example.fleet []) "aks-a-000000" w =
    (Val ("running", None),
     snd (getVmssVM (Example.fleet []) "aks-a-000000" CacheReadTypeDefault w1)).
Proof.
  cbv zeta.
  apply (power_status_is_the_first_power_state (Example.fleet []) "aks-a-000000"
           (Example.world Scenario.runningHeap) _ (sys (Example.world Scenario.runningHeap))
           {| variant := VariantVirtualMachineScaleSetVM; VMSSName := "vmss-a";
              InstanceID := "0"; Location := "eastus"; vmssVM := Some 0 |}
           (Scenario.reporting [Some "ProvisioningState/succeeded"; None;
                                Some "PowerState/running"; Some "PowerState/stopped"])
           (Scenario.reportingProperties [Some "ProvisioningState/succeeded"; None;
                                          Some "PowerState/running"; Some "PowerState/stopped"])
           {| Statuses := Some (map (fun c => {| Code := c |})
                                  [Some "ProvisioningState/succeeded"; None;
                                   Some "PowerState/running"; Some "PowerState/stopped"]) |}
           [ {| Code := Some "ProvisioningState/succeeded" |}; {| Code := None |} ]
           [ {| Code := Some "PowerState/stopped" |} ]
           {| Code := Some "PowerState/running" |} "running").
  - reflexivity.
  - vm_compute. reflexivity.
  - reflexivity.
  - reflexivity.
  - reflexivity.
  - reflexivity.
  - reflexivity.
  - repeat constructor.
  - reflexivity.
Defined.

(** X25.  [GetPowerStatusByNodeName] reads the instance view through the
    pointer to the properties of the machine record without testing it, as
    [GetProvisioningStateByNodeName] does: for a node of a scale set whose
    record has no properties the call panics, once the node is resolved. *)
Theorem power_status_of_a_machine_without_properties {Remote : Type} (ss : ScaleSet Remote)
    (name : string) (w w' : World Remote) (s1 : Sys Remote)
    (vm : VirtualMachine) (v : VirtualMachineScaleSetVM) :
  isNodeManagedByAvailabilitySet ss name CacheReadTypeUnsafe (sys w) = (Ok false, s1) ->
  getVmssVM ss name CacheReadTypeDefault
    {| sys := s1; trace := trace w ++ [EvCall "isNodeManagedByAvailabilitySet" [name]] |} =
    (Val (Ok vm), w') ->
  variant vm = VariantVirtualMachineScaleSetVM ->
  vmssVM vm ≫= (fun p => vmObjs (heap (sys w')) !! p) = Some v ->
  vmProperties v = None ->
  GetPowerStatusByNodeName ss name w = (Panic, w').
Proof.
  intros Hmanaged Hvm Hvariant Hv Hprops.
  unfold GetPowerStatusByNodeName, bind, call. rewrite Hmanaged, Hvm, Hvariant.
  unfold onHeap, get, deref, ret. simpl. rewrite Hv. simpl. rewrite Hprops. reflexivity.
Qed.

(** The statement of X25 at the first machine of the fleet, when its record
    has no properties. *)
Lemma power_status_of_a_machine_without_properties_witness :
  let w := Example.world Scenario.blankHeap in
  let w1 := {| sys := sys w; trace := [EvCall "isNodeManagedByAvailabilitySet" ["aks-a-000000"]] |} in
  GetPowerStatusByNodeName (Example.fleet []) "aks-a-000000" w =
    (Panic, snd (getVmssVM (Example.fleet []) "aks-a-000000" CacheReadTypeDefault w1)).
Proof.
  cbv zeta.
  apply (power_status_of_a_machine_without_properties (Example.fleet []) "aks-a-000000"
           (Example.world Scenario.blankHeap) _ (sys (Example.world Scenario.blankHeap))
           {| variant := VariantVirtualMachineScaleSetVM; VMSSName := "vmss-a";
              InstanceID := "0"; Location := "eastus"; vmssVM := Some 0 |}
           Scenario.blank).
  - reflexivity.
  - vm_compute. reflexivity.
  - reflexivity.
  - reflexivity.
  - reflexivity.
Defined.

(** ** A scale set without properties *)

Lemma rangeVmsses_passedOver (h : Heap) (name : string) (pre post : list (string * vmssEntry))
    (node0 : nodeIdentity) :
  Forall (passedOver h name) pre ->
  rangeVmsses h name (pre ++ post) node0 = rangeVmsses h name post node0.
Proof.
  induction 1 as [|[key v] pre [o [Ho Hpass]] _ IH]; [reflexivity|].
  cbn [app rangeVmsses]. cbn [snd] in Ho. rewrite Ho.
  destruct Hpass as [->|[prefix [Hprops [Hprefix Hfold]]]]; [exact IH|].
  unfold prefixOf in Hprefix.
  destruct (Name o) as [oname|]; [|exact IH].
  destruct (vmssProperties o) as [props|]; [|contradiction].
  cbn [mbind option_bind] in Hprefix.
  destruct ((VirtualMachineProfile props ≫= OsProfile) ≫= ComputerNamePrefix) as [cnp|];
    injection Hprefix as ->; cbn [default from_option id]; rewrite Hfold; exact IH.
Qed.

(** X26.  The scan of [getNodeIdentityByNodeName] reads the profile of a
    named scale set through the pointer to its properties, without a test
    of this pointer: when the entries of the cache before a scale set with a
    name and no properties are passed over, the call panics, right after
    the read of the cache. *)
Theorem resolution_panics_on_a_scale_set_without_properties {Remote : Type}
    (ss : ScaleSet Remote) (name : string) (crt : AzureCacheReadType) (w : World Remote)
    (pre post : list (string * vmssEntry)) (e : string * vmssEntry) (s' : Sys Remote)
    (o : VirtualMachineScaleSet) (oname : string) :
  6 <= String.length name ->
  ParseUint (GoString.from (String.length name - 6) name) 36 64 <> None ->
  vmssCache_Get ss crt (sys w) = (Ok (pre ++ e :: post), s') ->
  Forall (passedOver (heap s') name) pre ->
  vmss (snd e) ≫= (fun p => vmssObjs (heap s') !! p) = Some o ->
  Name o = Some oname ->
  vmssProperties o = None ->
  getNodeIdentityByNodeName ss name crt w =
    (Panic, {| sys := s'; trace := trace w ++ [readVmssCache crt] |}).
Proof.
  intros Hlen Hparse Hget Hpre Ho Hname Hprops.
  unfold getNodeIdentityByNodeName, getScaleSetVMInstanceID.
  destruct (decide (String.length name < 6)) as [Hlt|_]; [lia|].
  destruct (ParseUint _ 36 64) as [instanceID|]; [|contradiction].
  unfold bind at 1. unfold getNodeIdentityByNodeName_getter at 1, bind, call.
  rewrite Hget. unfold onHeap, get, liftRes. cbn [fst snd sys heap].
  rewrite (rangeVmsses_passedOver _ name pre (e :: post) _ Hpre).
  destruct e as [key v]. cbn [rangeVmsses]. cbn [snd] in Ho. rewrite Ho, Hname, Hprops.
  reflexivity.
Qed.

(** The statement of X26 at a cache that holds, after the scale set of
    another prefix, a scale set without properties. *)
Lemma resolution_panics_on_a_scale_set_without_properties_witness :
  let w := Example.world Example.fleetHeap in
  getNodeIdentityByNodeName Scenario.unfinishedFleet "aks-b-000001" CacheReadTypeDefault w =
    (Panic,
     {| sys := Example.install [Example.scaleSet "vmss-a" (Some "aks-a-"); Scenario.unfinished]
                 (sys w);
        trace := trace w ++ [readVmssCache CacheReadTypeDefault] |}).
Proof.
  cbv zeta.
  apply (resolution_panics_on_a_scale_set_without_properties Scenario.unfinishedFleet
           "aks-b-000001" CacheReadTypeDefault (Example.world Example.fleetHeap)
           [("vmss-a", {| vmss := Some 0; entryResourceGroup := "rg" |})] []
           ("vmss-x", {| vmss := Some 1; entryResourceGroup := "rg" |}) _
           Scenario.unfinished "vmss-x").
  - simpl. lia.
  - vm_compute. discriminate.
  - reflexivity.
  - repeat constructor. eexists. split; [reflexivity|]. right.
    exists "aks-a-". split; [discriminate|]. split; reflexivity.
  - reflexivity.
  - reflexivity.
  - reflexivity.
Defined.

(** ** Lookups in the caches *)

Section Lookups.

Context {Remote : Type} (ss : ScaleSet Remote).

Lemma Load_Some {A : Type} (key : string) (entries : list (string * A)) (a : A) :
  Load key entries = Some a -> (key, a) ∈ entries.
Proof.
  unfold Load. destruct (find _ entries) as [[k v]|] eqn:Hfind; [|discriminate].
  intros [= <-]. apply find_some in Hfind as [Hin Hkey].
  apply String.eqb_eq in Hkey. simpl in Hkey. subst k. now apply list_elem_of_In.
Qed.

Lemma getVMSS_getter_spec (vmssName : string) (crt : AzureCacheReadType) (w : World Remote) :
  exists r w',
    getVMSS_getter ss vmssName crt w = (Val r, w') /\
    trace w' = trace w ++ [readVmssCache crt] /\
    match r with
    | Ok (Some p) =>
        exists c s vmsses entry,
          fst (vmssCache_Get ss c s) = Ok vmsses /\
          (vmssName, entry) ∈ vmsses /\ vmss entry = Some p
    | Ok None => True
    | Err e => exists c s, fst (vmssCache_Get ss c s) = Err e
    end.
Proof.
  unfold getVMSS_getter, bind, call.
  destruct (vmssCache_Get ss crt (sys w)) as [[vmsses|e] s'] eqn:Hget.
  - destruct (Load vmssName vmsses) as [entry|] eqn:Hload.
    + eexists _, _. split; [reflexivity|]. split; [reflexivity|].
      destruct (vmss entry) as [p|] eqn:Hp; [|exact I].
      exists crt, (sys w), vmsses, entry. rewrite Hget.
      split; [reflexivity|]. split; [exact (Load_Some _ _ _ Hload)|exact Hp].
    + eexists _, _. split; [reflexivity|]. split; [reflexivity|]. exact I.
  - eexists _, _. split; [reflexivity|]. split; [reflexivity|].
    exists crt, (sys w). rewrite Hget. reflexivity.
Qed.

(** X4.  [getVMSS] looks the scale set up by its exact name.  It returns the
    pointer that the cache holds under this name after one read of the cache,
    or else after it has deleted the key of the cache and read the cache once
    more, in the mode of the caller; it fails with [InstanceNotFound] only
    after these three steps, and otherwise with the error of a read of the
    cache.  It never returns [nil] without an error. *)
Theorem scale_set_lookup_outcomes (vmssName : string) (crt : AzureCacheReadType)
    (w : World Remote) :
  exists r w',
    getVMSS ss vmssName crt w = (Val r, w') /\
    let once := trace w ++ [readVmssCache crt] in
    let again := trace w ++ [readVmssCache crt; deleteVmssCache; readVmssCache crt] in
    (trace w' = once \/ trace w' = again) /\
    match r with
    | Ok p =>
        exists c s vmsses entry,
          fst (vmssCache_Get ss c s) = Ok vmsses /\
          (vmssName, entry) ∈ vmsses /\ vmss entry = Some p
    | Err e =>
        (e = InstanceNotFound /\ trace w' = again) \/
        (exists c s, fst (vmssCache_Get ss c s) = Err e)
    end.
Proof.
  cbv zeta. unfold getVMSS, bind.
  destruct (getVMSS_getter_spec vmssName crt w) as [r [w1 [Hrun [Htrace Hr]]]].
  rewrite Hrun. destruct r as [[p|]|e].
  - eexists _, _. split; [reflexivity|]. split; [left; exact Htrace|exact Hr].
  - unfold call at 1. simpl.
    match goal with
    | |- context [getVMSS_getter ss vmssName crt ?w2] =>
        destruct (getVMSS_getter_spec vmssName crt w2) as [r' [w3 [Hrun' [Htrace' Hr']]]]
    end.
    rewrite Hrun'. simpl in Htrace'. rewrite Htrace, <- !app_assoc in Htrace'. simpl in Htrace'.
    destruct r' as [[p|]|e].
    + eexists _, _. split; [reflexivity|]. split; [right; exact Htrace'|exact Hr'].
    + eexists _, _. split; [reflexivity|]. split; [right; exact Htrace'|].
      left. split; [reflexivity|exact Htrace'].
    + eexists _, _. split; [reflexivity|]. split; [right; exact Htrace'|]. right. exact Hr'.
  - eexists _, _. split; [reflexivity|]. split; [left; exact Htrace|]. right. exact Hr.
Qed.

Lemma getVmssVMByNodeIdentity_getter_spec (cacheKey name : string) (crt : AzureCacheReadType)
    (w : World Remote) :
  exists g w',
    getVmssVMByNodeIdentity_getter ss cacheKey name crt w = (Val g, w') /\
    trace w' = trace w ++ [readVmssVMCache cacheKey crt] /\
    (g = (None, false, None) \/
     (exists e, g = (None, false, Some e) /\
                exists key c s, fst (vmssVMCache_Get ss key c s) = Err e) \/
     (exists p scaleSet h, g = (Some (FromVirtualMachineScaleSetVM ss p scaleSet h), true, None))).
Proof.
  unfold getVmssVMByNodeIdentity_getter, bind, call.
  destruct (vmssVMCache_Get ss cacheKey crt (sys w)) as [[vms|e] s'] eqn:Hget.
  - destruct (Load name vms) as [entry|].
    + destruct (virtualMachine entry) as [p|].
      * eexists _, _. split; [reflexivity|]. split; [reflexivity|].
        right. right. eexists _, _, _. reflexivity.
      * eexists _, _. split; [reflexivity|]. split; [reflexivity|]. left. reflexivity.
    + eexists _, _. split; [reflexivity|]. split; [reflexivity|]. left. reflexivity.
  - eexists _, _. split; [reflexivity|]. split; [reflexivity|].
    right. left. exists e. split; [reflexivity|].
    exists cacheKey, crt, (sys w). rewrite Hget. reflexivity.
Qed.

(** X5.  [getVmssVMByNodeIdentity] opens the cache of the machines of the
    scale set and tests the node name before it reads anything.  It then
    reads the cache in the mode of the caller, once more in that mode if the
    node was not found, and a last time with a forced refresh if it was not
    found again (an error of the second read is passed over).  It fails with
    [InstanceNotFound] only after the forced refresh, and never returns [nil]
    without an error. *)
Theorem machine_lookup_by_identity_outcomes (node : nodeIdentity) (crt : AzureCacheReadType)
    (w : World Remote) :
  exists r w',
    getVmssVMByNodeIdentity ss node crt w = (Val r, w') /\
    let opened := trace w ++ [openVmssVMCache (resourceGroup node) (vmssName node)] in
    match r with
    | Ok vm =>
        exists key p scaleSet h,
          vm = FromVirtualMachineScaleSetVM ss p scaleSet h /\
          (trace w' = opened ++ [readVmssVMCache key crt] \/
           trace w' = opened ++ [readVmssVMCache key crt; readVmssVMCache key crt] \/
           trace w' = opened ++ [readVmssVMCache key crt; readVmssVMCache key crt;
                                 readVmssVMCache key CacheReadTypeForceRefresh])
    | Err e =>
        (e = ErrorNotVmssInstance /\
         getScaleSetVMInstanceID (nodeName node) = Err ErrorNotVmssInstance /\
         trace w' = opened) \/
        (e = InstanceNotFound /\
         exists key,
           trace w' = opened ++ [readVmssVMCache key crt; readVmssVMCache key crt;
                                 readVmssVMCache key CacheReadTypeForceRefresh]) \/
        (exists rg name s, fst (getVMSSVMCache ss rg name s) = Err e) \/
        (exists key c s, fst (vmssVMCache_Get ss key c s) = Err e)
    end.
Proof.
  cbv zeta. unfold getVmssVMByNodeIdentity, bind. unfold call at 1.
  destruct (getVMSSVMCache ss (resourceGroup node) (vmssName node) (sys w))
    as [[key|e] s0] eqn:Hopen.
  2:{ eexists _, _. split; [reflexivity|]. right. right. left.
      exists (resourceGroup node), (vmssName node), (sys w). rewrite Hopen. reflexivity. }
  destruct (getScaleSetVMInstanceID (nodeName node)) as [id|e] eqn:Hname.
  2:{ eexists _, _. split; [reflexivity|].
      rewrite (getScaleSetVMInstanceID_error _ _ Hname).
      left. split; [reflexivity|]. split; reflexivity. }
  match goal with
  | |- context [getVmssVMByNodeIdentity_getter ss key (nodeName node) crt ?w1] =>
      destruct (getVmssVMByNodeIdentity_getter_spec key (nodeName node) crt w1)
        as [g [w2 [Hrun [Htrace Hg]]]]
  end.
  rewrite Hrun. simpl in Htrace.
  destruct Hg as [->|[[e [-> He]]|[p [scaleSet [h ->]]]]].
  - match goal with
    | |- context [getVmssVMByNodeIdentity_getter ss key (nodeName node) crt ?w1] =>
        destruct (getVmssVMByNodeIdentity_getter_spec key (nodeName node) crt w1)
          as [g' [w3 [Hrun' [Htrace' Hg']]]]
    end.
    rewrite Hrun'. rewrite Htrace, <- app_assoc in Htrace'. simpl in Htrace'.
    destruct (getVmssVMByNodeIdentity_getter_spec key (nodeName node)
                CacheReadTypeForceRefresh w3) as [g'' [w4 [Hrun'' [Htrace'' Hg'']]]].
    rewrite Htrace', <- app_assoc in Htrace''. simpl in Htrace''.
    destruct Hg' as [->|[[e [-> He]]|[p [scaleSet [h ->]]]]].
    1,2: (rewrite Hrun'';
          destruct Hg'' as [->|[[e' [-> He']]|[p [scaleSet [h ->]]]]];
          (eexists _, _; split; [reflexivity|]);
          [right; left; split; [reflexivity|]; exists key; exact Htrace''
          |right; right; right; exact He'
          |exists key, p, scaleSet, h; split; [reflexivity|]; right; right; exact Htrace'']).
    + eexists _, _. split; [reflexivity|]. exists key, p, scaleSet, h.
      split; [reflexivity|]. right. left. exact Htrace'.
  - eexists _, _. split; [reflexivity|]. right. right. right. exact He.
  - eexists _, _. split; [reflexivity|]. exists key, p, scaleSet, h.
    split; [reflexivity|]. left. exact Htrace.
Qed.

Lemma getVmssVMByInstanceID_getter_spec (cacheKey resourceGroup scaleSetName instanceID : string)
    (crt : AzureCacheReadType) (w : World Remote) :
  exists g w',
    getVmssVMByInstanceID_getter ss cacheKey resourceGroup scaleSetName instanceID crt w =
      (Val g, w') /\
    trace w' = trace w ++ [readVmssVMCache cacheKey crt] /\
    (g = (None, false, None) \/
     (exists e, g = (None, false, Some e) /\
                exists key c s, fst (vmssVMCache_Get ss key c s) = Err e) \/
     (exists key c s vms entry,
        fst (vmssVMCache_Get ss key c s) = Ok vms /\
        find (isInstance resourceGroup scaleSetName instanceID) vms = Some entry /\
        g = (virtualMachine (snd entry), true, None))).
Proof.
  unfold getVmssVMByInstanceID_getter, bind, call.
  destruct (vmssVMCache_Get ss cacheKey crt (sys w)) as [[vms|e] s'] eqn:Hget.
  - fold (isInstance resourceGroup scaleSetName instanceID).
    destruct (find (isInstance resourceGroup scaleSetName instanceID) vms) as [entry|] eqn:Hfind.
    + eexists _, _. split; [reflexivity|]. split; [reflexivity|].
      right. right. exists cacheKey, crt, (sys w), vms, entry. rewrite Hget.
      split; [reflexivity|]. split; [exact Hfind|reflexivity].
    + eexists _, _. split; [reflexivity|]. split; [reflexivity|]. left. reflexivity.
  - eexists _, _. split; [reflexivity|]. split; [reflexivity|].
    right. left. exists e. split; [reflexivity|].
    exists cacheKey, crt, (sys w). rewrite Hget. reflexivity.
Qed.

(** X6.  [getVmssVMByInstanceID] returns the machine of the first entry of
    the cache, in the order of its iteration, whose resource group, scale
    set and instance id are the ones asked for up to case.  When no entry is
    found it reads the cache once more with a forced refresh; when an entry
    is found that holds no machine it reads the cache once more in the
    default mode.  It fails with [InstanceNotFound] only after such a second
    or third read, and never returns [nil] without an error. *)
Theorem machine_lookup_by_instance_outcomes (resourceGroup scaleSetName instanceID : string)
    (crt : AzureCacheReadType) (w : World Remote) :
  exists r w',
    getVmssVMByInstanceID ss resourceGroup scaleSetName instanceID crt w = (Val r, w') /\
    let opened := trace w ++ [openVmssVMCache resourceGroup scaleSetName] in
    match r with
    | Ok p =>
        exists key c s vms entry,
          fst (vmssVMCache_Get ss key c s) = Ok vms /\
          find (isInstance resourceGroup scaleSetName instanceID) vms = Some entry /\
          virtualMachine (snd entry) = Some p
    | Err e =>
        (e = InstanceNotFound /\
         exists key,
           trace w' = opened ++ [readVmssVMCache key crt;
                                 readVmssVMCache key CacheReadTypeForceRefresh] \/
           trace w' = opened ++ [readVmssVMCache key crt;
                                 readVmssVMCache key CacheReadTypeDefault] \/
           trace w' = opened ++ [readVmssVMCache key crt;
                                 readVmssVMCache key CacheReadTypeForceRefresh;
                                 readVmssVMCache key CacheReadTypeDefault]) \/
        (exists rg name s, fst (getVMSSVMCache ss rg name s) = Err e) \/
        (exists key c s, fst (vmssVMCache_Get ss key c s) = Err e)
    end.
Proof.
  cbv zeta. unfold getVmssVMByInstanceID, bind. unfold call at 1.
  destruct (getVMSSVMCache ss resourceGroup scaleSetName (sys w)) as [[key|e] s0] eqn:Hopen.
  2:{ eexists _, _. split; [reflexivity|]. right. left.
      exists resourceGroup, scaleSetName, (sys w). rewrite Hopen. reflexivity. }
  match goal with
  | |- context [getVmssVMByInstanceID_getter ss key _ _ _ crt ?w1] =>
      destruct (getVmssVMByInstanceID_getter_spec key resourceGroup scaleSetName instanceID
                  crt w1) as [g [w2 [Hrun [Htrace Hg]]]]
  end.
  rewrite Hrun. simpl in Htrace.
  destruct Hg as [->|[[e [-> He]]|[k [c [s [vms [entry [Hget [Hfind ->]]]]]]]]].
  - (* no entry: a forced refresh *)
    simpl.
    destruct (getVmssVMByInstanceID_getter_spec key resourceGroup scaleSetName instanceID
                CacheReadTypeForceRefresh w2) as [g' [w3 [Hrun' [Htrace' Hg']]]].
    rewrite Hrun'. rewrite Htrace, <- app_assoc in Htrace'. simpl in Htrace'.
    destruct Hg' as [->|[[e [-> He]]|[k [c [s [vms [entry [Hget [Hfind ->]]]]]]]]].
    + eexists _, _. split; [reflexivity|]. left. split; [reflexivity|].
      exists key. left. exact Htrace'.
    + eexists _, _. split; [reflexivity|]. right. right. exact He.
    + destruct (virtualMachine (snd entry)) as [p|] eqn:Hp.
      * eexists _, _. split; [reflexivity|]. exists k, c, s, vms, entry. auto.
      * destruct (getVmssVMByInstanceID_getter_spec key resourceGroup scaleSetName instanceID
                    CacheReadTypeDefault w3) as [g'' [w4 [Hrun'' [Htrace'' Hg'']]]].
        rewrite Hrun''. rewrite Htrace', <- app_assoc in Htrace''. simpl in Htrace''.
        destruct Hg'' as [->|[[e [-> He]]|[k' [c' [s' [vms' [entry' [Hget' [Hfind' ->]]]]]]]]].
        -- eexists _, _. split; [reflexivity|]. left. split; [reflexivity|].
           exists key. right. right. exact Htrace''.
        -- eexists _, _. split; [reflexivity|]. right. right. exact He.
        -- destruct (virtualMachine (snd entry')) as [p|] eqn:Hp'.
           ++ eexists _, _. split; [reflexivity|]. exists k', c', s', vms', entry'. auto.
           ++ eexists _, _. split; [reflexivity|]. left. split; [reflexivity|].
              exists key. right. right. exact Htrace''.
  - eexists _, _. split; [reflexivity|]. right. right. exact He.
  - (* an entry *)
    simpl. destruct (virtualMachine (snd entry)) as [p|] eqn:Hp.
    + eexists _, _. split; [reflexivity|]. exists k, c, s, vms, entry. auto.
    + unfold ret at 1.
      destruct (getVmssVMByInstanceID_getter_spec key resourceGroup scaleSetName instanceID
                  CacheReadTypeDefault w2) as [g'' [w4 [Hrun'' [Htrace'' Hg'']]]].
      rewrite Hrun''. rewrite Htrace, <- app_assoc in Htrace''. simpl in Htrace''.
      destruct Hg'' as [->|[[e [-> He]]|[k' [c' [s' [vms' [entry' [Hget' [Hfind' ->]]]]]]]]].
      * eexists _, _. split; [reflexivity|]. left. split; [reflexivity|].
        exists key. right. left. exact Htrace''.
      * eexists _, _. split; [reflexivity|]. right. right. exact He.
      * destruct (virtualMachine (snd entry')) as [p|] eqn:Hp'.
        -- eexists _, _. split; [reflexivity|]. exists k', c', s', vms', entry'. auto.
        -- eexists _, _. split; [reflexivity|]. left. split; [reflexivity|].
           exists key. right. left. exact Htrace''.
Qed.

End Lookups.

(** ** Removal of a pool from a machine *)

Section Removal.

Context {Remote : Type} (ss : ScaleSet Remote).

(** On a list with one entry that is the pool, the loop leaves the list
    without this entry, in a slice that lies within its array. *)
Lemma removeBackendPoolLoop_once (backendPoolID : string) (st : Store) (existing : slice)
    (pre post : list SubResource) (id : string) :
  Slice.wf st existing ->
  Slice.elems st existing = pre ++ {| ID := Some id |} :: post ->
  EqualFold backendPoolID id = true ->
  Forall (otherPool backendPoolID) pre ->
  Forall (otherPool backendPoolID) post ->
  exists s st',
    removeBackendPoolLoop (growslice ss) backendPoolID existing (len existing)
      Slice.empty false st = (Val (s, true), st') /\
    Slice.elems st' s = pre ++ post /\ Slice.wf st' s.
Proof.
  intros Hwf Helems Hfold Hpre Hpost.
  pose proof (length_elems st existing Hwf) as Hlen.
  rewrite Helems, length_app in Hlen. simpl in Hlen.
  assert (forall (pools : list SubResource) k,
            Forall (otherPool backendPoolID) pools -> k < length pools ->
            exists p, pools !! k = Some p /\ otherPool backendPoolID p) as Hat.
  { intros pools k Hall Hk. destruct (lookup_lt_is_Some_2 pools k Hk) as [p Hp].
    exists p. split; [exact Hp|]. rewrite Forall_forall in Hall. apply Hall.
    apply list_elem_of_In, list_elem_of_lookup. eauto. }
  assert (len existing = S (length pre) + length post) as -> by lia.
  rewrite removeBackendPoolLoop_skip.
  2:{ intros k Hk. rewrite index_elems, Helems, lookup_app_r by lia.
      replace (k - length pre) with (S (k - S (length pre))) by lia. simpl.
      apply Hat; [exact Hpost|lia]. }
  simpl. unfold bind, get, deref.
  rewrite index_elems, Helems, lookup_app_r by lia. rewrite Nat.sub_diag. simpl. rewrite Hfold.
  assert (Slice.wf st (Slice.upto existing (length pre))) as Hwf0.
  { destruct Hwf as [Hcap Harray]. split; [simpl; lia|exact Harray]. }
  assert (Slice.elems st (Slice.from existing (length pre + 1)) = post) as Hfrom.
  { rewrite elems_from by lia. rewrite Helems.
    change (pre ++ {| ID := Some id |} :: post) with (pre ++ [ {| ID := Some id |} ] ++ post).
    rewrite app_assoc. apply drop_app_length'. rewrite length_app. reflexivity. }
  rewrite Hfrom.
  pose proof (append_elems (growslice ss) st (Slice.upto existing (length pre)) post Hwf0)
    as [Hwf' [Happ _]].
  rewrite elems_upto in Happ by lia.
  rewrite Helems, take_app_length in Happ.
  pose proof (fun k => append_upto_prefix (growslice ss) st existing (length pre) post k)
    as Hprefix.
  destruct (Slice.append (growslice ss) st (Slice.upto existing (length pre)) post)
    as [st' s'] eqn:Ha.
  simpl in Happ, Hprefix, Hwf'. unfold put. simpl.
  exists s', st'. split; [|split; [exact Happ|exact Hwf']].
  apply removeBackendPoolLoop_no_match.
  intros k Hk. rewrite Hprefix; [| |exact Hk|lia].
  - rewrite index_elems, Helems, lookup_app_l by lia. apply Hat; assumption.
  - destruct Hwf as [Hcap _]. lia.
Qed.

Lemma ipConfigIn_newVM (vm : VirtualMachine) (props : VirtualMachineScaleSetVMProperties)
    (nics : list VirtualMachineScaleSetNetworkConfiguration) (i j : nat) (pools : option slice)
    (nic : VirtualMachineScaleSetNetworkConfiguration)
    (ipcs : list VirtualMachineScaleSetIPConfiguration)
    (ipc : VirtualMachineScaleSetIPConfiguration) :
  nics !! i = Some nic -> IPConfigurations nic = Some ipcs -> ipcs !! j = Some ipc ->
  ipConfigIn (newVM vm props (setPoolsInNICs i j pools nics)) i j = Some (setPools pools ipc).
Proof.
  intros Hnic Hipcs Hipc. unfold ipConfigIn, newVM, setPoolsInNICs.
  cbn [vmProperties NetworkProfileConfiguration NetworkInterfaceConfigurations mbind
       option_bind].
  rewrite list_lookup_alter_eq, Hnic.
  cbn [fmap option_fmap option_map mbind option_bind setPoolsInNIC IPConfigurations].
  rewrite Hipcs.
  cbn [fmap option_fmap option_map mbind option_bind].
  rewrite list_lookup_alter_eq, Hipc. reflexivity.
Qed.

Lemma isPool_inv (backendPoolID : string) (p : SubResource) :
  isPool backendPoolID p = true ->
  exists id, p = {| ID := Some id |} /\ EqualFold backendPoolID id = true.
Proof.
  destruct p as [[id|]]; unfold isPool; simpl; [|discriminate].
  intros H. exists id. split; [reflexivity|exact H].
Qed.

(** [append] leaves every slice within its array. *)
Lemma append_wf_preserved (grow : nat -> nat -> nat) (st : Store) (s0 s : slice)
    (xs : list SubResource) :
  Slice.wf st s -> Slice.wf (Slice.append grow st s0 xs).1 s.
Proof.
  intros [Hcap Harray]. split; [exact Hcap|].
  destruct Harray as [Hzero|[a [Ha Hbound]]]; [left; exact Hzero|]. right.
  unfold Slice.append.
  destruct (decide (len s0 + length xs <= cap s0)); cbn [fst].
  - destruct (decide (ptr s = ptr s0)) as [Heq|Hne].
    + rewrite <- Heq. exists (list_inserts (off s0 + len s0) xs a).
      split; [rewrite list_lookup_alter_eq, Ha; reflexivity|].
      rewrite length_inserts. exact Hbound.
    + exists a. split; [|exact Hbound].
      rewrite list_lookup_alter_ne by congruence. exact Ha.
  - exists a. split; [|exact Hbound]. apply lookup_app_l_Some. exact Ha.
Qed.

(** The loop from the index [k] down, on a list whose entries have ids:
    [entries] is the list as it was before the loop, of which the part
    below [k] is still in place. *)
Lemma removeBackendPoolLoop_from (backendPoolID : string) (existing : slice)
    (entries : list SubResource) (k : nat) :
  length entries = len existing ->
  Forall hasID entries ->
  k <= len existing ->
  forall (st : Store) (newBackendPools : slice) (foundPool : bool),
    Slice.wf st existing ->
    (forall i, i < k -> Slice.index st existing i = entries !! i) ->
    exists s st',
      removeBackendPoolLoop (growslice ss) backendPoolID existing k newBackendPools foundPool st =
        (Val (s, foundPool || existsb (isPool backendPoolID) (take k entries)), st') /\
      (existsb (isPool backendPoolID) (take k entries) = true ->
       len s = len existing - 1 /\ Slice.wf st' s) /\
      (existsb (isPool backendPoolID) (take k entries) = false ->
       s = newBackendPools /\ st' = st).
Proof.
  intros Hlength Hids. induction k as [|k IH]; intros Hk st nb found Hwf Hprefix.
  - exists nb, st. cbn [take existsb removeBackendPoolLoop]. rewrite orb_false_r.
    split; [reflexivity|]. split; [discriminate|]. intros _. split; reflexivity.
  - destruct (lookup_lt_is_Some_2 entries k ltac:(lia)) as [p Hp].
    assert (hasID p) as [id Hid].
    { rewrite Forall_forall in Hids. apply Hids.
      apply list_elem_of_In, list_elem_of_lookup. eauto. }
    rewrite (take_S_r entries k p Hp), existsb_app. cbn [existsb]. rewrite orb_false_r.
    cbn [removeBackendPoolLoop]. unfold bind at 1, get at 1.
    rewrite (Hprefix k ltac:(lia)), Hp. cbn [deref]. unfold bind at 1, ret at 1.
    rewrite Hid. cbn [deref]. unfold bind at 1, ret at 1.
    assert (isPool backendPoolID p = EqualFold backendPoolID id) as ->
      by (unfold isPool; rewrite Hid; reflexivity).
    destruct (EqualFold backendPoolID id) eqn:Hfold.
    + (* the entry at [k] is the pool *)
      assert (Slice.wf st (Slice.upto existing k)) as Hwf0.
      { destruct Hwf as [Hcap Harray]. split; [simpl; lia|exact Harray]. }
      assert (length (Slice.elems st (Slice.from existing (k + 1))) = len existing - (k + 1))
        as Hxs.
      { rewrite elems_from by lia. rewrite length_drop, (length_elems st existing Hwf).
        reflexivity. }
      pose proof (append_elems (growslice ss) st (Slice.upto existing k)
                    (Slice.elems st (Slice.from existing (k + 1))) Hwf0) as [Hwf1 [_ Hlen1]].
      pose proof (append_wf_preserved (growslice ss) st (Slice.upto existing k) existing
                    (Slice.elems st (Slice.from existing (k + 1))) Hwf) as Hwf'.
      pose proof (fun i => append_upto_prefix (growslice ss) st existing k
                             (Slice.elems st (Slice.from existing (k + 1))) i) as Hsame.
      destruct (Slice.append (growslice ss) st (Slice.upto existing k)
                  (Slice.elems st (Slice.from existing (k + 1)))) as [st1 appended].
      cbn [fst snd] in Hwf1, Hlen1, Hwf', Hsame.
      unfold bind at 1, put at 1.
      destruct (IH ltac:(lia) st1 appended true Hwf') as [s [st' [Hrun [Hfound Hnone]]]].
      { intros i Hi. rewrite Hsame; [apply Hprefix; lia| |exact Hi|lia].
        rewrite Hxs. destruct Hwf as [Hcap _]. lia. }
      exists s, st'. cbn [orb] in Hrun. rewrite !orb_true_r. split; [exact Hrun|].
      split; [|destruct (existsb (isPool backendPoolID) (take k entries)); discriminate].
      intros _.
      destruct (existsb (isPool backendPoolID) (take k entries)) eqn:Hbelow.
      * exact (Hfound eq_refl).
      * destruct (Hnone eq_refl) as [-> ->]. split; [|exact Hwf1].
        rewrite Hlen1, Hxs. cbn [Slice.upto len]. lia.
    + (* the entry at [k] is another pool *)
      destruct (IH ltac:(lia) st nb found Hwf) as [s [st' [Hrun [Hfound Hnone]]]].
      { intros i Hi. apply Hprefix. lia. }
      exists s, st'. rewrite orb_false_r. split; [exact Hrun|]. split; assumption.
Qed.

Lemma withoutPool_once (backendPoolID : string) (entries : list SubResource) :
  Forall hasID entries ->
  length (List.filter (isPool backendPoolID) entries) = 1 ->
  exists pre id post,
    entries = pre ++ {| ID := Some id |} :: post /\
    EqualFold backendPoolID id = true /\
    Forall (otherPool backendPoolID) pre /\ Forall (otherPool backendPoolID) post /\
    withoutPool backendPoolID entries = pre ++ post.
Proof.
  assert (forall l : list SubResource,
            Forall hasID l -> List.filter (isPool backendPoolID) l = [] ->
            Forall (otherPool backendPoolID) l /\ withoutPool backendPoolID l = l) as Hnone.
  { induction l as [|q l IHl]; intros Hids Hfilter; [split; [constructor|reflexivity]|].
    apply Forall_cons_1 in Hids as [[id Hid] Hids]. cbn [List.filter] in Hfilter.
    unfold withoutPool. cbn [List.filter].
    destruct (isPool backendPoolID q) eqn:Hq; [discriminate|]. cbn [negb].
    destruct (IHl Hids Hfilter) as [Hother Hsame]. split.
    - constructor; [|exact Hother]. exists id. split; [exact Hid|].
      unfold isPool in Hq. rewrite Hid in Hq. exact Hq.
    - f_equal. exact Hsame. }
  induction entries as [|q entries IH]; intros Hids Hone; [discriminate|].
  pose proof Hids as Hall. apply Forall_cons_1 in Hids as [[id Hid] Hids].
  cbn [List.filter] in Hone. unfold withoutPool. cbn [List.filter].
  destruct (isPool backendPoolID q) eqn:Hq; cbn [negb].
  - cbn [length] in Hone.
    destruct (Hnone entries Hids) as [Hother Hsame].
    { destruct (List.filter (isPool backendPoolID) entries); [reflexivity|discriminate]. }
    exists [], id, entries. destruct q as [qid]. cbn in Hid. subst qid.
    split; [reflexivity|]. split; [exact Hq|]. split; [constructor|]. split; [exact Hother|].
    exact Hsame.
  - destruct (IH Hids Hone) as [pre [id' [post [-> [Hfold [Hpre [Hpost Hsame]]]]]]].
    exists (q :: pre), id', post. split; [reflexivity|]. split; [exact Hfold|].
    split; [|split; [exact Hpost|]].
    + constructor; [|exact Hpre]. exists id. split; [exact Hid|].
      unfold isPool in Hq. rewrite Hid in Hq. exact Hq.
    + cbn [app]. f_equal. exact Hsame.
Qed.

(** X22.  On a membership list whose entries have ids, the loop that
    removes a pool finds the pool exactly when an entry of the list is the
    pool up to case.  It then returns a list with one entry fewer than the
    list, however many of the entries are the pool: what it returns is the
    list without the entries that are the pool exactly when there is one
    such entry.  When it does not find the pool it writes nothing. *)
Theorem removal_loop_outcome (backendPoolID : string) (st : Store) (existing : slice) :
  Slice.wf st existing ->
  Forall hasID (Slice.elems st existing) ->
  let entries := Slice.elems st existing in
  exists (s : slice) (found : bool) (st' : Store),
    removeBackendPoolLoop (growslice ss) backendPoolID existing (len existing)
      Slice.empty false st = (Val (s, found), st') /\
    found = existsb (isPool backendPoolID) entries /\
    (found = false -> s = Slice.empty /\ st' = st) /\
    (found = true ->
     length (Slice.elems st' s) = length entries - 1 /\
     (Slice.elems st' s = withoutPool backendPoolID entries <->
      length (List.filter (isPool backendPoolID) entries) = 1)).
Proof.
  intros Hwf Hids. cbv zeta.
  pose proof (length_elems st existing Hwf) as Hlength.
  destruct (removeBackendPoolLoop_from backendPoolID existing (Slice.elems st existing)
              (len existing) Hlength Hids (Nat.le_refl _) st Slice.empty false Hwf)
    as [s [st' [Hrun [Hfound Hnone]]]].
  { intros i _. apply index_elems. }
  rewrite firstn_all2 in Hrun, Hfound, Hnone by lia. cbn [orb] in Hrun.
  exists s, (existsb (isPool backendPoolID) (Slice.elems st existing)), st'.
  split; [exact Hrun|]. split; [reflexivity|]. split; [exact Hnone|].
  intros Hsome. destruct (Hfound Hsome) as [Hlen Hwf'].
  pose proof (length_elems st' s Hwf') as Hlength'.
  split; [lia|]. split.
  - intros Hsame.
    pose proof (filter_length (isPool backendPoolID) (Slice.elems st existing)) as Hcount.
    fold (withoutPool backendPoolID (Slice.elems st existing)) in Hcount.
    rewrite <- Hsame, Hlength', Hlen, Hlength in Hcount.
    apply existsb_exists in Hsome as [q [Hin Hq]].
    assert (In q (List.filter (isPool backendPoolID) (Slice.elems st existing))) as Hq'
      by (apply filter_In; split; assumption).
    destruct (List.filter (isPool backendPoolID) (Slice.elems st existing)); [contradiction|].
    cbn [length] in Hcount |- *. lia.
  - intros Hone.
    destruct (withoutPool_once backendPoolID _ Hids Hone)
      as [pre [id [post [Hentries [Hfold [Hpre [Hpost Hwithout]]]]]]].
    destruct (removeBackendPoolLoop_once backendPoolID st existing pre post id
                Hwf Hentries Hfold Hpre Hpost) as [s2 [st2 [Hrun2 [Hs2 _]]]].
    rewrite Hrun in Hrun2. injection Hrun2 as <- _ <-.
    rewrite Hs2, Hwithout. reflexivity.
Qed.

(** The deletion of a pool that the primary membership list holds once. *)
Lemma ensureBackendPoolDeletedFromNode_vm_once (vm : VirtualMachine)
    (name backendPoolID : string) (h : Heap) (l i j : nat)
    (ipc : VirtualMachineScaleSetIPConfiguration) (pre post : list SubResource)
    (p : SubResource) :
  primaryTarget h vm name = Some (l, i, j, ipc) ->
  wfHeap h ->
  membership h ipc = pre ++ p :: post ->
  isPool backendPoolID p = true ->
  Forall (otherPool backendPoolID) pre ->
  Forall (otherPool backendPoolID) post ->
  exists s st' props nics,
    let h1 := setVMPools l i j (Some s)
                {| arrays := st'; vmObjs := vmObjs h; vmssObjs := vmssObjs h |} in
    nicsOf h vm = Some (l, props, nics) /\
    Slice.elems st' s = pre ++ post /\ Slice.wf st' s /\
    primaryTarget h1 vm name = Some (l, i, j, setPools (Some s) ipc) /\
    ipConfigIn (newVM vm props (setPoolsInNICs i j (Some s) nics)) i j =
      Some (setPools (Some s) ipc) /\
    ensureBackendPoolDeletedFromNode_vm ss vm name backendPoolID h =
      (Val match GetNodeResourceGroup ss name with
           | Err err => stagedError err
           | Ok nodeResourceGroup =>
               (nodeResourceGroup, VMSSName vm, InstanceID vm,
                Some (newVM vm props (setPoolsInNICs i j (Some s) nics)), None)
           end, h1).
Proof.
  intros Hprimary Hwf Hlist Hpool Hpre Hpost.
  destruct (primaryTarget_inv _ _ _ _ _ _ _ Hprimary)
    as [props [nics [nic [ipcs [Hnics [Hi [Hnic [Hj [Hipcs Hipc]]]]]]]]].
  pose proof (nicsOf_ipConfigAt h vm l i j props nics nic ipcs ipc Hnics Hnic Hipcs Hipc)
    as Hat.
  destruct (isPool_inv _ _ Hpool) as [id [-> Hfold]].
  pose proof (wfHeap_target h l i j ipc Hwf Hat) as Hwfs.
  unfold membership in Hlist.
  destruct (LoadBalancerBackendAddressPools ipc) as [existing|] eqn:Hexisting.
  2:{ simpl in Hlist. unfold Slice.elems, Slice.empty in Hlist. simpl in Hlist.
      destruct (arrays h !! 0); simpl in Hlist; destruct pre; discriminate. }
  simpl in Hlist, Hwfs.
  destruct (removeBackendPoolLoop_once backendPoolID (arrays h) existing pre post id
              Hwfs Hlist Hfold Hpre Hpost) as [s [st' [Hloop [Hs Hwf']]]].
  exists s, st', props, nics. cbv zeta.
  split; [exact Hnics|]. split; [exact Hs|]. split; [exact Hwf'|].
  destruct (path_after_assignment h st' vm l i j (Some s) props nics nic ipcs ipc
              Hnics Hnic Hipcs Hipc) as [props' [Hnics' [Hnic' [Hipcs' Hipc']]]].
  split; [|split].
  - unfold primaryTarget. rewrite Hnics'. cbn [mbind option_bind fst snd].
    rewrite getPrimaryNetworkInterfaceConfiguration_setPools, Hi.
    cbn [okIndex mbind option_bind]. rewrite Hnic'. cbn [mbind option_bind].
    rewrite getPrimaryIPConfigFromVMSSNetworkConfig_setPools, Hj.
    cbn [valIndex mbind option_bind]. rewrite Hipcs'. cbn [mbind option_bind].
    rewrite Hipc'. reflexivity.
  - exact (ipConfigIn_newVM vm props nics i j (Some s) nic ipcs ipc Hnic Hipcs Hipc).
  - rewrite (ensureBackendPoolDeletedFromNode_vm_run ss vm name backendPoolID h l i j
               props nics nic ipcs ipc Hnics Hi Hnic Hj Hipcs Hipc).
    rewrite Hexisting.
    destruct (decide (len existing = 0)) as [Hzero|_].
    { pose proof (length_elems _ _ Hwfs) as Hlen. rewrite Hlist, length_app in Hlen.
      simpl in Hlen. lia. }
    rewrite Hloop. reflexivity.
Qed.

(** X7.  When the membership list of the primary IP configuration of a
    machine holds the pool once (up to case), among entries that have ids,
    [ensureBackendPoolDeletedFromNode] leaves the other entries in their
    order: in the machine it worked on, and in the update it stages.  When
    the resource group of the node cannot be told the error is returned and
    no update is staged, but the machine has lost the pool all the same. *)
Theorem delete_removes_a_single_occurrence (vm : VirtualMachine)
    (name backendPoolID : string) (h : Heap) (l i j : nat)
    (ipc : VirtualMachineScaleSetIPConfiguration) (pre post : list SubResource)
    (p : SubResource) :
  primaryTarget h vm name = Some (l, i, j, ipc) ->
  wfHeap h ->
  membership h ipc = pre ++ p :: post ->
  isPool backendPoolID p = true ->
  Forall (otherPool backendPoolID) pre ->
  Forall (otherPool backendPoolID) post ->
  exists staged h1,
    ensureBackendPoolDeletedFromNode_vm ss vm name backendPoolID h = (Val staged, h1) /\
    membershipAt h1 l i j = Some (pre ++ post) /\
    match GetNodeResourceGroup ss name with
    | Ok nodeResourceGroup =>
        exists update,
          staged = (nodeResourceGroup, VMSSName vm, InstanceID vm, Some update, None) /\
          stagedMembership h1 staged i j = Some (pre ++ post)
    | Err err => staged = stagedError err
    end.
Proof.
  intros Hprimary Hwf Hlist Hpool Hpre Hpost.
  destruct (ensureBackendPoolDeletedFromNode_vm_once vm name backendPoolID h l i j ipc
              pre post p Hprimary Hwf Hlist Hpool Hpre Hpost)
    as [s [st' [props [nics [Hnics [Hs [Hwf' [Hprimary' [Hin Hrun]]]]]]]]].
  cbv zeta in Hprimary', Hrun.
  eexists _, _. split; [exact Hrun|].
  destruct (primaryTarget_inv _ _ _ _ _ _ _ Hprimary')
    as [props1 [nics1 [nic1 [ipcs1 [Hnics1 [_ [Hnic1 [_ [Hipcs1 Hipc1]]]]]]]]].
  pose proof (nicsOf_ipConfigAt _ vm l i j props1 nics1 nic1 ipcs1 _ Hnics1 Hnic1 Hipcs1 Hipc1)
    as Hat1.
  split.
  - unfold membershipAt. rewrite Hat1. simpl. unfold membership. simpl. rewrite Hs. reflexivity.
  - destruct (GetNodeResourceGroup ss name) as [rg|err]; [|reflexivity].
    eexists. split; [reflexivity|].
    unfold stagedMembership. rewrite Hin. simpl. unfold membership. simpl. rewrite Hs.
    reflexivity.
Qed.

(** X8.  When no entry of the membership list of the primary IP
    configuration is the pool, [ensureBackendPoolDeletedFromNode] stages
    nothing, returns no error and leaves the heap as it was.  So does a
    second deletion after one that removed the only occurrence of the pool:
    the deletion is idempotent. *)
Theorem delete_is_idempotent (vm : VirtualMachine) (name backendPoolID : string) (h : Heap)
    (l i j : nat) (ipc : VirtualMachineScaleSetIPConfiguration) :
  primaryTarget h vm name = Some (l, i, j, ipc) ->
  wfHeap h ->
  (Forall (otherPool backendPoolID) (membership h ipc) ->
   ensureBackendPoolDeletedFromNode_vm ss vm name backendPoolID h = (Val stagedNothing, h)) /\
  (forall pre p post,
     membership h ipc = pre ++ p :: post ->
     isPool backendPoolID p = true ->
     Forall (otherPool backendPoolID) pre ->
     Forall (otherPool backendPoolID) post ->
     exists staged h1,
       ensureBackendPoolDeletedFromNode_vm ss vm name backendPoolID h = (Val staged, h1) /\
       ensureBackendPoolDeletedFromNode_vm ss vm name backendPoolID h1 =
         (Val stagedNothing, h1)).
Proof.
  intros Hprimary Hwf.
  assert (forall g c,
            primaryTarget g vm name = Some (l, i, j, c) ->
            Slice.wf (arrays g) (default Slice.empty (LoadBalancerBackendAddressPools c)) ->
            Forall (otherPool backendPoolID) (membership g c) ->
            ensureBackendPoolDeletedFromNode_vm ss vm name backendPoolID g =
              (Val stagedNothing, g)) as Habsent.
  { intros g c Htarget Hwfs Hother.
    destruct (primaryTarget_inv _ _ _ _ _ _ _ Htarget)
      as [props [nics [nic [ipcs [Hnics [Hi [Hnic [Hj [Hipcs Hipc]]]]]]]]].
    rewrite (ensureBackendPoolDeletedFromNode_vm_run ss vm name backendPoolID g l i j
               props nics nic ipcs c Hnics Hi Hnic Hj Hipcs Hipc).
    unfold membership in Hother.
    destruct (LoadBalancerBackendAddressPools c) as [existing|]; [|reflexivity].
    destruct (decide (len existing = 0)); [reflexivity|].
    simpl in Hwfs, Hother.
    rewrite (removeBackendPoolLoop_absent ss backendPoolID (arrays g) existing Hwfs Hother).
    reflexivity. }
  split.
  - intros Hother.
    destruct (primaryTarget_inv _ _ _ _ _ _ _ Hprimary)
      as [props [nics [nic [ipcs [Hnics [_ [Hnic [_ [Hipcs Hipc]]]]]]]]].
    apply (Habsent h ipc Hprimary); [|exact Hother].
    apply (wfHeap_target h l i j ipc Hwf).
    exact (nicsOf_ipConfigAt h vm l i j props nics nic ipcs ipc Hnics Hnic Hipcs Hipc).
  - intros pre p post Hlist Hpool Hpre Hpost.
    destruct (ensureBackendPoolDeletedFromNode_vm_once vm name backendPoolID h l i j ipc
                pre post p Hprimary Hwf Hlist Hpool Hpre Hpost)
      as [s [st' [props [nics [Hnics [Hs [Hwf' [Hprimary' [Hin Hrun]]]]]]]]].
    cbv zeta in Hprimary', Hrun.
    eexists _, _. split; [exact Hrun|].
    apply (Habsent _ _ Hprimary'); [exact Hwf'|].
    unfold membership. simpl. rewrite Hs. apply Forall_app. split; assumption.
Qed.

End Removal.

(** The statement of X22 at a list that holds the pool twice, once in
    capitals. *)
Lemma removal_loop_outcome_witness :
  let st := arrays (Example.heapOf ["lb-a"; "LB-POOL"; "lb-b"; "lb-pool"] 0) in
  let existing := Example.sliceOf ["lb-a"; "LB-POOL"; "lb-b"; "lb-pool"] 0 in
  let entries := Slice.elems st existing in
  exists (s : slice) (found : bool) (st' : Store),
    removeBackendPoolLoop (growslice (Example.bare true)) "lb-pool" existing (len existing)
      Slice.empty false st = (Val (s, found), st') /\
    found = existsb (isPool "lb-pool") entries /\
    (found = false -> s = Slice.empty /\ st' = st) /\
    (found = true ->
     length (Slice.elems st' s) = length entries - 1 /\
     (Slice.elems st' s = withoutPool "lb-pool" entries <->
      length (List.filter (isPool "lb-pool") entries) = 1)).
Proof.
  cbv zeta.
  apply (removal_loop_outcome (Example.bare true) "lb-pool"
           (arrays (Example.heapOf ["lb-a"; "LB-POOL"; "lb-b"; "lb-pool"] 0))
           (Example.sliceOf ["lb-a"; "LB-POOL"; "lb-b"; "lb-pool"] 0)).
  - split; [simpl; lia|]. right. eexists. split; [reflexivity|]. simpl. lia.
  - repeat constructor; eexists; reflexivity.
Defined.

(** The statement of X7 at a machine whose list holds the pool in capitals
    between two other pools. *)
Lemma delete_removes_a_single_occurrence_witness :
  let ss := Example.bare true in
  let h := Example.heapOf ["lb-a"; "LB-POOL"; "lb-b"] 0 in
  exists staged h1,
    ensureBackendPoolDeletedFromNode_vm ss Example.resolved "aks-a-000000" "lb-pool" h =
      (Val staged, h1) /\
    membershipAt h1 0 0 0 = Some ([Example.pool "lb-a"] ++ [Example.pool "lb-b"]) /\
    match GetNodeResourceGroup ss "aks-a-000000" with
    | Ok nodeResourceGroup =>
        exists update,
          staged = (nodeResourceGroup, VMSSName Example.resolved, InstanceID Example.resolved,
                    Some update, None) /\
          stagedMembership h1 staged 0 0 = Some ([Example.pool "lb-a"] ++ [Example.pool "lb-b"])
    | Err err => staged = stagedError err
    end.
Proof.
  cbv zeta.
  apply (delete_removes_a_single_occurrence (Example.bare true) Example.resolved
           "aks-a-000000" "lb-pool" (Example.heapOf ["lb-a"; "LB-POOL"; "lb-b"] 0) 0 0 0
           (Example.ipConfiguration (Some (Example.sliceOf ["lb-a"; "LB-POOL"; "lb-b"] 0)))
           [Example.pool "lb-a"] [Example.pool "lb-b"] (Example.pool "LB-POOL")).
  - reflexivity.
  - apply heapOf_wf.
  - reflexivity.
  - reflexivity.
  - repeat constructor; eexists; split; reflexivity.
  - repeat constructor; eexists; split; reflexivity.
Defined.

(** The statement of X8 at a machine that is not in the pool, and at one
    that is. *)
Lemma delete_is_idempotent_witness :
  let ss := Example.bare true in
  let delete := ensureBackendPoolDeletedFromNode_vm ss Example.resolved "aks-a-000000" "lb-pool" in
  delete (Example.heapOf ["lb-a"] 0) = (Val stagedNothing, Example.heapOf ["lb-a"] 0) /\
  exists staged h1,
    delete (Example.heapOf ["lb-a"; "LB-POOL"; "lb-b"] 0) = (Val staged, h1) /\
    delete h1 = (Val stagedNothing, h1).
Proof.
  cbv zeta. split.
  - apply (proj1 (delete_is_idempotent (Example.bare true) Example.resolved
                    "aks-a-000000" "lb-pool" (Example.heapOf ["lb-a"] 0) 0 0 0
                    (Example.ipConfiguration (Some (Example.sliceOf ["lb-a"] 0)))
                    eq_refl (heapOf_wf _ _))).
    repeat constructor; eexists; split; reflexivity.
  - apply (proj2 (delete_is_idempotent (Example.bare true) Example.resolved
                    "aks-a-000000" "lb-pool" (Example.heapOf ["lb-a"; "LB-POOL"; "lb-b"] 0) 0 0 0
                    (Example.ipConfiguration
                       (Some (Example.sliceOf ["lb-a"; "LB-POOL"; "lb-b"] 0)))
                    eq_refl (heapOf_wf _ _))
                 [Example.pool "lb-a"] (Example.pool "LB-POOL") [Example.pool "lb-b"]).
    + reflexivity.
    + reflexivity.
    + repeat constructor; eexists; split; reflexivity.
    + repeat constructor; eexists; split; reflexivity.
Defined.

(** ** Addition of a pool to a machine *)

Section Addition.

Context {Remote : Type} (ss : ScaleSet Remote).

(** X9.  [EnsureHostInPool] appends the pool to the membership list of the
    machine before it asks for the resource group of the node.  When this
    last step fails, the error is returned and no update is staged, but the
    machine lists the pool already: a second call finds it there, stages
    nothing and returns no error. *)
Theorem ensure_failure_leaves_the_pool_listed (service : Service) (vm : VirtualMachine)
    (name backendPoolID vmSetNameOfLB : string) (h : Heap) (l i j : nat)
    (ipc : VirtualMachineScaleSetIPConfiguration) (err : error) :
  ensureTarget ss service h vm name = Some (l, i, j, ipc) ->
  wfHeap h ->
  Forall (otherPool backendPoolID) (membership h ipc) ->
  skipsScaleSet ss vm vmSetNameOfLB = false ->
  conflictWithLB ss backendPoolID (default Slice.empty (LoadBalancerBackendAddressPools ipc))
                 (membership h ipc) = None ->
  GetNodeResourceGroup ss (mapNodeNameToVMName ss name) = Err err ->
  exists h1,
    EnsureHostInPool_vm ss service vm name backendPoolID vmSetNameOfLB h =
      (Val (stagedError err), h1) /\
    membershipAt h1 l i j = Some (membership h ipc ++ [ {| ID := Some backendPoolID |} ]) /\
    EnsureHostInPool_vm ss service vm name backendPoolID vmSetNameOfLB h1 =
      (Val stagedNothing, h1).
Proof.
  intros Htarget Hwf Hother Hskip Hconflict Hrg.
  destruct (ensureTarget_inv ss _ _ _ _ _ _ _ _ Htarget)
    as [props [nics [nic [ipcs [Hnics [Hi [Hnic [Hj [Hipcs Hipc]]]]]]]]].
  pose proof (nicsOf_ipConfigAt h vm l i j props nics nic ipcs ipc Hnics Hnic Hipcs Hipc)
    as Hat.
  rewrite (EnsureHostInPool_vm_run ss service vm name backendPoolID vmSetNameOfLB h
             l i j props nics nic ipcs ipc false Hnics Hi Hnic Hj Hipcs Hipc
             (containsPool_other backendPoolID _ Hother)).
  rewrite Hskip. cbv zeta. rewrite Hconflict, Hrg.
  destruct (membership_appended ss h l i j ipc [ {| ID := Some backendPoolID |} ] Hwf Hat)
    as [Hwf' [Helems Hlen]].
  cbv zeta in Hwf', Helems, Hlen.
  set (a := Slice.append (growslice ss) (arrays h)
              (default Slice.empty (LoadBalancerBackendAddressPools ipc))
              [ {| ID := Some backendPoolID |} ]) in *.
  set (h1 := setVMPools l i j (Some a.2)
               {| arrays := a.1; vmObjs := vmObjs h; vmssObjs := vmssObjs h |}).
  destruct (path_after_assignment h a.1 vm l i j (Some a.2) props nics nic ipcs ipc
              Hnics Hnic Hipcs Hipc) as [props' [Hnics' [Hnic' [Hipcs' Hipc']]]].
  fold h1 in Hnics'.
  exists h1. split; [reflexivity|]. split.
  - unfold membershipAt.
    rewrite (nicsOf_ipConfigAt h1 vm l i j props' _ _ _ _ Hnics' Hnic' Hipcs' Hipc').
    simpl. unfold membership. simpl. f_equal. exact Helems.
  - pose proof (getPrimaryNetworkInterfaceConfiguration_setPools i j (Some a.2) nics
                  (mapNodeNameToVMName ss name)) as Hi'. rewrite Hi in Hi'.
    pose proof (selectIPConfiguration_setPools j (Some a.2) ss service nic
                  (mapNodeNameToVMName ss name)) as Hj'. rewrite Hj in Hj'.
    rewrite (EnsureHostInPool_vm_run ss service vm name backendPoolID vmSetNameOfLB h1
               l i j props' _ _ _ _ true Hnics' Hi' Hnic' Hj' Hipcs' Hipc').
    + rewrite Hskip. reflexivity.
    + unfold membership. simpl. change (arrays h1) with a.1. rewrite Helems.
      apply containsPool_appended. exact Hother.
Qed.

(** The list of another IP configuration of the interface, after the pool
    was appended to the list of the IP configuration [j]. *)
Lemma membership_of_the_others (h : Heap) (vm : VirtualMachine) (l i j j' : nat)
    (props : VirtualMachineScaleSetVMProperties)
    (nics : list VirtualMachineScaleSetNetworkConfiguration)
    (nic : VirtualMachineScaleSetNetworkConfiguration)
    (ipcs : list VirtualMachineScaleSetIPConfiguration)
    (ipc c : VirtualMachineScaleSetIPConfiguration) (xs : list SubResource) :
  nicsOf h vm = Some (l, props, nics) ->
  nics !! i = Some nic -> IPConfigurations nic = Some ipcs ->
  ipcs !! j = Some ipc -> ipcs !! j' = Some c -> j' <> j ->
  wfHeap h -> separated h ->
  let a := Slice.append (growslice ss) (arrays h)
             (default Slice.empty (LoadBalancerBackendAddressPools ipc)) xs in
  let h1 := setVMPools l i j (Some a.2)
              {| arrays := a.1; vmObjs := vmObjs h; vmssObjs := vmssObjs h |} in
  ipConfigAt h1 l i j' = Some c /\
  Slice.wf (arrays h1) (default Slice.empty (LoadBalancerBackendAddressPools c)) /\
  membership h1 c = membership h c.
Proof.
  intros Hnics Hnic Hipcs Hipc Hc Hne Hwf Hsep. cbv zeta.
  pose proof (nicsOf_ipConfigAt h vm l i j props nics nic ipcs ipc Hnics Hnic Hipcs Hipc)
    as Hat.
  pose proof (nicsOf_ipConfigAt h vm l i j' props nics nic ipcs c Hnics Hnic Hipcs Hc)
    as Hat'.
  set (a := Slice.append (growslice ss) (arrays h)
              (default Slice.empty (LoadBalancerBackendAddressPools ipc)) xs).
  destruct (path_after_assignment h a.1 vm l i j (Some a.2) props nics nic ipcs ipc
              Hnics Hnic Hipcs Hipc) as [props' [Hnics' [Hnic' [Hipcs' _]]]].
  split.
  - apply (nicsOf_ipConfigAt _ vm l i j' props' _ _ _ c Hnics' Hnic' Hipcs').
    rewrite list_lookup_alter_ne by congruence. exact Hc.
  - unfold membership. cbn [setVMPools arrays].
    apply (append_frame (growslice ss) (arrays h)).
    + exact (wfHeap_target h l i j ipc Hwf Hat).
    + exact (wfHeap_target h l i j' c Hwf Hat').
    + destruct (LoadBalancerBackendAddressPools c) as [s|] eqn:Hs; [|left; reflexivity].
      destruct (LoadBalancerBackendAddressPools ipc) as [s'|] eqn:Hs';
        [|right; left; reflexivity].
      right. right. cbn.
      exact (Hsep l i j' j c ipc s s' Hne Hat' Hat Hs Hs').
Qed.

(** X23.  When the membership list of the IP configuration that
    [EnsureHostInPool] selects does not hold the pool, nor a pool that keeps
    it from being added, the call stages an update of the machine, under the
    resource group, the scale set and the instance id of the node, in which
    this list is the list before the call with the pool appended; the update
    has the location of the machine.  The machine that the cache holds has
    the same longer list, and the lists of the other IP configurations of
    the interface are as they were. *)
Theorem ensure_stages_the_longer_list (service : Service) (vm : VirtualMachine)
    (name backendPoolID vmSetNameOfLB : string) (h : Heap) (l i j : nat)
    (ipc : VirtualMachineScaleSetIPConfiguration) (nodeResourceGroup : string) :
  ensureTarget ss service h vm name = Some (l, i, j, ipc) ->
  wfHeap h ->
  separated h ->
  Forall (otherPool backendPoolID) (membership h ipc) ->
  skipsScaleSet ss vm vmSetNameOfLB = false ->
  conflictWithLB ss backendPoolID (default Slice.empty (LoadBalancerBackendAddressPools ipc))
                 (membership h ipc) = None ->
  GetNodeResourceGroup ss (mapNodeNameToVMName ss name) = Ok nodeResourceGroup ->
  exists update h1,
    let staged := (nodeResourceGroup, VMSSName vm, InstanceID vm, Some update, None) in
    let longer := membership h ipc ++ [ {| ID := Some backendPoolID |} ] in
    EnsureHostInPool_vm ss service vm name backendPoolID vmSetNameOfLB h = (Val staged, h1) /\
    stagedMembership h1 staged i j = Some longer /\
    vmLocation update = Some (Location vm) /\
    membershipAt h1 l i j = Some longer /\
    (forall j' c, j' <> j -> ipConfigAt h l i j' = Some c ->
                  membershipAt h1 l i j' = Some (membership h c)).
Proof.
  intros Htarget Hwf Hsep Hother Hskip Hconflict Hrg.
  destruct (ensureTarget_inv ss _ _ _ _ _ _ _ _ Htarget)
    as [props [nics [nic [ipcs [Hnics [Hi [Hnic [Hj [Hipcs Hipc]]]]]]]]].
  pose proof (nicsOf_ipConfigAt h vm l i j props nics nic ipcs ipc Hnics Hnic Hipcs Hipc)
    as Hat.
  rewrite (EnsureHostInPool_vm_run ss service vm name backendPoolID vmSetNameOfLB h
             l i j props nics nic ipcs ipc false Hnics Hi Hnic Hj Hipcs Hipc
             (containsPool_other backendPoolID _ Hother)).
  rewrite Hskip. cbv zeta. rewrite Hconflict, Hrg.
  destruct (membership_appended ss h l i j ipc [ {| ID := Some backendPoolID |} ] Hwf Hat)
    as [_ [Helems _]].
  cbv zeta in Helems.
  pose proof (fun j' c => membership_of_the_others h vm l i j j' props nics nic ipcs ipc c
                            [ {| ID := Some backendPoolID |} ] Hnics Hnic Hipcs Hipc)
    as Hothers.
  cbv zeta in Hothers.
  set (a := Slice.append (growslice ss) (arrays h)
              (default Slice.empty (LoadBalancerBackendAddressPools ipc))
              [ {| ID := Some backendPoolID |} ]) in *.
  set (h1 := setVMPools l i j (Some a.2)
               {| arrays := a.1; vmObjs := vmObjs h; vmssObjs := vmssObjs h |}) in *.
  destruct (path_after_assignment h a.1 vm l i j (Some a.2) props nics nic ipcs ipc
              Hnics Hnic Hipcs Hipc) as [props' [Hnics' [Hnic' [Hipcs' Hipc']]]].
  fold h1 in Hnics'.
  eexists _, h1. split; [reflexivity|]. split; [|split; [reflexivity|split]].
  - unfold stagedMembership.
    rewrite (ipConfigIn_newVM vm props nics i j (Some a.2) nic ipcs ipc Hnic Hipcs Hipc).
    cbn. unfold membership. cbn. f_equal. exact Helems.
  - unfold membershipAt.
    rewrite (nicsOf_ipConfigAt h1 vm l i j props' _ _ _ _ Hnics' Hnic' Hipcs' Hipc').
    cbn. unfold membership. cbn. f_equal. exact Helems.
  - intros j' c Hne Hc.
    assert (ipcs !! j' = Some c) as Hc'.
    { unfold ipConfigAt in Hc. destruct (nicsOf_inv h vm l props nics Hnics)
        as [obj [npc [_ [Hobj [Hprops [Hnpc Hn]]]]]].
      rewrite Hobj in Hc. cbn in Hc. rewrite Hprops in Hc. cbn in Hc.
      rewrite Hnpc in Hc. cbn in Hc. rewrite Hn in Hc. cbn in Hc.
      rewrite Hnic in Hc. cbn in Hc. rewrite Hipcs in Hc. exact Hc. }
    destruct (Hothers j' c Hc' Hne Hwf Hsep) as [Hat' [_ Hsame]].
    unfold membershipAt. rewrite Hat'. cbn. f_equal. exact Hsame.
Qed.

(** X24.  [EnsureHostInPool] adds the pool to the IP configuration of the
    family of the service, and [ensureBackendPoolDeletedFromNode] looks for
    it in the primary IP configuration only.  When the two are different IP
    configurations (a dual-stack cluster, or a service of the other family),
    a pool that the first has added is not found by the second, which
    stages nothing and leaves the pool where it is. *)
Theorem delete_misses_a_pool_of_another_family (service : Service) (vm : VirtualMachine)
    (name backendPoolID vmSetNameOfLB : string) (h : Heap) (l i j j' : nat)
    (ipc ipc' : VirtualMachineScaleSetIPConfiguration) :
  primaryTarget h vm name = Some (l, i, j, ipc) ->
  ensureTarget ss service h vm name = Some (l, i, j', ipc') ->
  j' <> j ->
  wfHeap h ->
  separated h ->
  Forall (otherPool backendPoolID) (membership h ipc) ->
  Forall (otherPool backendPoolID) (membership h ipc') ->
  skipsScaleSet ss vm vmSetNameOfLB = false ->
  conflictWithLB ss backendPoolID (default Slice.empty (LoadBalancerBackendAddressPools ipc'))
                 (membership h ipc') = None ->
  exists staged h1,
    EnsureHostInPool_vm ss service vm name backendPoolID vmSetNameOfLB h = (Val staged, h1) /\
    membershipAt h1 l i j' = Some (membership h ipc' ++ [ {| ID := Some backendPoolID |} ]) /\
    ensureBackendPoolDeletedFromNode_vm ss vm name backendPoolID h1 = (Val stagedNothing, h1).
Proof.
  intros Hprimary Htarget Hne Hwf Hsep Hother Hother' Hskip Hconflict.
  destruct (ensureTarget_inv ss _ _ _ _ _ _ _ _ Htarget)
    as [props [nics [nic [ipcs [Hnics [Hi [Hnic [Hj [Hipcs Hipc']]]]]]]]].
  destruct (primaryTarget_inv _ _ _ _ _ _ _ Hprimary)
    as [props0 [nics0 [nic0 [ipcs0 [Hnics0 [Hi0 [Hnic0 [Hj0 [Hipcs0 Hipc]]]]]]]]].
  assert (props0 = props /\ nics0 = nics) as [-> ->] by (split; congruence).
  pose proof (getPrimaryNetworkInterfaceConfiguration_name nics name
                (mapNodeNameToVMName ss name) i Hi0) as Hi0'.
  assert (nic0 = nic) as -> by congruence.
  assert (ipcs0 = ipcs) as -> by congruence.
  pose proof (nicsOf_ipConfigAt h vm l i j' props nics nic ipcs ipc' Hnics Hnic Hipcs Hipc')
    as Hat'.
  rewrite (EnsureHostInPool_vm_run ss service vm name backendPoolID vmSetNameOfLB h
             l i j' props nics nic ipcs ipc' false Hnics Hi Hnic Hj Hipcs Hipc'
             (containsPool_other backendPoolID _ Hother')).
  rewrite Hskip. cbv zeta. rewrite Hconflict.
  destruct (membership_appended ss h l i j' ipc' [ {| ID := Some backendPoolID |} ] Hwf Hat')
    as [_ [Helems _]].
  cbv zeta in Helems.
  destruct (membership_of_the_others h vm l i j' j props nics nic ipcs ipc' ipc
              [ {| ID := Some backendPoolID |} ] Hnics Hnic Hipcs Hipc' Hipc
              (not_eq_sym Hne) Hwf Hsep) as [Hat1 [Hwf1 Hsame]].
  set (a := Slice.append (growslice ss) (arrays h)
              (default Slice.empty (LoadBalancerBackendAddressPools ipc'))
              [ {| ID := Some backendPoolID |} ]) in *.
  set (h1 := setVMPools l i j' (Some a.2)
               {| arrays := a.1; vmObjs := vmObjs h; vmssObjs := vmssObjs h |}) in *.
  destruct (path_after_assignment h a.1 vm l i j' (Some a.2) props nics nic ipcs ipc'
              Hnics Hnic Hipcs Hipc') as [props' [Hnics' [Hnic' [Hipcs' Hipc'']]]].
  fold h1 in Hnics'.
  eexists _, h1. split; [reflexivity|]. split.
  - unfold membershipAt.
    rewrite (nicsOf_ipConfigAt h1 vm l i j' props' _ _ _ _ Hnics' Hnic' Hipcs' Hipc'').
    cbn. unfold membership. cbn. f_equal. exact Helems.
  - pose proof (getPrimaryNetworkInterfaceConfiguration_setPools i j' (Some a.2) nics name)
      as Hi1. rewrite Hi0 in Hi1.
    pose proof (getPrimaryIPConfigFromVMSSNetworkConfig_setPools j' (Some a.2) nic) as Hj1.
    rewrite Hj0 in Hj1.
    assert (alter (setPools (Some a.2)) j' ipcs !! j = Some ipc) as Hipc1.
    { rewrite list_lookup_alter_ne by exact Hne. exact Hipc. }
    rewrite (ensureBackendPoolDeletedFromNode_vm_run ss vm name backendPoolID h1 l i j
               props' _ _ _ ipc Hnics' Hi1 Hnic' Hj1 Hipcs' Hipc1).
    unfold membership in Hsame, Hother.
    destruct (LoadBalancerBackendAddressPools ipc) as [existing|]; [|reflexivity].
    destruct (decide (len existing = 0)); [reflexivity|].
    cbn [default from_option id] in Hwf1, Hsame, Hother.
    rewrite (removeBackendPoolLoop_absent ss backendPoolID (arrays h1) existing Hwf1);
      [reflexivity|].
    rewrite Hsame. exact Hother.
Qed.

End Addition.

(** The heap of a machine with an IP configuration of each family: its
    membership lists lie within their arrays, and one of them only is not
    [nil]. *)
Lemma twoFamiliesHeap_wf (ids : list string) : wfHeap (Scenario.twoFamiliesHeap ids).
Proof.
  intros l i j c s Hc Hs. unfold ipConfigAt in Hc.
  destruct l as [|l]; [|destruct l; discriminate]. simpl in Hc.
  destruct i as [|i]; [|destruct i; discriminate]. simpl in Hc.
  destruct j as [|[|j]]; [| |destruct j; discriminate]; simpl in Hc; injection Hc as <-;
    [|discriminate].
  simpl in Hs. injection Hs as <-.
  split; [simpl; lia|]. right. eexists. split; [reflexivity|].
  simpl. rewrite length_map. lia.
Qed.

Lemma twoFamiliesHeap_separated (ids : list string) : separated (Scenario.twoFamiliesHeap ids).
Proof.
  intros l i j j' c c' s s' Hne Hc Hc' Hs Hs'. unfold ipConfigAt in Hc, Hc'.
  destruct l as [|l]; [|destruct l; discriminate]. simpl in Hc, Hc'.
  destruct i as [|i]; [|destruct i; discriminate]. simpl in Hc, Hc'.
  destruct j as [|[|j]]; [| |destruct j; discriminate]; simpl in Hc; injection Hc as <-;
    [|discriminate].
  destruct j' as [|[|j']]; [| |destruct j'; discriminate]; simpl in Hc'; injection Hc' as <-;
    [contradiction|discriminate].
Qed.

(** The statement of X23 at a machine listed in one pool. *)
Lemma ensure_stages_the_longer_list_witness :
  let ss := Example.bare true in
  let h := Example.heapOf ["lb-a"] 0 in
  let ipc := Example.ipConfiguration (Some (Example.sliceOf ["lb-a"] 0)) in
  exists update h1,
    let staged := ("rg", VMSSName Example.resolved, InstanceID Example.resolved,
                   Some update, None) in
    let longer := membership h ipc ++ [ {| ID := Some "lb-pool" |} ] in
    EnsureHostInPool_vm ss Example.service Example.resolved "aks-a-000000" "lb-pool" "" h =
      (Val staged, h1) /\
    stagedMembership h1 staged 0 0 = Some longer /\
    vmLocation update = Some (Location Example.resolved) /\
    membershipAt h1 0 0 0 = Some longer /\
    (forall j' c, j' <> 0 -> ipConfigAt h 0 0 j' = Some c ->
                  membershipAt h1 0 0 j' = Some (membership h c)).
Proof.
  cbv zeta.
  apply (ensure_stages_the_longer_list (Example.bare true) Example.service Example.resolved
           "aks-a-000000" "lb-pool" "" (Example.heapOf ["lb-a"] 0) 0 0 0
           (Example.ipConfiguration (Some (Example.sliceOf ["lb-a"] 0))) "rg").
  - reflexivity.
  - apply heapOf_wf.
  - apply heapOf_separated.
  - repeat constructor; eexists; split; reflexivity.
  - reflexivity.
  - reflexivity.
  - reflexivity.
Defined.

(** The statement of X24 at a machine of a dual-stack cluster and a service
    of the second family. *)
Lemma delete_misses_a_pool_of_another_family_witness :
  let h := Scenario.twoFamiliesHeap ["lb-a"] in
  exists staged h1,
    EnsureHostInPool_vm Scenario.dualStack Scenario.service6 Example.resolved "aks-a-000000"
      "lb-pool6" "" h = (Val staged, h1) /\
    membershipAt h1 0 0 1 =
      Some (membership h Scenario.ipConfiguration6 ++ [ {| ID := Some "lb-pool6" |} ]) /\
    ensureBackendPoolDeletedFromNode_vm Scenario.dualStack Example.resolved "aks-a-000000"
      "lb-pool6" h1 = (Val stagedNothing, h1).
Proof.
  cbv zeta.
  apply (delete_misses_a_pool_of_another_family Scenario.dualStack Scenario.service6
           Example.resolved "aks-a-000000" "lb-pool6" "" (Scenario.twoFamiliesHeap ["lb-a"])
           0 0 0 1 (Example.ipConfiguration (Some (Example.sliceOf ["lb-a"] 0)))
           Scenario.ipConfiguration6).
  - reflexivity.
  - reflexivity.
  - discriminate.
  - apply twoFamiliesHeap_wf.
  - apply twoFamiliesHeap_separated.
  - repeat constructor; eexists; split; reflexivity.
  - constructor.
  - reflexivity.
  - reflexivity.
Defined.

(** The statement of X9 at a provider that cannot tell the resource group of
    a node. *)
Lemma ensure_failure_leaves_the_pool_listed_witness :
  let h := Example.heapOf ["lb-a"] 0 in
  let ensure := EnsureHostInPool_vm Scenario.lost Example.service Example.resolved
                  "aks-a-000000" "lb-pool" "" in
  exists h1,
    ensure h = (Val (stagedError (External "no resource group")), h1) /\
    membershipAt h1 0 0 0 =
      Some (membership h (Example.ipConfiguration (Some (Example.sliceOf ["lb-a"] 0))) ++
            [ {| ID := Some "lb-pool" |} ]) /\
    ensure h1 = (Val stagedNothing, h1).
Proof.
  cbv zeta.
  apply (ensure_failure_leaves_the_pool_listed Scenario.lost Example.service Example.resolved
           "aks-a-000000" "lb-pool" "" (Example.heapOf ["lb-a"] 0) 0 0 0
           (Example.ipConfiguration (Some (Example.sliceOf ["lb-a"] 0)))
           (External "no resource group")).
  - reflexivity.
  - apply heapOf_wf.
  - repeat constructor; eexists; split; reflexivity.
  - reflexivity.
  - reflexivity.
  - reflexivity.
Defined.

(** ** Bulk deletion *)

Section BulkDelete.

Context {Remote : Type} (ss : ScaleSet Remote).

(** X10.  For an id that is not the one of an IP configuration of a scale
    set, [GetNodeNameByIPConfigurationID] asks the availability-set manager,
    once.  Its only error is then [ErrorNotVmssInstance], which stands for
    every error of the manager but [InstanceNotFound]; when the manager
    answers [InstanceNotFound] the call succeeds with the names that came
    with it. *)
Theorem foreign_ip_configuration_outcomes (ipConfigurationID : string) (w : World Remote) :
  vmssIPConfigurationRE ss ipConfigurationID = None ->
  exists name vmSet err w',
    GetNodeNameByIPConfigurationID ss ipConfigurationID w = (Val (name, vmSet, err), w') /\
    trace w' = trace w ++ [EvCall "availabilitySet.GetNodeNameByIPConfigurationID"
                                  [ipConfigurationID]] /\
    let answer := fst (as_GetNodeNameByIPConfigurationID (availabilitySet ss)
                         ipConfigurationID (sys w)) in
    (forall e, err = Some e ->
       e = ErrorNotVmssInstance /\ name = "" /\ vmSet = "" /\
       exists e', answer.2 = Some e' /\ isInstanceNotFound e' = false) /\
    (err = None ->
       (name, vmSet) = answer.1 /\
       forall e', answer.2 = Some e' -> isInstanceNotFound e' = true).
Proof.
  intros Hre. unfold GetNodeNameByIPConfigurationID. rewrite Hre.
  unfold bind, call.
  destruct (as_GetNodeNameByIPConfigurationID (availabilitySet ss) ipConfigurationID (sys w))
    as [[[name rg] [e|]] s'] eqn:Hanswer; simpl.
  - destruct (isInstanceNotFound e) eqn:He; simpl.
    + eexists _, _, _, _. split; [reflexivity|]. split; [reflexivity|]. split.
      * intros e0 [=].
      * intros _. split; [reflexivity|]. intros e' [= <-]. exact He.
    + eexists _, _, _, _. split; [reflexivity|]. split; [reflexivity|]. split.
      * intros e0 [= <-]. repeat split. exists e. split; [reflexivity|exact He].
      * intros [=].
  - eexists _, _, _, _. split; [reflexivity|]. split; [reflexivity|]. split.
    + intros e0 [=].
    + intros _. split; [reflexivity|]. intros e' [=].
Qed.

Lemma getVmssVM_not_an_instance (nodeName : string) (crt : AzureCacheReadType)
    (w : World Remote) (e : error) :
  getScaleSetVMInstanceID nodeName = Err e ->
  getVmssVM ss nodeName crt w = (Val (Err ErrorNotVmssInstance), w).
Proof.
  intros H. pose proof (getScaleSetVMInstanceID_error _ _ H) as ->.
  unfold getVmssVM, getNodeIdentityByNodeName, bind. rewrite H. reflexivity.
Qed.

(** X11.  Under the standard load balancer, [EnsureBackendPoolDeleted]
    passes over an IP configuration whose node name is not the name of a
    machine of a scale set (fewer than six bytes, the empty name of a
    machine without a computer name included, or other bytes than digits
    and letters among the last six): it reads no cache for it, stages
    nothing and collects no error. *)
Theorem foreign_node_is_passed_over (backendPoolID vmSetName ipConfigurationID : string)
    (rest : list string) (acc : Unstaging) (w w1 : World Remote)
    (nodeName vmSet : string) (e : error) :
  useStandardLoadBalancer ss = true ->
  GetNodeNameByIPConfigurationID ss ipConfigurationID w = (Val (nodeName, vmSet, None), w1) ->
  getScaleSetVMInstanceID nodeName = Err e ->
  EnsureBackendPoolDeleted_loop ss backendPoolID vmSetName (ipConfigurationID :: rest) acc w =
  EnsureBackendPoolDeleted_loop ss backendPoolID vmSetName rest acc w1.
Proof.
  intros Hstd Hname Hforeign.
  cbn [EnsureBackendPoolDeleted_loop]. rewrite Hstd.
  replace (match extractScaleSetNameByProviderID ss ipConfigurationID with
           | Ok scaleSetName => negb true && negb (EqualFold scaleSetName vmSetName)
           | Err _ => false
           end) with false
    by (destruct (extractScaleSetNameByProviderID ss ipConfigurationID); reflexivity).
  unfold bind at 1. rewrite Hname.
  unfold bind at 1. unfold ensureBackendPoolDeletedFromNode, bind at 1.
  rewrite (getVmssVM_not_an_instance nodeName CacheReadTypeDefault w1 e Hforeign).
  reflexivity.
Qed.

Lemma ipConfigurationIDsOf_nothing (backendPoolID : string) (pools : list BackendAddressPool) :
  Forall (contributesNothing backendPoolID) pools ->
  ipConfigurationIDsOf backendPoolID pools = Val [].
Proof.
  induction 1 as [|p pools [id [Hid Hp]] _ IH]; [reflexivity|].
  cbn [ipConfigurationIDsOf]. rewrite Hid, IH.
  destruct Hp as [-> | ->]; [reflexivity|]. destruct (EqualFold id backendPoolID); reflexivity.
Qed.

(** X12.  When every pool handed to [EnsureBackendPoolDeleted] has another id
    than the pool to delete, or no list of backend IP configurations, then,
    under the standard load balancer or when the scale sets themselves are
    not to be changed, the call returns no error and has no effect: no cache
    is read or invalidated and no update is sent. *)
Theorem delete_without_backends_has_no_effect (service : Service)
    (backendPoolID vmSetName : string) (pools : list BackendAddressPool)
    (deleteFromVMSet : bool) (w : World Remote) :
  Forall (contributesNothing backendPoolID) pools ->
  useStandardLoadBalancer ss = true \/ deleteFromVMSet = false ->
  EnsureBackendPoolDeleted ss service backendPoolID vmSetName (Some pools) deleteFromVMSet w =
  (Val None, w).
Proof.
  intros Hpools Hmode. unfold EnsureBackendPoolDeleted, bind at 1.
  rewrite (ipConfigurationIDsOf_nothing _ _ Hpools). cbn.
  destruct deleteFromVMSet; [|reflexivity].
  destruct Hmode as [Hstd|]; [|discriminate].
  unfold ensureBackendPoolDeletedFromVMSS. rewrite Hstd. reflexivity.
Qed.

End BulkDelete.

(** The statement of X10 at a provider whose availability-set manager knows
    no node. *)
Lemma foreign_ip_configuration_outcomes_witness :
  let ss := Example.bare true in
  let w := Example.world (Example.heapOf [] 0) in
  exists name vmSet err w',
    GetNodeNameByIPConfigurationID ss "/subscriptions/s/nic-0/ipConfigurations/ipconfig1" w =
      (Val (name, vmSet, err), w') /\
    trace w' = trace w ++ [EvCall "availabilitySet.GetNodeNameByIPConfigurationID"
                                  ["/subscriptions/s/nic-0/ipConfigurations/ipconfig1"]] /\
    let answer := fst (as_GetNodeNameByIPConfigurationID (availabilitySet ss)
                         "/subscriptions/s/nic-0/ipConfigurations/ipconfig1" (sys w)) in
    (forall e, err = Some e ->
       e = ErrorNotVmssInstance /\ name = "" /\ vmSet = "" /\
       exists e', answer.2 = Some e' /\ isInstanceNotFound e' = false) /\
    (err = None ->
       (name, vmSet) = answer.1 /\
       forall e', answer.2 = Some e' -> isInstanceNotFound e' = true).
Proof.
  cbv zeta.
  apply (foreign_ip_configuration_outcomes (Example.bare true)
           "/subscriptions/s/nic-0/ipConfigurations/ipconfig1"
           (Example.world (Example.heapOf [] 0))).
  reflexivity.
Defined.

(** The statement of X11 at an IP configuration that the availability-set
    manager does not know, which comes back without a node name. *)
Lemma foreign_node_is_passed_over_witness :
  let ss := Example.bare true in
  let w := Example.world (Example.heapOf [] 0) in
  let acc := {| delNodeUpdates := []; allErrs := []; delDeferred := [] |} in
  EnsureBackendPoolDeleted_loop ss "lb-pool" "vmss-a" ["nic-0/ipConfigurations/ipconfig1"] acc w =
  EnsureBackendPoolDeleted_loop ss "lb-pool" "vmss-a" [] acc
    (snd (GetNodeNameByIPConfigurationID ss "nic-0/ipConfigurations/ipconfig1" w)).
Proof.
  cbv zeta.
  apply (foreign_node_is_passed_over (Example.bare true) "lb-pool" "vmss-a"
           "nic-0/ipConfigurations/ipconfig1" []
           {| delNodeUpdates := []; allErrs := []; delDeferred := [] |}
           (Example.world (Example.heapOf [] 0)) _ "" "" ErrorNotVmssInstance).
  - reflexivity.
  - reflexivity.
  - reflexivity.
Defined.

(** The statement of X12 at the pools of a load balancer of which one has
    another id and the other one no backend. *)
Lemma delete_without_backends_has_no_effect_witness :
  let w := Example.world Example.fleetHeap in
  EnsureBackendPoolDeleted (Example.fleet []) Example.service "lb-pool" "vmss-a"
    (Some [ {| poolID := Some "lb-other";
               BackendIPConfigurations := Some [Some "nic-0/ipConfigurations/ipconfig1"] |};
            {| poolID := Some "LB-POOL"; BackendIPConfigurations := None |} ]) true w =
  (Val None, w).
Proof.
  cbv zeta.
  apply (delete_without_backends_has_no_effect (Example.fleet []) Example.service
           "lb-pool" "vmss-a").
  - repeat constructor; eexists; split; try reflexivity; [left|right]; reflexivity.
  - left. reflexivity.
Defined.

(** ** Reconciliation of the template of a scale set *)

Section Template.

Context {Remote : Type} (ss : ScaleSet Remote).

Lemma templateTarget_inv (service : Service) (h : Heap) (p : nat) (vmssName : string)
    (i j : nat) (ipc : VirtualMachineScaleSetIPConfiguration) :
  templateTarget ss service h p vmssName = Some (i, j, ipc) ->
  exists o props prof np nics nic ipcs,
    vmssObjs h !! p = Some o /\ vmssProperties o = Some props /\
    VirtualMachineProfile props = Some prof /\
    NetworkProfile prof = Some np /\ vmssNetworkInterfaceConfigurations np = Some nics /\
    getPrimaryNetworkInterfaceConfigurationForScaleSet nics vmssName = Ok i /\
    nics !! i = Some nic /\
    selectIPConfiguration ss service nic "" = Val (Ok j) /\
    IPConfigurations nic = Some ipcs /\ ipcs !! j = Some ipc.
Proof.
  unfold templateTarget, templateOf. intros H.
  destruct (vmssObjs h !! p) as [o|] eqn:Ho; [|discriminate]. simpl in H.
  destruct (vmssProperties o) as [props|] eqn:Hprops; [|discriminate]. simpl in H.
  destruct (VirtualMachineProfile props) as [prof|] eqn:Hprof; [|discriminate]. simpl in H.
  destruct (NetworkProfile prof) as [np|] eqn:Hnp; [|discriminate]. simpl in H.
  destruct (vmssNetworkInterfaceConfigurations np) as [nics|] eqn:Hnics; [|discriminate].
  simpl in H.
  destruct (getPrimaryNetworkInterfaceConfigurationForScaleSet nics vmssName) as [i'|] eqn:Hi;
    [|discriminate]. simpl in H.
  destruct (nics !! i') as [nic|] eqn:Hnic; [|discriminate]. simpl in H.
  destruct (selectIPConfiguration ss service nic "") as [[j'|]|] eqn:Hj; try discriminate.
  simpl in H.
  destruct (IPConfigurations nic) as [ipcs|] eqn:Hipcs; [|discriminate]. simpl in H.
  destruct (ipcs !! j') as [ipc'|] eqn:Hipc; [|discriminate].
  injection H as <- <- <-.
  exists o, props, prof, np, nics, nic, ipcs. repeat split; assumption.
Qed.

(** One turn of the loop of [ensureVMSSInPool], for a scale set that is
    found, is not being deleted, and has a target. *)
Lemma ensureVMSSInPool_loop_turn (service : Service) (backendPoolID vmssName : string)
    (rest : list string) (w w1 : World Remote) (p : nat) (o : VirtualMachineScaleSet)
    (i j : nat) (ipc : VirtualMachineScaleSetIPConfiguration) (found : bool) :
  getVMSS ss vmssName CacheReadTypeDefault w = (Val (Ok p), w1) ->
  vmssObjs (heap (sys w1)) !! p = Some o ->
  beingDeleted o = false ->
  templateTarget ss service (heap (sys w1)) p vmssName = Some (i, j, ipc) ->
  containsPool backendPoolID (membership (heap (sys w1)) ipc) = Val found ->
  ensureVMSSInPool_loop ss service backendPoolID (vmssName :: rest) w =
  if found then ensureVMSSInPool_loop ss service backendPoolID rest w1
  else
    let h := heap (sys w1) in
    let s0 := default Slice.empty (LoadBalancerBackendAddressPools ipc) in
    match conflictWithLB ss backendPoolID s0 (membership h ipc) with
    | Some returned => (Val returned, w1)
    | None =>
        let a := Slice.append (growslice ss) (arrays h) s0 [ {| ID := Some backendPoolID |} ] in
        let h' := setVMSSPools p i j (Some a.2)
                    {| arrays := a.1; vmObjs := vmObjs h; vmssObjs := vmssObjs h |} in
        let nics' := default [] (snd <$> templateOf h' p) in
        let sent := CreateOrUpdateVMSS ss (ResourceGroup ss) vmssName (newVMSS o nics')
                      {| heap := h'; remote := remote (sys w1) |} in
        let w2 := {| sys := sent.2;
                     trace := trace w1 ++
                              [EvCall "CreateOrUpdateVMSS" [ResourceGroup ss; vmssName]] |} in
        match sent.1 with
        | Some err => (Val (Some err), w2)
        | None => ensureVMSSInPool_loop ss service backendPoolID rest w2
        end
    end.
Proof.
  intros Hget Ho Hstate Htarget Hfound.
  destruct (templateTarget_inv service _ p vmssName i j ipc Htarget)
    as [o' [props [prof [np [nics [nic [ipcs
          [Ho' [Hprops [Hprof [Hnp [Hnics [Hi [Hnic [Hj [Hipcs Hipc]]]]]]]]]]]]]]]].
  assert (o' = o) as -> by congruence.
  unfold beingDeleted in Hstate. rewrite Hprops in Hstate. cbn [from_option] in Hstate.
  cbn [ensureVMSSInPool_loop]. unfold bind at 1. rewrite Hget.
  unfold bind at 1. unfold onHeap at 1, get at 1. cbn [fst snd].
  unfold bind at 1. rewrite Ho. cbn [deref ret].
  unfold bind at 1. rewrite Hprops. cbn [deref ret]. rewrite Hstate.
  unfold bind at 1. rewrite Hprof. cbn [deref ret].
  unfold bind at 1. rewrite Hnp. cbn [deref ret]. rewrite Hnics, Hi.
  unfold bind at 1. rewrite Hnic. cbn [deref ret].
  unfold bind at 1. rewrite Hj. cbn [liftRes ret].
  unfold bind at 1. rewrite Hipcs. cbn [deref ret].
  unfold bind at 1. rewrite Hipc. cbn [deref ret].
  cbv zeta. unfold membership in Hfound. unfold bind at 1. rewrite Hfound. cbn [liftRes ret].
  destruct found; [reflexivity|].
  unfold membership.
  destruct (conflictWithLB ss backendPoolID _ _) as [returned|]; [reflexivity|].
  destruct (Slice.append (growslice ss) (arrays (heap (sys w1))) _ _) as [st' appended] eqn:Ha.
  unfold bind at 1. unfold onHeap at 1, put at 1. cbn [fst snd].
  unfold bind at 1. unfold call at 1. cbn [sys trace heap remote].
  assert (default [] (snd <$> templateOf
            (setVMSSPools p i j (Some appended)
               {| arrays := st'; vmObjs := vmObjs (heap (sys w1));
                  vmssObjs := vmssObjs (heap (sys w1)) |}) p) =
          setPoolsInNICs i j (Some appended) nics) as ->.
  { unfold templateOf, setVMSSPools. cbn [vmssObjs].
    rewrite list_lookup_alter_eq, Ho. cbn. rewrite Hprops. cbn. rewrite Hprof. cbn.
    rewrite Hnp. cbn. rewrite Hnics. reflexivity. }
  destruct (CreateOrUpdateVMSS ss _ _ _ _) as [[err|] s2]; reflexivity.
Qed.

(** X13.  When the load balancer is not the single standard one,
    [ensureVMSSInPool] looks at the scale set [vmSetNameOfLB] only.  When
    this scale set is being deleted, or when the membership list of the IP
    configuration that is selected in its template holds the pool already
    (up to case), nothing is changed and no update is sent: the call returns
    no error in the world that the lookup of the scale set left. *)
Theorem template_is_left_alone (service : Service) (nodes : list Node)
    (backendPoolID vmSetNameOfLB : string) (w w1 : World Remote) (p : nat)
    (o : VirtualMachineScaleSet) :
  oneScaleSet ss ->
  getVMSS ss vmSetNameOfLB CacheReadTypeDefault w = (Val (Ok p), w1) ->
  vmssObjs (heap (sys w1)) !! p = Some o ->
  (beingDeleted o = true ->
   ensureVMSSInPool ss service nodes backendPoolID vmSetNameOfLB w = (Val None, w1)) /\
  (forall i j ipc pre q post,
     beingDeleted o = false ->
     templateTarget ss service (heap (sys w1)) p vmSetNameOfLB = Some (i, j, ipc) ->
     membership (heap (sys w1)) ipc = pre ++ q :: post ->
     Forall hasID pre ->
     isPool backendPoolID q = true ->
     ensureVMSSInPool ss service nodes backendPoolID vmSetNameOfLB w = (Val None, w1)).
Proof.
  intros Hone Hget Ho.
  assert (ensureVMSSInPool ss service nodes backendPoolID vmSetNameOfLB w =
          ensureVMSSInPool_loop ss service backendPoolID [vmSetNameOfLB] w) as ->.
  { unfold ensureVMSSInPool. rewrite Hone. reflexivity. }
  split.
  - intros Hstate. unfold beingDeleted in Hstate.
    destruct (vmssProperties o) as [props|] eqn:Hprops; [|discriminate].
    cbn [from_option] in Hstate.
    cbn [ensureVMSSInPool_loop]. unfold bind at 1. rewrite Hget.
    unfold bind at 1. unfold onHeap at 1, get at 1. cbn [fst snd].
    unfold bind at 1. rewrite Ho. cbn [deref ret].
    unfold bind at 1. rewrite Hprops. cbn [deref ret]. rewrite Hstate. reflexivity.
  - intros i j ipc pre q post Hstate Htarget Hlist Hids Hpool.
    rewrite (ensureVMSSInPool_loop_turn service backendPoolID vmSetNameOfLB [] w w1 p o
               i j ipc true Hget Ho Hstate Htarget).
    + reflexivity.
    + rewrite Hlist. exact (containsPool_present backendPoolID pre post q Hids Hpool).
Qed.

(** X14.  When the load balancer is not the single standard one and the
    membership list of the IP configuration that is selected in the template
    of [vmSetNameOfLB] does not hold the pool, nor a pool that keeps it from
    being added, [ensureVMSSInPool] appends the pool to this list in the
    cached scale set, sends the template with the longer list in one call of
    [CreateOrUpdateVMSS], and returns the error of this call: the cached
    scale set lists the pool whether the call has failed or not. *)
Theorem template_receives_the_pool (service : Service) (nodes : list Node)
    (backendPoolID vmSetNameOfLB : string) (w w1 : World Remote) (p : nat)
    (o : VirtualMachineScaleSet) (i j : nat) (ipc : VirtualMachineScaleSetIPConfiguration) :
  oneScaleSet ss ->
  getVMSS ss vmSetNameOfLB CacheReadTypeDefault w = (Val (Ok p), w1) ->
  vmssObjs (heap (sys w1)) !! p = Some o ->
  beingDeleted o = false ->
  templateTarget ss service (heap (sys w1)) p vmSetNameOfLB = Some (i, j, ipc) ->
  Slice.wf (arrays (heap (sys w1))) (default Slice.empty (LoadBalancerBackendAddressPools ipc)) ->
  Forall (otherPool backendPoolID) (membership (heap (sys w1)) ipc) ->
  conflictWithLB ss backendPoolID (default Slice.empty (LoadBalancerBackendAddressPools ipc))
                 (membership (heap (sys w1)) ipc) = None ->
  exists (update : VirtualMachineScaleSet) (s : Sys Remote) (cached : VirtualMachineScaleSet),
    let longer := membership (heap (sys w1)) ipc ++ [ {| ID := Some backendPoolID |} ] in
    let sent := CreateOrUpdateVMSS ss (ResourceGroup ss) vmSetNameOfLB update s in
    templateMembership (arrays (heap s)) update i j = Some longer /\
    vmssLocation update = vmssLocation o /\
    vmssObjs (heap s) !! p = Some cached /\
    templateMembership (arrays (heap s)) cached i j = Some longer /\
    ensureVMSSInPool ss service nodes backendPoolID vmSetNameOfLB w =
      (Val sent.1,
       {| sys := sent.2;
          trace := trace w1 ++
                   [EvCall "CreateOrUpdateVMSS" [ResourceGroup ss; vmSetNameOfLB]] |}).
Proof.
  intros Hone Hget Ho Hstate Htarget Hwf Hother Hconflict.
  destruct (templateTarget_inv service _ p vmSetNameOfLB i j ipc Htarget)
    as [o' [props [prof [np [nics [nic [ipcs
          [Ho' [Hprops [Hprof [Hnp [Hnics [Hi [Hnic [Hj [Hipcs Hipc]]]]]]]]]]]]]]]].
  assert (o' = o) as -> by congruence.
  assert (ensureVMSSInPool ss service nodes backendPoolID vmSetNameOfLB w =
          ensureVMSSInPool_loop ss service backendPoolID [vmSetNameOfLB] w) as ->.
  { unfold ensureVMSSInPool. rewrite Hone. reflexivity. }
  rewrite (ensureVMSSInPool_loop_turn service backendPoolID vmSetNameOfLB [] w w1 p o
             i j ipc false Hget Ho Hstate Htarget (containsPool_other backendPoolID _ Hother)).
  cbv zeta. rewrite Hconflict.
  pose proof (append_elems (growslice ss) (arrays (heap (sys w1)))
                (default Slice.empty (LoadBalancerBackendAddressPools ipc))
                [ {| ID := Some backendPoolID |} ] Hwf) as [_ [Helems _]].
  set (a := Slice.append (growslice ss) (arrays (heap (sys w1)))
              (default Slice.empty (LoadBalancerBackendAddressPools ipc))
              [ {| ID := Some backendPoolID |} ]) in *.
  set (h' := setVMSSPools p i j (Some a.2)
               {| arrays := a.1; vmObjs := vmObjs (heap (sys w1));
                  vmssObjs := vmssObjs (heap (sys w1)) |}).
  assert (vmssObjs h' !! p = Some (setPoolsInVMSS i j (Some a.2) o)) as Hcached.
  { unfold h', setVMSSPools. cbn [vmssObjs]. rewrite list_lookup_alter_eq, Ho. reflexivity. }
  assert (templateOf h' p = Some (setPoolsInVMSS i j (Some a.2) o,
                                  setPoolsInNICs i j (Some a.2) nics)) as Htemplate.
  { unfold templateOf. rewrite Hcached. cbn. rewrite Hprops. cbn. rewrite Hprof. cbn.
    rewrite Hnp. cbn. rewrite Hnics. reflexivity. }
  assert (forall t,
            ((vmssProperties t ≫= VirtualMachineProfile) ≫= NetworkProfile)
              ≫= vmssNetworkInterfaceConfigurations =
              Some (setPoolsInNICs i j (Some a.2) nics) ->
            templateMembership a.1 t i j =
              Some (membership (heap (sys w1)) ipc ++ [ {| ID := Some backendPoolID |} ]))
    as Hcarried.
  { intros t Ht. unfold templateMembership.
    destruct (vmssProperties t) as [props'|]; [|discriminate]. cbn in Ht |- *.
    destruct (VirtualMachineProfile props') as [prof'|]; [|discriminate]. cbn in Ht |- *.
    destruct (NetworkProfile prof') as [np'|]; [|discriminate]. cbn in Ht |- *.
    rewrite Ht. cbn [mbind option_bind].
    unfold setPoolsInNICs. rewrite list_lookup_alter_eq, Hnic.
    cbn [fmap option_fmap option_map mbind option_bind setPoolsInNIC IPConfigurations].
    rewrite Hipcs. cbn [fmap option_fmap option_map mbind option_bind].
    rewrite list_lookup_alter_eq, Hipc.
    cbn [fmap option_fmap option_map mbind option_bind setPools LoadBalancerBackendAddressPools].
    f_equal. exact Helems. }
  rewrite Htemplate. cbn [fmap option_fmap option_map default from_option id snd].
  exists (newVMSS o (setPoolsInNICs i j (Some a.2) nics)),
         {| heap := h'; remote := remote (sys w1) |},
         (setPoolsInVMSS i j (Some a.2) o).
  cbv zeta. cbn [heap].
  split; [apply Hcarried; reflexivity|].
  split; [reflexivity|].
  split; [exact Hcached|].
  split.
  - apply Hcarried. unfold setPoolsInVMSS. cbn. rewrite Hprops. cbn. rewrite Hprof. cbn.
    rewrite Hnp. cbn. rewrite Hnics. reflexivity.
  - destruct (CreateOrUpdateVMSS ss _ _ _ _) as [[err|] s2]; reflexivity.
Qed.

(** X15.  Under the standard load balancer, when the selected membership
    list of the template of a scale set holds a pool that
    [isBackendPoolOnSameLB] tells to be of another load balancer, the loop of
    [ensureVMSSInPool] over the scale sets ends there with no error: neither
    this scale set nor any of those that come after it is looked at or
    changed. *)
Theorem conflicting_template_ends_the_reconciliation (service : Service)
    (backendPoolID vmssName : string) (rest : list string) (w w1 : World Remote) (p : nat)
    (o : VirtualMachineScaleSet) (i j : nat) (ipc : VirtualMachineScaleSetIPConfiguration)
    (oldLBName : string) :
  getVMSS ss vmssName CacheReadTypeDefault w = (Val (Ok p), w1) ->
  vmssObjs (heap (sys w1)) !! p = Some o ->
  beingDeleted o = false ->
  templateTarget ss service (heap (sys w1)) p vmssName = Some (i, j, ipc) ->
  Forall (otherPool backendPoolID) (membership (heap (sys w1)) ipc) ->
  membership (heap (sys w1)) ipc <> [] ->
  useStandardLoadBalancer ss = true ->
  isBackendPoolOnSameLB ss backendPoolID (backendPoolIDs (membership (heap (sys w1)) ipc)) =
    (false, oldLBName, None) ->
  ensureVMSSInPool_loop ss service backendPoolID (vmssName :: rest) w = (Val None, w1).
Proof.
  intros Hget Ho Hstate Htarget Hother Hnonempty Hstd Hsame.
  rewrite (ensureVMSSInPool_loop_turn service backendPoolID vmssName rest w w1 p o
             i j ipc false Hget Ho Hstate Htarget (containsPool_other backendPoolID _ Hother)).
  cbv zeta. unfold conflictWithLB. rewrite Hstd, Hsame.
  assert (len (default Slice.empty (LoadBalancerBackendAddressPools ipc)) <> 0) as Hlen.
  { apply (elems_nonempty (arrays (heap (sys w1)))). exact Hnonempty. }
  apply Nat.eqb_neq in Hlen. rewrite Hlen. reflexivity.
Qed.

End Template.

(** The statement of X13 at a scale set that is being deleted, and at one
    whose template lists the pool in capitals. *)
Lemma template_is_left_alone_witness :
  (let ss := Scenario.basic "deallocating" ["lb-a"] in
   let w := Example.world (Scenario.templateHeap "deallocating" ["lb-a"]) in
   ensureVMSSInPool ss Example.service [] "lb-pool" "vmss-a" w =
     (Val None, snd (getVMSS ss "vmss-a" CacheReadTypeDefault w))) /\
  (let ss := Scenario.basic "Succeeded" ["lb-a"; "LB-POOL"] in
   let w := Example.world (Scenario.templateHeap "Succeeded" ["lb-a"; "LB-POOL"]) in
   ensureVMSSInPool ss Example.service [] "lb-pool" "vmss-a" w =
     (Val None, snd (getVMSS ss "vmss-a" CacheReadTypeDefault w))).
Proof.
  cbv zeta. split.
  - apply (proj1 (template_is_left_alone (Scenario.basic "deallocating" ["lb-a"])
                    Example.service [] "lb-pool" "vmss-a"
                    (Example.world (Scenario.templateHeap "deallocating" ["lb-a"])) _ 0
                    (Scenario.templated "deallocating" (Some (Example.sliceOf ["lb-a"] 0)))
                    eq_refl eq_refl eq_refl)).
    reflexivity.
  - apply (proj2 (template_is_left_alone (Scenario.basic "Succeeded" ["lb-a"; "LB-POOL"])
                    Example.service [] "lb-pool" "vmss-a"
                    (Example.world (Scenario.templateHeap "Succeeded" ["lb-a"; "LB-POOL"])) _ 0
                    (Scenario.templated "Succeeded"
                       (Some (Example.sliceOf ["lb-a"; "LB-POOL"] 0)))
                    eq_refl eq_refl eq_refl)
                 0 0 (Example.ipConfiguration (Some (Example.sliceOf ["lb-a"; "LB-POOL"] 0)))
                 [Example.pool "lb-a"] (Example.pool "LB-POOL") []).
    + reflexivity.
    + reflexivity.
    + reflexivity.
    + repeat constructor. eexists. reflexivity.
    + reflexivity.
Defined.

(** The statement of X14 at a scale set whose template lists another pool of
    the basic load balancer. *)
Lemma template_receives_the_pool_witness :
  let ss := Scenario.basic "Succeeded" ["lb-a"] in
  let w := Example.world (Scenario.templateHeap "Succeeded" ["lb-a"]) in
  let w1 := snd (getVMSS ss "vmss-a" CacheReadTypeDefault w) in
  let ipc := Example.ipConfiguration (Some (Example.sliceOf ["lb-a"] 0)) in
  exists (update : VirtualMachineScaleSet) (s : Sys unit) (cached : VirtualMachineScaleSet),
    let longer := membership (heap (sys w1)) ipc ++ [ {| ID := Some "lb-pool" |} ] in
    let sent := CreateOrUpdateVMSS ss (ResourceGroup ss) "vmss-a" update s in
    templateMembership (arrays (heap s)) update 0 0 = Some longer /\
    vmssLocation update =
      vmssLocation (Scenario.templated "Succeeded" (Some (Example.sliceOf ["lb-a"] 0))) /\
    vmssObjs (heap s) !! 0 = Some cached /\
    templateMembership (arrays (heap s)) cached 0 0 = Some longer /\
    ensureVMSSInPool ss Example.service [] "lb-pool" "vmss-a" w =
      (Val sent.1,
       {| sys := sent.2;
          trace := trace w1 ++ [EvCall "CreateOrUpdateVMSS" [ResourceGroup ss; "vmss-a"]] |}).
Proof.
  cbv zeta.
  apply (template_receives_the_pool (Scenario.basic "Succeeded" ["lb-a"])
           Example.service [] "lb-pool" "vmss-a"
           (Example.world (Scenario.templateHeap "Succeeded" ["lb-a"])) _ 0
           (Scenario.templated "Succeeded" (Some (Example.sliceOf ["lb-a"] 0))) 0 0
           (Example.ipConfiguration (Some (Example.sliceOf ["lb-a"] 0)))).
  - reflexivity.
  - reflexivity.
  - reflexivity.
  - reflexivity.
  - reflexivity.
  - split; [simpl; lia|]. right. eexists. split; [reflexivity|simpl; lia].
  - repeat constructor. eexists. split; reflexivity.
  - reflexivity.
Defined.

(** The statement of X15 at a scale set whose template lists a pool of
    another load balancer, with a second scale set after it. *)
Lemma conflicting_template_ends_the_reconciliation_witness :
  let ss := Scenario.crowded ["lb-other/pool"] in
  let w := Example.world (Scenario.templateHeap "Succeeded" ["lb-other/pool"]) in
  ensureVMSSInPool_loop ss Example.service "lb/pool" ["vmss-a"; "vmss-b"] w =
    (Val None, snd (getVMSS ss "vmss-a" CacheReadTypeDefault w)).
Proof.
  cbv zeta.
  apply (conflicting_template_ends_the_reconciliation (Scenario.crowded ["lb-other/pool"])
           Example.service "lb/pool" "vmss-a" ["vmss-b"]
           (Example.world (Scenario.templateHeap "Succeeded" ["lb-other/pool"])) _ 0
           (Scenario.templated "Succeeded" (Some (Example.sliceOf ["lb-other/pool"] 0))) 0 0
           (Example.ipConfiguration (Some (Example.sliceOf ["lb-other/pool"] 0)))
           "lb-other").
  - reflexivity.
  - reflexivity.
  - reflexivity.
  - reflexivity.
  - repeat constructor. eexists. split; reflexivity.
  - discriminate.
  - reflexivity.
  - reflexivity.
Defined.

(** ** Scale sets of a service *)

Section ServiceScaleSets.

Context {Remote : Type} (ss : ScaleSet Remote).





Section Mode.

Variable getServiceLoadBalancerMode : Service -> bool * bool * string.


End Mode.

(** X17.  [getAgentPoolScaleSets] leaves the control-plane nodes out: with
    or without them among the nodes it makes the same calls and returns the
    same list. *)
Theorem control_plane_nodes_have_no_scale_set (nodes : list Node) (w : World Remote) :
  getAgentPoolScaleSets ss (List.filter (fun node => negb (isControlPlane node)) nodes) w =
  getAgentPoolScaleSets ss nodes w.
Proof.
  unfold getAgentPoolScaleSets. generalize (@nil string) as names. revert w.
  induction nodes as [|node nodes IH]; intros w names; [reflexivity|].
  cbn [List.filter]. destruct (isControlPlane node) eqn:Hcp; cbn [negb].
  - cbn [getAgentPoolScaleSets_loop]. rewrite Hcp. apply IH.
  - cbn [getAgentPoolScaleSets_loop]. rewrite Hcp.
    unfold bind, call.
    destruct (ShouldNodeExcludedFromLoadBalancer ss (nodeObjName node) (sys w))
      as [[[|]|err] s1]; [apply IH| |reflexivity].
    destruct (getVmssVM ss (nodeObjName node) CacheReadTypeDefault _) as [[[vm|err]|] w2];
      try reflexivity.
    destruct (String.eqb (VMSSName vm) ""); apply IH.
Qed.

End ServiceScaleSets.



(** ** Control-plane nodes and the scale sets of the nodes *)

Section Nodes.

Context {Remote : Type} (ss : ScaleSet Remote).

Lemma vmssNamesOfNodes_counted (nodes : list Node) (names : list string) (w : World Remote) :
  vmssNamesOfNodes ss (List.filter (counted ss) nodes) names w =
  vmssNamesOfNodes ss nodes names w.
Proof.
  revert names w. induction nodes as [|node nodes IH]; intros names w; [reflexivity|].
  cbn [List.filter]. unfold counted at 1.
  destruct (excludeMasterNodesFromStandardLB ss && isControlPlane node) eqn:Hcp; cbn [negb].
  - cbn [vmssNamesOfNodes]. rewrite Hcp. apply IH.
  - cbn [vmssNamesOfNodes]. rewrite Hcp. unfold bind, call.
    destruct (ShouldNodeExcludedFromLoadBalancer ss (nodeObjName node) (sys w))
      as [[[|]|err] s1]; [apply IH| |reflexivity].
    destruct (getVmssAndResourceGroupNameByVMProviderID ss (ProviderID node))
      as [[resourceGroupName vmssName]|]; [|apply IH].
    destruct (EqualFold resourceGroupName (ResourceGroup ss)); apply IH.
Qed.

Lemma EnsureHostsInPool_loop_counted (service : Service) (backendPoolID vmSetNameOfLB : string)
    (nodes : list Node) (acc : Staging) (w : World Remote) :
  useStandardLoadBalancer ss = true ->
  EnsureHostsInPool_loop ss service backendPoolID vmSetNameOfLB
    (List.filter (counted ss) nodes) acc w =
  EnsureHostsInPool_loop ss service backendPoolID vmSetNameOfLB nodes acc w.
Proof.
  intros Hstd. revert acc w. induction nodes as [|node nodes IH]; intros acc w; [reflexivity|].
  cbn [List.filter]. unfold counted at 1.
  destruct (excludeMasterNodesFromStandardLB ss && isControlPlane node) eqn:Hcp; cbn [negb].
  - cbn [EnsureHostsInPool_loop]. rewrite Hstd. cbn [andb]. rewrite Hcp. apply IH.
  - cbn [EnsureHostsInPool_loop]. rewrite Hstd. cbn [andb]. rewrite Hcp. unfold bind, call.
    destruct (ShouldNodeExcludedFromLoadBalancer ss (nodeObjName node) (sys w))
      as [[[|]|err] s1]; [apply IH| |reflexivity].
    destruct (isNodeManagedByAvailabilitySet ss _ _ _) as [[[|]|err] s2]; try apply IH.
    destruct (EnsureHostInPool ss service (nodeObjName node) backendPoolID vmSetNameOfLB _)
      as [[[[[[rg vn] iid] [update|]] [err|]]|] w1]; try reflexivity; apply IH.
Qed.

(** X18.  Under the standard load balancer, [EnsureHostsInPool] leaves out
    the control-plane nodes when the configuration excludes them: with or
    without them among the nodes it makes the same calls, leaves the same
    world and returns the same error. *)
Theorem excluded_control_plane_nodes_do_not_count (service : Service) (nodes : list Node)
    (backendPoolID vmSetNameOfLB : string) (w : World Remote) :
  useStandardLoadBalancer ss = true ->
  EnsureHostsInPool ss service (List.filter (counted ss) nodes) backendPoolID vmSetNameOfLB w =
  EnsureHostsInPool ss service nodes backendPoolID vmSetNameOfLB w.
Proof.
  intros Hstd. unfold EnsureHostsInPool, bind.
  rewrite (EnsureHostsInPool_loop_counted service backendPoolID vmSetNameOfLB nodes
             noStaging w Hstd).
  destruct (EnsureHostsInPool_loop ss service backendPoolID vmSetNameOfLB nodes noStaging w)
    as [[[[err acc]|acc]|] w1]; try reflexivity.
  destruct (AggregateGoroutines _ w1) as [[[e|]|] w2]; try reflexivity.
  destruct (stagingErrors acc); [|reflexivity].
  unfold ensureVMSSInPool, bind.
  destruct (useStandardLoadBalancer ss && negb (EnableMultipleStandardLoadBalancers ss));
    [|reflexivity].
  rewrite vmssNamesOfNodes_counted. reflexivity.
Qed.



End Nodes.

(** The statement of X18 at the fleet with a control-plane node before its
    nodes. *)
Lemma excluded_control_plane_nodes_do_not_count_witness :
  let ss := Example.fleet [] in
  let nodes := {| nodeObjName := "master-0"; ProviderID := "azure:///m/0";
                  isControlPlane := true |} :: Example.fleetNodes in
  EnsureHostsInPool ss Example.service (List.filter (counted ss) nodes) "lb-pool" ""
    (Example.world Example.fleetHeap) =
  EnsureHostsInPool ss Example.service nodes "lb-pool" "" (Example.world Example.fleetHeap).
Proof.
  cbv zeta.
  apply (excluded_control_plane_nodes_do_not_count (Example.fleet []) Example.service).
  reflexivity.
Defined.

(** ** Selection of an IP configuration by its family *)

(** X20.  [getConfigForScaleSetByIPFamily] returns the first IP configuration
    whose version is the one of the family asked for, and fails exactly when
    there is none: neither the primary flag nor the number of the IP
    configurations counts, so that an IP configuration that is alone, or
    primary, but has no version set is not selected. *)
Theorem selection_by_family (ipcs : list VirtualMachineScaleSetIPConfiguration)
    (nodeName : string) (IPv6 : bool) :
  (forall i, getConfigForScaleSetByIPFamily (configOf ipcs) nodeName IPv6 = Val (Ok i) <->
             firstWith (ofFamily IPv6) ipcs i) /\
  ((exists e, getConfigForScaleSetByIPFamily (configOf ipcs) nodeName IPv6 = Val (Err e)) <->
   Forall (fun c => ofFamily IPv6 c = false) ipcs).
Proof.
  unfold getConfigForScaleSetByIPFamily. cbn [configOf IPConfigurations].
  fold (ofFamily IPv6).
  destruct (findIndex (ofFamily IPv6) ipcs) as [k|] eqn:Hfind.
  - split.
    + intros i. rewrite <- findIndex_Some, Hfind. split; [intros [= ->]|intros [= ->]]; reflexivity.
    + split; [intros [e [=]]|].
      intros Hnone. apply findIndex_None in Hnone. congruence.
  - split.
    + intros i. rewrite <- findIndex_Some, Hfind. split; discriminate.
    + split; [|intros _; eexists; reflexivity].
      intros _. apply findIndex_None. exact Hfind.
Qed.

(** ** Outcome of the bulk deletion *)

Section BulkDeleteOutcome.

Context {Remote : Type} (ss : ScaleSet Remote).

(** The loop over the IP configurations, from any accumulator: it deals with
    every one of them in its turn, and ends before the last one only on a
    panic. *)
Lemma EnsureBackendPoolDeleted_loop_unstages (backendPoolID vmSetName : string)
    (ids : list string) (acc : Unstaging) (w : World Remote) :
  (exists log w1,
     unstagesAll ss backendPoolID vmSetName ids w log w1 /\
     EnsureBackendPoolDeleted_loop ss backendPoolID vmSetName ids acc w =
       (Val (fold_left unstaged log acc), w1)) \/
  (exists pre id post log w1 w2,
     ids = pre ++ id :: post /\
     unstagesAll ss backendPoolID vmSetName pre w log w1 /\
     unstagingCrashes ss backendPoolID vmSetName id w1 w2 /\
     EnsureBackendPoolDeleted_loop ss backendPoolID vmSetName ids acc w = (Panic, w2)).
Proof.
  revert acc w. induction ids as [|id ids IH]; intros acc w.
  - left. exists [], w. split; [constructor|reflexivity].
  - assert (forall (r : Removal) (w1 : World Remote),
              unstages ss backendPoolID vmSetName id w r w1 ->
              forall k,
                k = EnsureBackendPoolDeleted_loop ss backendPoolID vmSetName ids
                      (unstaged acc r) w1 ->
                (exists log w2,
                   unstagesAll ss backendPoolID vmSetName (id :: ids) w log w2 /\
                   k = (Val (fold_left unstaged log acc), w2)) \/
                (exists pre id' post log w2 w3,
                   id :: ids = pre ++ id' :: post /\
                   unstagesAll ss backendPoolID vmSetName pre w log w2 /\
                   unstagingCrashes ss backendPoolID vmSetName id' w2 w3 /\
                   k = (Panic, w3))) as Hgo.
    { intros r w1 Hr k ->.
      destruct (IH (unstaged acc r) w1)
        as [[log [w2 [Hall Hrun]]]
           |[pre [id' [post [log [w2 [w3 [-> [Hall [Hcrash Hrun]]]]]]]]]].
      - left. exists (r :: log), w2. split; [econstructor; eassumption|exact Hrun].
      - right. exists (id :: pre), id', post, (r :: log), w2, w3.
        split; [reflexivity|]. split; [econstructor; eassumption|].
        split; [exact Hcrash|exact Hrun]. }
    set (k := EnsureBackendPoolDeleted_loop ss backendPoolID vmSetName (id :: ids) acc w).
    assert (k = EnsureBackendPoolDeleted_loop ss backendPoolID vmSetName (id :: ids) acc w)
      as Hk by reflexivity.
    clearbody k. cbn [EnsureBackendPoolDeleted_loop] in Hk. cbv zeta in Hk.
    fold (ofAnotherScaleSet ss vmSetName id) in Hk.
    destruct (ofAnotherScaleSet ss vmSetName id) eqn:Hother.
    { apply (Hgo LeftAlone w); [constructor; exact Hother|exact Hk]. }
    unfold bind at 1 in Hk.
    destruct (GetNodeNameByIPConfigurationID ss id w) as [[[[nodeName vmSet] [err|]]|] w1]
      eqn:Hname.
    + destruct (isErrorNotVmssInstance err) eqn:Hnot.
      { eapply (Hgo LeftAlone); [|exact Hk].
        eapply unstages_no_machine; [exact Hother|exact Hname|]. rewrite Hnot. reflexivity. }
      destruct (isInstanceNotFound err) eqn:Hfound.
      { eapply (Hgo LeftAlone); [|exact Hk].
        eapply unstages_no_machine; [exact Hother|exact Hname|]. rewrite Hnot, Hfound.
        reflexivity. }
      eapply (Hgo (Noted err)); [|exact Hk].
      eapply unstages_lookup_failed; [exact Hother|exact Hname|]. rewrite Hnot, Hfound.
      reflexivity.
    + unfold bind at 1 in Hk.
      destruct (ensureBackendPoolDeletedFromNode ss nodeName backendPoolID w1)
        as [[[[[[rg vn] iid] [update|]] [err|]]|] w2] eqn:Hstage.
      * destruct (isErrorNotVmssInstance err) eqn:Hnot; cbn [negb] in Hk.
        -- eapply (Hgo LeftAlone); [|exact Hk].
           eapply unstages_not_of_a_scale_set; eassumption.
        -- eapply (Hgo (Noted err)); [|exact Hk]. eapply unstages_failed; eassumption.
      * eapply Hgo; [eapply unstages_unlisted; eassumption|exact Hk].
      * destruct (isErrorNotVmssInstance err) eqn:Hnot; cbn [negb] in Hk.
        -- eapply (Hgo LeftAlone); [|exact Hk].
           eapply unstages_not_of_a_scale_set; eassumption.
        -- eapply (Hgo (Noted err)); [|exact Hk]. eapply unstages_failed; eassumption.
      * eapply (Hgo LeftAlone); [|exact Hk]. eapply unstages_nothing_to_update; eassumption.
      * right. exists [], id, ids, [], w, w2.
        split; [reflexivity|]. split; [constructor|]. split; [|exact Hk].
        split; [exact Hother|]. right. exists nodeName, vmSet, w1. auto.
    + right. exists [], id, ids, [], w, w1.
      split; [reflexivity|]. split; [constructor|]. split; [|exact Hk].
      split; [exact Hother|]. left. exact Hname.
Qed.

(** What the loop has built, by what it did with the IP configurations. *)
Lemma unstaged_parts (log : list Removal) (acc : Unstaging) :
  let acc' := fold_left unstaged log acc in
  delNodeUpdates acc' = groupsFrom (unlisted log) (delNodeUpdates acc) /\
  allErrs acc' = allErrs acc ++ collectedErrors log /\
  delDeferred acc' = unlistedNodes log ++ delDeferred acc.
Proof.
  cbv zeta. revert acc. induction log as [|r log IH]; intros acc.
  - cbn. rewrite app_nil_r. auto.
  - cbn [fold_left]. destruct (IH (unstaged acc r)) as [-> [-> ->]].
    unfold unlistedNodes. destruct r; cbn; rewrite <- ?app_assoc; cbn; auto.
Qed.

Lemma deletionTasks_calls (log : list Removal) : Forall isCall (deletionTasks ss log).
Proof.
  apply Forall_forall. intros task Hin. apply in_map_iff in Hin as [mu [<- _]].
  eexists _, _. reflexivity.
Qed.

(** X21.  [EnsureBackendPoolDeleted] deals with every IP configuration of
    the pool in its turn: its loop has no early exit, so that an error
    collected for one of them keeps none of the others from being looked at
    (the call ends early only on a panic, of the lookup of a node or of
    [ensureBackendPoolDeletedFromNode]).  Every update that was staged is in
    the group of its scale set, and the batched update of every group runs
    whatever the other ones return.  The call then returns the flattened
    aggregate of the failures of the updates when there is one (the errors
    collected in the loop are then left out); else the flattened aggregate
    of the errors collected in the loop, when there are some; else what the
    deletion from the scale sets themselves returns, when it is asked for,
    and no error when it is not.  Before it returns, the cache entries of
    the nodes whose machine is updated are invalidated. *)
Theorem bulk_delete_outcome (service : Service) (backendPoolID vmSetName : string)
    (pools : list BackendAddressPool) (deleteFromVMSet : bool) (w : World Remote)
    (ipConfigurationIDs : list string) :
  ipConfigurationIDsOf backendPoolID pools = Val ipConfigurationIDs ->
  let delete := EnsureBackendPoolDeleted ss service backendPoolID vmSetName (Some pools)
                  deleteFromVMSet w in
  let dealtWith := unstagesAll ss backendPoolID vmSetName in
  (exists pre id post log w1 w2,
     ipConfigurationIDs = pre ++ id :: post /\
     dealtWith pre w log w1 /\
     unstagingCrashes ss backendPoolID vmSetName id w1 w2 /\
     delete = (Panic, w2)) \/
  (exists log w1 errs w2 returned w2',
     dealtWith ipConfigurationIDs w log w1 /\
     (forall meta id update,
        (meta, id, update) ∈ unlisted log -> inGroup (deletionGroups log) meta id) /\
     ranAll (deletionTasks ss log) w1 errs w2 /\
     (returned, w2') =
       match errs, collectedErrors log with
       | _ :: _, _ => (Val (Flatten (NewAggregate errs)), w2)
       | [], _ :: _ => (Val (Flatten (NewAggregate (collectedErrors log))), w2)
       | [], [] =>
           if deleteFromVMSet
           then ensureBackendPoolDeletedFromVMSS ss service backendPoolID vmSetName
                  ipConfigurationIDs w2
           else (Val None, w2)
       end /\
     match returned with
     | Val r =>
         exists w3, runDeferred ss (unlistedNodes log) w2' = (Val tt, w3) /\
                    delete = (Val r, w3)
     | Panic => delete = (Panic, w2')
     end).
Proof.
  intros Hids. cbv zeta.
  assert (EnsureBackendPoolDeleted ss service backendPoolID vmSetName (Some pools)
            deleteFromVMSet w =
          (acc <- EnsureBackendPoolDeleted_loop ss backendPoolID vmSetName ipConfigurationIDs
                    {| delNodeUpdates := []; allErrs := []; delDeferred := [] |} ;;
           errs <- AggregateGoroutines
                     (map (fun mu => updateVMsTask ss (fst mu) (snd mu)) (delNodeUpdates acc)) ;;
           returned <-
             match errs with
             | Some _ => ret (Flatten errs)
             | None =>
                 match allErrs acc with
                 | _ :: _ => ret (Flatten (NewAggregate (allErrs acc)))
                 | [] =>
                     if deleteFromVMSet
                     then ensureBackendPoolDeletedFromVMSS ss service backendPoolID vmSetName
                            ipConfigurationIDs
                     else ret None
                 end
             end ;;
           _ <- runDeferred ss (delDeferred acc) ;;
           ret returned) w) as ->.
  { unfold EnsureBackendPoolDeleted. unfold bind at 1. rewrite Hids. reflexivity. }
  destruct (EnsureBackendPoolDeleted_loop_unstages backendPoolID vmSetName ipConfigurationIDs
              {| delNodeUpdates := []; allErrs := []; delDeferred := [] |} w)
    as [[log [w1 [Hall Hloop]]]
       |[pre [id [post [log [w1 [w2 [-> [Hall [Hcrash Hloop]]]]]]]]]].
  - right.
    destruct (unstaged_parts log {| delNodeUpdates := []; allErrs := []; delDeferred := [] |})
      as [Hnode [Herrs Hdeferred]].
    cbv zeta in Hnode, Herrs, Hdeferred.
    cbn [delNodeUpdates allErrs delDeferred app] in Hnode, Herrs, Hdeferred.
    rewrite app_nil_r in Hdeferred. fold (deletionGroups log) in Hnode.
    destruct (runAll_calls _ w1 (deletionTasks_calls log)) as [errs [w2 [Hrun Hran]]].
    assert (exists returned w2',
              (returned, w2') =
                match errs, collectedErrors log with
                | _ :: _, _ => (Val (Flatten (NewAggregate errs)), w2)
                | [], _ :: _ => (Val (Flatten (NewAggregate (collectedErrors log))), w2)
                | [], [] =>
                    if deleteFromVMSet
                    then ensureBackendPoolDeletedFromVMSS ss service backendPoolID vmSetName
                           ipConfigurationIDs w2
                    else (Val None, w2)
                end) as [returned [w2' Hreturned]].
    { destruct errs; [destruct (collectedErrors log)|]; try (eexists _, _; reflexivity).
      destruct deleteFromVMSet; [|eexists _, _; reflexivity].
      destruct (ensureBackendPoolDeletedFromVMSS ss service backendPoolID vmSetName
                  ipConfigurationIDs w2).
      eexists _, _; reflexivity. }
    exists log, w1, errs, w2, returned, w2'.
    split; [exact Hall|]. split.
    { intros meta id update Hin. apply groupsFrom_holds. right. exists update. exact Hin. }
    split; [exact Hran|]. split; [exact Hreturned|].
    unfold AggregateGoroutines, bind. rewrite Hloop. cbv beta iota.
    rewrite Hnode, Herrs, Hdeferred. fold (deletionTasks ss log). rewrite Hrun.
    destruct errs as [|err errs]; cbn [NewAggregate]; unfold ret; cbv beta iota.
    + destruct (collectedErrors log) as [|serr serrs].
      * destruct deleteFromVMSet.
        -- destruct (ensureBackendPoolDeletedFromVMSS ss service backendPoolID vmSetName
                       ipConfigurationIDs w2) as [[r|] w2''];
             injection Hreturned as -> ->; [|reflexivity].
           destruct (runDeferred_returns ss (unlistedNodes log) w2'') as [w3 Hdef].
           exists w3. rewrite Hdef. split; reflexivity.
        -- injection Hreturned as -> ->.
           destruct (runDeferred_returns ss (unlistedNodes log) w2) as [w3 Hdef].
           exists w3. rewrite Hdef. split; reflexivity.
      * injection Hreturned as -> ->.
        destruct (runDeferred_returns ss (unlistedNodes log) w2) as [w3 Hdef].
        exists w3. rewrite Hdef. split; reflexivity.
    + injection Hreturned as -> ->.
      destruct (runDeferred_returns ss (unlistedNodes log) w2) as [w3 Hdef].
      exists w3. rewrite Hdef. split; reflexivity.
  - left. exists pre, id, post, log, w1, w2.
    split; [reflexivity|]. split; [exact Hall|]. split; [exact Hcrash|].
    unfold bind. rewrite Hloop. reflexivity.
Qed.

End BulkDeleteOutcome.

(** The statement of X21 at the fleet, for a pool with one backend IP
    configuration that has an id. *)
Lemma bulk_delete_outcome_witness :
  let ss := Example.fleet [] in
  let w := Example.world Example.fleetHeap in
  let ids := ["nic-0/ipConfigurations/ipconfig1"] in
  let pools := [ {| poolID := Some "LB-POOL";
                    BackendIPConfigurations :=
                      Some [Some "nic-0/ipConfigurations/ipconfig1"; None] |} ] in
  let delete := EnsureBackendPoolDeleted ss Example.service "lb-pool" "vmss-a" (Some pools)
                  true w in
  (exists pre id post log w1 w2,
     ids = pre ++ id :: post /\
     unstagesAll ss "lb-pool" "vmss-a" pre w log w1 /\
     unstagingCrashes ss "lb-pool" "vmss-a" id w1 w2 /\
     delete = (Panic, w2)) \/
  (exists log w1 errs w2 returned w2',
     unstagesAll ss "lb-pool" "vmss-a" ids w log w1 /\
     (forall meta id update,
        (meta, id, update) ∈ unlisted log -> inGroup (deletionGroups log) meta id) /\
     ranAll (deletionTasks ss log) w1 errs w2 /\
     (returned, w2') =
       match errs, collectedErrors log with
       | _ :: _, _ => (Val (Flatten (NewAggregate errs)), w2)
       | [], _ :: _ => (Val (Flatten (NewAggregate (collectedErrors log))), w2)
       | [], [] =>
           ensureBackendPoolDeletedFromVMSS ss Example.service "lb-pool" "vmss-a" ids w2
       end /\
     match returned with
     | Val r =>
         exists w3, runDeferred ss (unlistedNodes log) w2' = (Val tt, w3) /\
                    delete = (Val r, w3)
     | Panic => delete = (Panic, w2')
     end).
Proof.
  cbv zeta.
  apply (bulk_delete_outcome (Example.fleet []) Example.service "lb-pool" "vmss-a"
           [ {| poolID := Some "LB-POOL";
                BackendIPConfigurations :=
                  Some [Some "nic-0/ipConfigurations/ipconfig1"; None] |} ]
           true (Example.world Example.fleetHeap) ["nic-0/ipConfigurations/ipconfig1"]).
  reflexivity.
Defined.
